(** * eth-fraud-sentinel: a shallow embedding of the training pipeline

    The development follows the Python sources under [backend/]:
    - [xgboost_fraud.py]: [iqr_clip], [engineer_features], [train_xgb] and its
      inner [fit_and_eval];
    - [random_forest_fraud.py], [svm_fraud.py]: the sibling [fit_and_eval]s;
    - [api.py]: [train_endpoint].

    Conventions of the embedding.
    - A pandas float is an [option Q]: [None] is NaN, [Some q] a finite number.
      Arithmetic is exact; the concrete inputs used below are small integers
      and dyadic fractions, on which IEEE doubles are exact as well.
    - A Python exception is a value of [exception]; fallible code lives in the
      error monad [exc].
    - A Python dict with string keys is a [gmap string _].
    - Third-party estimators and samplers (scikit-learn, imbalanced-learn,
      xgboost) are taken as parameters, bundled in the record [Library]. *)

From Stdlib Require Import QArith Qround Qreduction Ascii String.
From Stdlib Require Import Sorting.Sorted Sorting.Permutation.
From stdpp Require Import gmap strings list fin_maps.

Local Open Scope string_scope.
Local Open Scope list_scope.

(** ** Exceptions and the error monad *)

Inductive exception :=
  | KeyError (key : string)
  | TypeError (msg : string)
  | ValueError (msg : string)
  | AttributeError (name : string)
  | ZeroDivisionError
  | NotFittedError.

Inductive exc (A : Type) :=
  | OK (a : A)
  | Raise (e : exception).
Arguments OK {A} a.
Arguments Raise {A} e.

#[global] Instance exc_ret : MRet exc := fun A a => OK a.
#[global] Instance exc_bind : MBind exc := fun A B f m =>
  match m with
  | OK a => f a
  | Raise e => Raise e
  end.

(** ** Floats with NaN *)

Definition float := option Q.

Definition NaN : float := None.
Definition fl (q : Q) : float := Some (Qred q).

Definition isna (x : float) : bool :=
  match x with None => true | Some _ => false end.

Definition lift2 (f : Q -> Q -> Q) (x y : float) : float :=
  match x, y with
  | Some a, Some b => Some (Qred (f a b))
  | _, _ => None
  end.

Definition fadd := lift2 Qplus.
Definition fsub := lift2 Qminus.
Definition fmul := lift2 Qmult.

(** Comparisons involving NaN are false. *)
Definition fle (x y : float) : bool :=
  match x, y with
  | Some a, Some b => Qle_bool a b
  | _, _ => false
  end.

Definition fge (x y : float) : bool := fle y x.

Definition feq0 (x : float) : bool :=
  match x with Some a => Qeq_bool a 0 | None => false end.

(** [Series.between(low, high)], both ends inclusive. *)
Definition between (low high x : float) : bool := fle low x && fle x high.

Definition dropna (v : list float) : list Q :=
  omap (fun x => x) v.

(** ** Sorting and quantiles *)

Fixpoint insert_sorted (x : Q) (l : list Q) : list Q :=
  match l with
  | [] => [x]
  | y :: t => if Qle_bool x y then x :: y :: t else y :: insert_sorted x t
  end.

Fixpoint sort_values (l : list Q) : list Q :=
  match l with
  | [] => []
  | x :: t => insert_sorted x (sort_values t)
  end.

(** [Series.quantile(q)] with pandas' default linear interpolation: NaN is
    skipped, an empty series gives NaN; on the sorted values [a] of length
    [n] the virtual index is [(n-1)*q] and the result interpolates between
    its two neighbours. *)
Definition quantile (v : list float) (q : Q) : float :=
  let a := sort_values (dropna v) in
  match a with
  | [] => NaN
  | a0 :: _ =>
      let n := length a in
      let h := (inject_Z (Z.of_nat (n - 1)) * q)%Q in
      let lo := Z.to_nat (Qfloor h) in
      let hi := Nat.min (lo + 1) (n - 1) in
      let g := (h - inject_Z (Qfloor h))%Q in
      let x := nth lo a a0 in
      let y := nth hi a a0 in
      fl (x + (y - x) * g)
  end.

(** ** Data frames *)

Inductive series :=
  | Floats (v : list float)       (* a numeric column *)
  | Objects (v : list string).    (* an object (string) column *)

Record DataFrame := {
  index : list Z;
  columns : list (string * series);
}.

Definition nrows (df : DataFrame) : nat := length (index df).

Definition series_length (s : series) : nat :=
  match s with Floats v => length v | Objects v => length v end.

(** Every column has one entry per index label. *)
Definition well_formed (df : DataFrame) : Prop :=
  Forall (fun c => series_length c.2 = nrows df) (columns df).

Fixpoint assoc {A} (name : string) (l : list (string * A)) : option A :=
  match l with
  | [] => None
  | (k, s) :: t => if String.eqb k name then Some s else assoc name t
  end.

(** [df[c]] *)
Definition getitem (df : DataFrame) (c : string) : exc series :=
  match assoc c (columns df) with
  | Some s => OK s
  | None => Raise (KeyError c)
  end.

(** Numeric methods such as [quantile] and [between] need a numeric column. *)
Definition numeric (s : series) : exc (list float) :=
  match s with
  | Floats v => OK v
  | Objects _ => Raise (TypeError "unsupported operand type(s)")
  end.

(** Boolean indexing: keep the positions where the mask is [true]. *)
Fixpoint select {A} (mask : list bool) (l : list A) : list A :=
  match mask, l with
  | b :: m, x :: t => if b then x :: select m t else select m t
  | _, _ => []
  end.

Definition select_series (mask : list bool) (s : series) : series :=
  match s with
  | Floats v => Floats (select mask v)
  | Objects v => Objects (select mask v)
  end.

(** [df.loc[mask].copy()] *)
Definition loc (df : DataFrame) (mask : list bool) : DataFrame :=
  {| index := select mask (index df);
     columns := map (fun c => (c.1, select_series mask c.2)) (columns df) |}.

Fixpoint map2 {A B C} (f : A -> B -> C) (l1 : list A) (l2 : list B) : list C :=
  match l1, l2 with
  | x :: t1, y :: t2 => f x y :: map2 f t1 t2
  | _, _ => []
  end.

(** ** [iqr_clip] (xgboost_fraud.py) *)

(** One iteration of the loop: [keep_mask &= df[c].between(low, high) | df[c].isna()]. *)
Definition iqr_bounds (v : list float) (k : Q) : float * float :=
  let q1 := quantile v (1 # 4) in
  let q3 := quantile v (3 # 4) in
  let iqr := fsub q3 q1 in
  let low := fsub q1 (fmul (fl k) iqr) in
  let high := fadd q3 (fmul (fl k) iqr) in
  (low, high).

Definition iqr_column_mask (v : list float) (k : Q) : list bool :=
  let '(low, high) := iqr_bounds v k in
  map (fun x => between low high x || isna x) v.

Fixpoint iqr_keep_mask (df : DataFrame) (cols : list string) (k : Q)
    (keep_mask : list bool) : exc (list bool) :=
  match cols with
  | [] => OK keep_mask
  | c :: rest =>
      s ← getitem df c;
      v ← numeric s;
      iqr_keep_mask df rest k (map2 andb keep_mask (iqr_column_mask v k))
  end.

Definition iqr_clip (df : DataFrame) (cols : list string) (k : Q) : exc DataFrame :=
  keep_mask ← iqr_keep_mask df cols k (replicate (nrows df) true);
  OK (loc df keep_mask).

(** ** Row view of a frame

    A row is its index label together with the named cells at that position;
    it is how the claims about "rows" are read off the column-wise frame. *)

Inductive cell :=
  | CFloat (x : float)
  | CStr (s : string).

Definition series_cells (s : series) : list cell :=
  match s with
  | Floats v => map CFloat v
  | Objects v => map CStr v
  end.

Definition row : Type := Z * list (string * option cell).

Fixpoint rows_of (idx : list Z) (cols : list (string * list cell)) : list row :=
  match idx with
  | [] => []
  | lbl :: t =>
      (lbl, map (fun c => (c.1, head c.2)) cols)
        :: rows_of t (map (fun c => (c.1, tail c.2)) cols)
  end.

Definition rows (df : DataFrame) : list row :=
  rows_of (index df) (map (fun c => (c.1, series_cells c.2)) (columns df)).


(** The fence of the claim, stated with the rational order and independent of
    the rounding-free float helpers used by the code. *)
Definition Q1 (df : DataFrame) (c : string) : float :=
  match assoc c (columns df) with
  | Some (Floats v) => quantile v (1 # 4)
  | _ => NaN
  end.

Definition Q3 (df : DataFrame) (c : string) : float :=
  match assoc c (columns df) with
  | Some (Floats v) => quantile v (3 # 4)
  | _ => NaN
  end.

Definition in_fence (df : DataFrame) (c : string) (k : Q) (x : float) : Prop :=
  x = NaN ∨
  ∃ a q1 q3, x = Some a ∧ Q1 df c = Some q1 ∧ Q3 df c = Some q3 ∧
    (q1 - k * (q3 - q1) <= a)%Q ∧ (a <= q3 + k * (q3 - q1))%Q.

Definition numeric_column (df : DataFrame) (c : string) : Prop :=
  ∃ v, assoc c (columns df) = Some (Floats v).



(** ** Numbers on which double arithmetic is exact

    The embedding computes with exact rationals, the program with IEEE
    doubles. The two agree when every intermediate result is a double: that
    is the case for the sums, the quartiles (interpolated at multiples of
    1/4) and the fences (with [k = 3/2]) of integer values of moderate size,
    where all intermediate results are multiples of 1/8 far below [2^53].
    Statements that depend on the outcome of a comparison with such a
    computed bound are made for columns of these values. *)
Definition is_exact (x : float) : bool :=
  match x with
  | None => true
  | Some q =>
      (Qden (Qred q) =? 1)%positive && (Z.abs (Qnum (Qred q)) <=? 2 ^ 40)%Z
  end.



(** The column names of a frame are pairwise distinct. [pd.read_csv] makes
    them so; a rename can introduce duplicates, and on a duplicated name
    [df[name]] is a sub-frame in pandas and not the first column of that
    name, which is what [getitem] and [assoc] return. Statements about what
    the program computes from named columns are made for frames with
    distinct names. *)
Definition distinct_names (df : DataFrame) : Prop :=
  NoDup (map fst (columns df)).

(** ** [engineer_features] (xgboost_fraud.py): the frequency flag *)

(** [get_col(name)]: the column when present, else a series of zeros. *)
Definition get_col (df : DataFrame) (name : string) : exc (list float) :=
  match assoc name (columns df) with
  | Some s => numeric s
  | None => OK (replicate (nrows df) (fl 0))
  end.

(** [total_txn_freq.replace(0, np.nan)] *)
Definition replace_zero_nan (v : list float) : list float :=
  map (fun x => if feq0 x then NaN else x) v.

(** The sum of the two frequencies and the value assigned to
    [df['high_txn_freq_flag']] from it:
<<
    total_txn_freq = get_col('transaction_frequency_sent') + get_col('transaction_frequency_received')
    freq_proxy = total_txn_freq.replace(0, np.nan)
    q75 = freq_proxy.quantile(0.75) if not np.isnan(freq_proxy).all() else 0
    df['high_txn_freq_flag'] = (total_txn_freq >= q75).astype(int)
>> *)
Definition total_txn_freq (df : DataFrame) : exc (list float) :=
  sent ← get_col df "transaction_frequency_sent";
  received ← get_col df "transaction_frequency_received";
  OK (map2 fadd sent received).

Definition high_txn_freq_flag_of (total : list float) : list Z :=
  let freq_proxy := replace_zero_nan total in
  let q75 := if forallb isna freq_proxy then fl 0 else quantile freq_proxy (3 # 4) in
  map (fun x => if fge x q75 then 1%Z else 0%Z) total.

(** The flag as the specification words it: the threshold is the 75th
    percentile of the sum over all rows of the frame. *)
Definition spec_high_txn_freq_flag_of (total : list float) : list Z :=
  let q75 := quantile total (3 # 4) in
  map (fun x => if fge x q75 then 1%Z else 0%Z) total.

(** The threshold the code uses, written without NaN: the 75th percentile of
    the non-zero sums, and 0 when no sum is non-zero. *)
Definition nonzero_sums (total : list float) : list Q :=
  List.filter (fun q => negb (Qeq_bool q 0)) (dropna total).

Definition active_q75 (total : list float) : float :=
  match nonzero_sums total with
  | [] => fl 0
  | nz => quantile (map Some nz) (3 # 4)
  end.

Definition reaches (x thr : float) : Prop :=
  ∃ a t, x = Some a ∧ thr = Some t ∧ (t <= a)%Q.

(** Five addresses, two of them idle; none has received anything. *)
Definition freq_frame : DataFrame :=
  {| index := [0; 1; 2; 3; 4]%Z;
     columns :=
       [("address", Objects ["0xa"; "0xb"; "0xc"; "0xd"; "0xe"]);
        ("transaction_frequency_sent",
          Floats [fl 0; fl 0; fl 1; fl 2; fl 3]);
        ("transaction_frequency_received",
          Floats [fl 0; fl 0; fl 0; fl 0; fl 0]);
        ("transaction_count", Floats [fl 0; fl 0; fl 1; fl 2; fl 3])] |}.

(** One extreme sender among five. *)
Definition ledger_frame : DataFrame :=
  {| index := [0; 1; 2; 3; 4]%Z;
     columns :=
       [("total_sent", Floats [fl 1; fl 2; fl 3; fl 4; fl 100]);
        ("total_received", Floats [fl 5; NaN; fl 6; fl 7; fl 8]);
        ("fraud_label", Floats [fl 0; fl 0; fl 0; fl 0; fl 1])] |}.

(** ** Metrics records *)

(** One entry of [recent_events]: the dict
    [{'address', 'status', 'confidence', 'time'}]. *)
Record event := {
  address : string;
  status : string;
  confidence : float;
  time : string;
}.

(** The values stored in a metrics dict. *)
Inductive value :=
  | VFloat (x : float)
  | VInt (z : Z)
  | VStr (s : string)
  | VRecords (l : list (string * float))   (* [{"feature": _, "importance": _}] *)
  | VEvents (l : list event)
  | VParams (l : list (string * string)).

Abbreviation metrics := (gmap string value).

(** ** [train_endpoint] (api.py) *)

(** [str.lower()] on ASCII text: the letters [A]-[Z] are mapped to [a]-[z]
    and every other character is left alone. Python lower-cases by Unicode
    rules, under which a few characters outside ASCII lower-case to ASCII
    letters; a string stands for the Python string with the same characters
    only when [is_ascii] holds, and what is stated about [lower] below is
    stated for such strings. *)
Definition lower_ascii (c : ascii) : ascii :=
  let n := nat_of_ascii c in
  if (65 <=? n)%nat && (n <=? 90)%nat then ascii_of_nat (n + 32) else c.

Fixpoint lower (s : string) : string :=
  match s with
  | EmptyString => EmptyString
  | String c t => String (lower_ascii c) (lower t)
  end.

Definition is_ascii (s : string) : bool :=
  forallb (fun c => (nat_of_ascii c <? 128)%nat) (list_ascii_of_string s).

(** The form fields of a training request as the handler receives them. *)
Record request := {
  transactions_csv : string;       (* uploaded bytes *)
  features_csv : string;
  model : option string;
  no_tune : option bool;
  seed : option Z;
}.

(** The functions the handler imports from the training modules. *)
Record Backend := {
  load_and_prepare : string → string → exc DataFrame;
  engineer_features : DataFrame → exc DataFrame;
  train_xgb_fn : DataFrame → bool → option Z → exc metrics;
  train_svm_fn : DataFrame → bool → option Z → exc metrics;
  train_random_forest_fn : DataFrame → bool → option Z → exc metrics;
  train_neural_network_fn : DataFrame → bool → option Z → exc metrics;
}.

(** What the handler does to the outside, in order. *)
Inductive action :=
  | SaveUpload (name : string)
  | ParseFiles                     (* [load_and_prepare]: both CSVs are read *)
  | EngineerFeatures
  | Fit (used_model : string).

(** A computation that logs its actions and may raise. *)
Definition io (A : Type) : Type := list action * exc A.

#[global] Instance io_ret : MRet io := fun A a => ([], OK a).
#[global] Instance io_bind : MBind io := fun A B f m =>
  match m with
  | (log, OK a) => let '(log', r) := f a in (log ++ log', r)
  | (log, Raise e) => (log, Raise e)
  end.

Definition perform {A} (a : action) (r : exc A) : io A := ([a], r).

(** Python truthiness of the optional fields. *)
Definition or_empty (s : option string) : string := default "" s.
Definition not_ (b : option bool) : bool :=
  match b with Some true => false | _ => true end.

Definition train_endpoint (B : Backend) (req : request) : io metrics :=
  _ ← perform (SaveUpload "transactions.csv") (OK ());
  _ ← perform (SaveUpload "features.csv") (OK ());
  df ← perform ParseFiles
             (load_and_prepare B (transactions_csv req) (features_csv req));
  df ← perform EngineerFeatures (engineer_features B df);
  let chosen := lower (or_empty (model req)) in
  if String.eqb chosen "svm" then
    metrics ← perform (Fit "svm")
                    (train_svm_fn B df (not_ (no_tune req)) (seed req));
    mret (<["used_model" := VStr "svm"]> metrics)
  else if String.eqb chosen "random_forest" then
    metrics ← perform (Fit "random_forest")
                    (train_random_forest_fn B df (not_ (no_tune req)) (seed req));
    mret (<["used_model" := VStr "random_forest"]> metrics)
  else if String.eqb chosen "neural_network" then
    metrics ← perform (Fit "neural_network")
                    (train_neural_network_fn B df (not_ (no_tune req)) (seed req));
    mret (<["used_model" := VStr "neural_network"]> metrics)
  else
    metrics ← perform (Fit "xgboost")
                    (train_xgb_fn B df (not_ (no_tune req)) (seed req));
    mret (<["used_model" := VStr "xgboost"]> metrics).

(** The four families of the specification. *)
Definition known_family (name : string) : Prop :=
  lower name ∈ ["xgboost"; "svm"; "random_forest"; "neural_network"].

(** The claim as the specification words it: an unknown family name is
    rejected with a validation error before anything is parsed or fitted. *)
Definition rejects_unknown_family (B : Backend) : Prop :=
  ∀ req, ¬ known_family (or_empty (model req)) →
    ∃ msg, train_endpoint B req = ([], Raise (ValueError msg)).

(** A backend whose stages all succeed on anything. *)
Definition calm_backend : Backend :=
  {| load_and_prepare := fun _ _ => OK freq_frame;
     engineer_features := fun df => OK df;
     train_xgb_fn := fun _ _ _ => OK ∅;
     train_svm_fn := fun _ _ _ => OK ∅;
     train_random_forest_fn := fun _ _ _ => OK ∅;
     train_neural_network_fn := fun _ _ _ => OK ∅ |}.

Definition lightgbm_request : request :=
  {| transactions_csv := "from_address,to_address";
     features_csv := "address,flag";
     model := Some "LightGBM";
     no_tune := Some true;
     seed := Some 42%Z |}.

(** ** Third-party components

    Estimators, the sampler, the splitter and the ranking metrics come from
    scikit-learn, imbalanced-learn and xgboost; the pipeline is parametric in
    them. Objects of these libraries are mutable in Python; here a method that
    mutates its receiver returns the new state. *)

Definition matrix := list (list float).   (* a 2-D array, one list per row *)

(** [X.shape[1]], read off the first row. *)
Definition shape_1 (X : matrix) : nat :=
  match X with
  | r :: _ => length r
  | [] => 0
  end.

Inductive param :=
  | PInt (z : Z)
  | PFloat (q : Q)
  | PStr (s : string)
  | PBool (b : bool)
  | PNone.

Inductive distribution :=
  | randint (low high : Z)
  | uniform (loc scale : Q)
  | loguniform (a b : Q)
  | choice (options : list param).

Record Library := {
  (** [train_test_split(X, y, test_size=0.20, random_state=_, stratify=y)],
      giving [(X_train, X_test, y_train, y_test)]. *)
  train_test_split :
    DataFrame → list Z → Z → exc (DataFrame * DataFrame * list Z * list Z);
  (** [StandardScaler(with_mean=True, with_std=True)]: the statistics
      [(mean_, scale_)] fitted on the values of one column. *)
  scaler_statistics : list float → float * float;
  (** [SMOTE(random_state=_).fit_resample(X, y)]. *)
  smote_fit_resample : Z → matrix → list Z → exc (matrix * list Z);
  (** Classifier objects. *)
  Estimator : Type;
  XGBClassifier : list (string * param) → Estimator;
  RandomForestClassifier : list (string * param) → Estimator;
  SVC : list (string * param) → Estimator;
  fit : Estimator → matrix → list Z → exc Estimator;
  (** [clf.predict_proba(X)[:, 1]] *)
  predict_proba_1 : Estimator → matrix → exc (list float);
  (** [getattr(clf, 'feature_importances_', None)]: [OK None] when the
      attribute is absent, [Raise] when reading it fails otherwise. *)
  feature_importances_ : Estimator → exc (option (list float));
  (** [RandomizedSearchCV(estimator, param_distributions, n_iter, cv,
      scoring='average_precision', random_state).fit(X, y)], giving
      [(best_estimator_, best_params_)]. *)
  RandomizedSearchCV :
    Estimator → list (string * distribution) → nat → nat → Z →
    matrix → list Z → exc (Estimator * list (string * string));
  roc_auc_score : list Z → list float → exc float;
  average_precision_score : list Z → list float → exc float;
  classification_report : list Z → list Z → exc string;
  (** [str(x)] of a float, for [astype(str)] on a numeric column. *)
  str_of_float : float → string;
}.

(** ** Integer series *)

Definition of_Z (z : Z) : float := fl (inject_Z z).

Definition fdiv (x y : float) : float :=
  match x, y with
  | Some a, Some b => if Qeq_bool b 0 then NaN else Some (Qred (a / b))
  | _, _ => NaN
  end.

(** [y.sum()], [(y == c).sum()] and [y.mean()] of an integer series. *)
Definition sum_Z (y : list Z) : Z := foldr Z.add 0%Z y.

Definition count_eq (c : Z) (y : list Z) : Z :=
  Z.of_nat (length (List.filter (Z.eqb c) y)).

Definition mean_Z (y : list Z) : float :=
  fdiv (of_Z (sum_Z y)) (of_Z (Z.of_nat (length y))).

(** [Series.astype(int)]: NaN cannot be cast, other values are truncated. *)
Definition truncate (q : Q) : Z :=
  if Qle_bool 0 q then Qfloor q else Qceiling q.

Definition astype_int (v : list float) : exc (list Z) :=
  mapM (fun x => match x with
                 | Some q => OK (truncate q)
                 | None => Raise (ValueError "Cannot convert non-finite values (NA or inf) to integer")
                 end) v.

(** ** Scores (sklearn.metrics), as called with [zero_division=0]

    The four threshold scores are written out from their documented
    definitions for binary targets with positive label 1: with [tp], [fp] and
    [fn] the counts of true positives, false positives and false negatives,
    precision is [tp/(tp+fp)], recall is [tp/(tp+fn)] and F1 is
    [2tp/(2tp+fp+fn)]; a zero denominator gives the [zero_division] value 0.
    Targets of different lengths or with a label other than 0 and 1 are
    rejected with [ValueError]. *)

Definition count_pairs (yt yp : Z) (y_true y_pred : list Z) : Z :=
  Z.of_nat (length (List.filter (fun p => Z.eqb p.1 yt && Z.eqb p.2 yp)
                                (zip y_true y_pred))).

Definition is_binary (y : list Z) : bool :=
  forallb (fun z => Z.eqb z 0 || Z.eqb z 1) y.

Definition check_targets (y_true y_pred : list Z) : exc unit :=
  if negb (length y_true =? length y_pred)%nat then
    Raise (ValueError "Found input variables with inconsistent numbers of samples")
  else if negb (is_binary y_true && is_binary y_pred) then
    Raise (ValueError "Target is multiclass but average='binary'")
  else OK ().

(** [tp / denominator], or the [zero_division] value when the denominator is 0. *)
Definition ratio_or (zero_division : Q) (num den : Z) : float :=
  if (den =? 0)%Z then fl zero_division else fdiv (of_Z num) (of_Z den).

Definition accuracy_score (y_true y_pred : list Z) : exc float :=
  if negb (length y_true =? length y_pred)%nat then
    Raise (ValueError "Found input variables with inconsistent numbers of samples")
  else
    let hits := Z.of_nat (length (List.filter (fun p => Z.eqb p.1 p.2)
                                              (zip y_true y_pred))) in
    OK (fdiv (of_Z hits) (of_Z (Z.of_nat (length y_true)))).

Definition precision_score (y_true y_pred : list Z) (zero_division : Q) : exc float :=
  _ ← check_targets y_true y_pred;
  let tp := count_pairs 1 1 y_true y_pred in
  let fp := count_pairs 0 1 y_true y_pred in
  OK (ratio_or zero_division tp (tp + fp)).

Definition recall_score (y_true y_pred : list Z) (zero_division : Q) : exc float :=
  _ ← check_targets y_true y_pred;
  let tp := count_pairs 1 1 y_true y_pred in
  let fn := count_pairs 1 0 y_true y_pred in
  OK (ratio_or zero_division tp (tp + fn)).

Definition f1_score (y_true y_pred : list Z) (zero_division : Q) : exc float :=
  _ ← check_targets y_true y_pred;
  let tp := count_pairs 1 1 y_true y_pred in
  let fp := count_pairs 0 1 y_true y_pred in
  let fn := count_pairs 1 0 y_true y_pred in
  OK (ratio_or zero_division (2 * tp) (2 * tp + fp + fn)).

(** ** Sorting a frame by a float column

    [DataFrame.sort_values(by, ascending)] with missing keys last. The sort
    is the stable insertion sort; for a descending sort pandas reverses the
    rows, sorts ascending and reverses again. (NumPy's default sort is only
    stable on short arrays; no statement below depends on the order of rows
    with equal keys.) *)

Fixpoint insert_by {A} (key : A → float) (x : A) (l : list A) : list A :=
  match l with
  | [] => [x]
  | y :: t => if fle (key x) (key y) then x :: y :: t else y :: insert_by key x t
  end.

Definition sort_by {A} (key : A → float) (l : list A) : list A :=
  foldr (insert_by key) [] l.

Definition sort_values_by {A} (key : A → float) (ascending : bool) (l : list A) : list A :=
  let non_nans := List.filter (fun r => negb (isna (key r))) l in
  let nans := List.filter (fun r => isna (key r)) l in
  let sorted :=
    if ascending then sort_by key non_nans
    else rev (sort_by key (rev non_nans)) in
  sorted ++ nans.

(** ** The preprocessor *)

(** [ColumnTransformer([('num', StandardScaler(), columns)], remainder='drop')]:
    the columns it was built with and, once fitted, the statistics of each. *)
Record ColumnTransformer := {
  ct_columns : list string;
  ct_statistics : option (list (float * float));
}.

(** The listed columns of a frame, as numeric vectors. *)
Definition select_columns (X : DataFrame) (names : list string) : exc (list (list float)) :=
  mapM (fun c => s ← getitem X c; numeric s) names.

Definition standardize (stats : float * float) (v : list float) : list float :=
  map (fun x => fdiv (fsub x stats.1) stats.2) v.

Fixpoint to_rows (n : nat) (cols : list (list float)) : matrix :=
  match n with
  | O => []
  | S n' => map (fun c => default NaN (head c)) cols :: to_rows n' (map tail cols)
  end.

Definition scale_columns (stats : list (float * float)) (n : nat)
    (cols : list (list float)) : matrix :=
  to_rows n (map2 standardize stats cols).

(** [pre.fit_transform(X)]: the statistics are recomputed from [X] and stored
    in the transformer. *)
Definition fit_transform (L : Library) (pre : ColumnTransformer) (X : DataFrame)
    : ColumnTransformer * exc matrix :=
  match select_columns X (ct_columns pre) with
  | Raise e => (pre, Raise e)
  | OK cols =>
      let stats := map (scaler_statistics L) cols in
      ({| ct_columns := ct_columns pre; ct_statistics := Some stats |},
       OK (scale_columns stats (nrows X) cols))
  end.

(** [pre.transform(X)]: the stored statistics are applied; nothing is stored. *)
Definition transform (pre : ColumnTransformer) (X : DataFrame) : exc matrix :=
  match ct_statistics pre with
  | None => Raise NotFittedError
  | Some stats =>
      cols ← select_columns X (ct_columns pre);
      OK (scale_columns stats (nrows X) cols)
  end.

(** [pre.transformers_[0][2]] *)
Definition transformers_columns (pre : ColumnTransformer) : exc (list string) :=
  match ct_statistics pre with
  | None => Raise (AttributeError "transformers_")
  | Some _ => OK (ct_columns pre)
  end.

(** ** Diagnostics of [fit_and_eval] *)

(** [pd.DataFrame({"feature": names, "importance": importances})
      .sort_values("importance", ascending=False).head(50).to_dict("records")] *)
Definition feature_ranking (names : list string) (importances : list float)
    : exc (list (string * float)) :=
  if negb (length names =? length importances)%nat then
    Raise (ValueError "All arrays must be of the same length")
  else OK (take 50 (sort_values_by snd false (zip names importances))).

(** The body of the first [try]: [OK None] when the classifier has no
    importances, [OK (Some ranking)] when it has. *)
Definition importances_block (L : Library) (pre : ColumnTransformer)
    (clf : Estimator L) : exc (option (list (string * float))) :=
  num_feature_names ← transformers_columns pre;
  importances ← feature_importances_ L clf;
  match importances with
  | None => OK None
  | Some imp => fi ← feature_ranking num_feature_names imp; OK (Some fi)
  end.

(** [series.loc[labels]] by index label. *)
Fixpoint position (lbl : Z) (idx : list Z) : option nat :=
  match idx with
  | [] => None
  | l :: t => if Z.eqb l lbl then Some O else S <$> position lbl t
  end.

Definition loc_labels {A} (idx : list Z) (values : list A) (labels : list Z)
    : exc (list A) :=
  mapM (fun lbl =>
          match position lbl idx ≫= (fun i => values !! i) with
          | Some x => OK x
          | None => Raise (KeyError "not in index")
          end) labels.

Definition astype_str (L : Library) (s : series) : list string :=
  match s with
  | Objects v => v
  | Floats v => map (str_of_float L) v
  end.

Definition series_loc (idx : list Z) (s : series) (labels : list Z) : exc series :=
  match s with
  | Floats v => v' ← loc_labels idx v labels; OK (Floats v')
  | Objects v => v' ← loc_labels idx v labels; OK (Objects v')
  end.

(** [row['address'][:12]] *)
Definition first_12 (s : string) : string := substring 0 12 s.

Definition fraud_event (r : string * float) : event :=
  {| address := first_12 r.1; status := "fraud";
     confidence := r.2; time := "just now" |}.

Definition legitimate_event (r : string * float) : event :=
  {| address := first_12 r.1; status := "legitimate";
     confidence := fsub (fl 1) r.2; time := "just now" |}.

(** The events built from the frame [df_events] of test addresses and
    fraud probabilities. *)
Definition events_of (df_events : list (string * float)) : list event :=
  let top_frauds := take 10 (sort_values_by snd false df_events) in
  let top_legits := take 10 (sort_values_by snd true df_events) in
  map fraud_event top_frauds ++ map legitimate_event top_legits.

(** The body of the second [try]. *)
Definition events_block (L : Library) (addresses_index : list Z) (addresses : series)
    (test_index : list Z) (proba : list float) : exc (list event) :=
  addr ← series_loc addresses_index addresses test_index;
  let addr_test := astype_str L addr in
  if negb (length proba =? length test_index)%nat then
    Raise (ValueError "Length of values does not match length of index")
  else OK (events_of (zip addr_test proba)).

(** ** [fit_and_eval]

    The three training modules define the same inner function; they differ in
    how the feature importances enter the metrics, which is the only place
    where [family] is consulted. *)

Inductive family := XGBoost | RandomForest | SVM.

(** The variables [fit_and_eval] closes over. *)
Record closure := {
  X_train : DataFrame;
  X_test : DataFrame;
  y_train : list Z;
  y_test : list Z;
  addresses_index : list Z;
  addresses : series;
  original_fraud_rate : float;
  original_total : Z;
  original_fraud : Z;
  random_state : Z;
}.

(** [(proba >= 0.5).astype(int)] *)
Definition threshold (proba : list float) : list Z :=
  map (fun p => if fge p (fl (1 # 2)) then 1%Z else 0%Z) proba.

(** The first [try ... except] of each module. *)
Definition with_importances (fam : family)
    (block : exc (option (list (string * float)))) (m : metrics) : metrics :=
  match fam with
  | XGBoost =>
      match block with
      | OK (Some fi) => <["feature_importances" := VRecords fi]> m
      | OK None => m
      | Raise _ => m                                              (* pass *)
      end
  | RandomForest =>
      match block with
      | OK (Some fi) => <["feature_importances" := VRecords fi]> m
      | OK None => m
      | Raise _ => <["feature_importances" := VRecords []]> m
      end
  | SVM => m
  end.

(** The second [try ... except], the same in the three modules. *)
Definition with_events (block : exc (list event)) (m : metrics) : metrics :=
  match block with
  | OK events => <["recent_events" := VEvents events]> m
  | Raise _ => <["recent_events" := VEvents []]> m
  end.

(** The dict literal bound to [metrics]. [utcnow] is the reading of the clock
    when it is built, in ISO format. The SVM module has one more entry. *)
Definition base_metrics (fam : family) (env : closure) (utcnow : string)
    (X_tr : matrix) (y_tr : list Z)
    (accuracy precision recall f1 roc_auc pr_auc : float) (report : string)
    : metrics :=
  list_to_map
    ([("accuracy", VFloat accuracy);
      ("precision", VFloat precision);
      ("recall", VFloat recall);
      ("f1", VFloat f1);
      ("roc_auc", VFloat roc_auc);
      ("pr_auc", VFloat pr_auc);
      ("report", VStr report);
      ("train_samples_pre_smote", VInt (Z.of_nat (nrows (X_train env))));
      ("train_samples_post_smote", VInt (Z.of_nat (length X_tr)));
      ("test_samples", VInt (Z.of_nat (nrows (X_test env))));
      ("num_features", VInt (Z.of_nat (shape_1 X_tr)));
      ("original_fraud_rate", VFloat (original_fraud_rate env));
      ("balanced_fraud_rate", VFloat (mean_Z y_tr));
      ("original_total", VInt (original_total env));
      ("original_fraud", VInt (original_fraud env));
      ("pre_smote_fraud", VInt (sum_Z (y_train env)));
      ("pre_smote_legit", VInt (count_eq 0 (y_train env)));
      ("post_smote_fraud", VInt (sum_Z y_tr));
      ("post_smote_legit", VInt (count_eq 0 y_tr));
      ("timestamp", VStr (utcnow +:+ "Z"))]
     ++ match fam with
        | SVM => [("feature_importances", VRecords [])]
        | _ => []
        end).

(** The two best-effort blocks that follow the dict literal. *)
Definition with_diagnostics (L : Library) (fam : family) (env : closure)
    (pre : ColumnTransformer) (clf : Estimator L) (proba : list float)
    (m : metrics) : metrics :=
  with_events
    (events_block L (addresses_index env) (addresses env)
       (index (X_test env)) proba)
    (with_importances fam (importances_block L pre clf) m).

(** The first component of the result is the state of the shared
    preprocessor [pre] after the call; the third component of a successful
    result is the same object, as returned to the caller. *)
Definition fit_and_eval (L : Library) (fam : family) (env : closure)
    (utcnow : string) (pre : ColumnTransformer) (clf : Estimator L)
    : ColumnTransformer * exc (metrics * Estimator L * ColumnTransformer) :=
  let '(pre, X_tr) := fit_transform L pre (X_train env) in
  (pre,
   X_tr ← X_tr;
   X_te ← transform pre (X_test env);
   '(X_tr, y_tr) ← smote_fit_resample L (random_state env) X_tr (y_train env);
   clf ← fit L clf X_tr y_tr;
   proba ← predict_proba_1 L clf X_te;
   let preds := threshold proba in
   accuracy ← accuracy_score (y_test env) preds;
   precision ← precision_score (y_test env) preds 0;
   recall ← recall_score (y_test env) preds 0;
   f1 ← f1_score (y_test env) preds 0;
   roc_auc ← roc_auc_score L (y_test env) proba;
   pr_auc ← average_precision_score L (y_test env) proba;
   report ← classification_report L (y_test env) preds;
   let metrics :=
     base_metrics fam env utcnow X_tr y_tr
       accuracy precision recall f1 roc_auc pr_auc report in
   OK (with_diagnostics L fam env pre clf proba metrics, clf, pre)).

(** ** [train_xgb], [train_random_forest], [train_svm] *)

(** [substr in name] *)
Fixpoint is_substring (sub s : string) : bool :=
  String.prefix sub s ||
  match s with
  | EmptyString => false
  | String _ t => is_substring sub t
  end.

Definition is_numeric_dtype (s : series) : bool :=
  match s with Floats _ => true | Objects _ => false end.

(** [df.drop(columns=names, errors='ignore')] *)
Definition drop_columns (names : list string) (df : DataFrame) : DataFrame :=
  {| index := index df;
     columns := List.filter (fun c => negb (existsb (String.eqb c.1) names))
                            (columns df) |}.

(** [pd.concat([X, y], axis=1)] for a label series on the same index. *)
Definition concat_label (X : DataFrame) (y : list Z) : DataFrame :=
  {| index := index X;
     columns := columns X ++ [("fraud_label", Floats (map of_Z y))] |}.

Definition flag_like : list string := ["flag"; "label"; "binary"; "bool"].

Definition continuous_like (numeric_cols : list string) : list string :=
  List.filter
    (fun c => negb (existsb (fun substr => is_substring substr (lower c)) flag_like))
    numeric_cols.

Definition base_estimator (L : Library) (fam : family) (random_state : Z) : Estimator L :=
  match fam with
  | XGBoost =>
      XGBClassifier L
        [("n_estimators", PInt 400); ("learning_rate", PFloat (8 # 100));
         ("max_depth", PInt 6); ("subsample", PFloat (9 # 10));
         ("colsample_bytree", PFloat (9 # 10)); ("reg_lambda", PFloat 1);
         ("reg_alpha", PFloat 0); ("min_child_weight", PInt 1);
         ("tree_method", PStr "hist"); ("random_state", PInt random_state);
         ("n_jobs", PInt (-1)); ("eval_metric", PStr "logloss");
         ("use_label_encoder", PBool false)]
  | RandomForest =>
      RandomForestClassifier L
        [("n_estimators", PInt 400); ("max_depth", PNone);
         ("min_samples_split", PInt 2); ("min_samples_leaf", PInt 1);
         ("max_features", PStr "sqrt"); ("bootstrap", PBool true);
         ("n_jobs", PInt (-1)); ("random_state", PInt random_state)]
  | SVM =>
      SVC L
        [("kernel", PStr "rbf"); ("probability", PBool true);
         ("class_weight", PNone); ("random_state", PInt random_state)]
  end.

Definition param_dist (fam : family) : list (string * distribution) :=
  match fam with
  | XGBoost =>
      [("n_estimators", randint 300 900);
       ("learning_rate", uniform (2 # 100) (12 # 100));
       ("max_depth", randint 3 10);
       ("subsample", uniform (6 # 10) (4 # 10));
       ("colsample_bytree", uniform (6 # 10) (4 # 10));
       ("reg_lambda", uniform 0 2);
       ("reg_alpha", uniform 0 1);
       ("min_child_weight", randint 1 10)]
  | RandomForest =>
      [("n_estimators", randint 200 1000);
       ("max_depth", randint 3 30);
       ("min_samples_split", randint 2 10);
       ("min_samples_leaf", randint 1 10);
       ("max_features", choice [PStr "sqrt"; PStr "log2"; PNone]);
       ("bootstrap", choice [PBool true; PBool false])]
  | SVM =>
      [("C", loguniform (1 # 100) 100);
       ("gamma", loguniform (1 # 10000) 1);
       ("kernel", choice [PStr "rbf"])]
  end.

(** The seed handed to [RandomizedSearchCV]: the XGBoost module fixes it. *)
Definition search_random_state (fam : family) (random_state : Z) : Z :=
  match fam with
  | XGBoost => 42
  | _ => random_state
  end.

(** The common body of the three training functions. *)
Definition train (L : Library) (fam : family) (utcnow : string) (df : DataFrame)
    (random_search : bool) (n_iter cv : nat) (random_state : Z)
    : exc (metrics * Estimator L * ColumnTransformer) :=
  label ← getitem df "fraud_label";
  label ← numeric label;
  y ← astype_int label;
  let X := drop_columns ["fraud_label"; "address"] df in
  let numeric_cols :=
    map fst (List.filter (fun c => is_numeric_dtype c.2) (columns X)) in
  let X := {| index := index X;
              columns := List.filter (fun c => is_numeric_dtype c.2) (columns X) |} in
  let addresses :=
    match assoc "address" (columns df) with
    | Some s => s
    | None => Objects (replicate (nrows df) "unknown")
    end in
  let Xy := concat_label X y in
  Xy ← iqr_clip Xy (continuous_like numeric_cols) (3 # 2);
  let X := drop_columns ["fraud_label"] Xy in
  label ← getitem Xy "fraud_label";
  label ← numeric label;
  y' ← astype_int label;
  '(X_train, X_test, y_train, y_test) ← train_test_split L X y' random_state;
  let pre := {| ct_columns := map fst (columns X); ct_statistics := None |} in
  let env :=
    {| X_train := X_train; X_test := X_test;
       y_train := y_train; y_test := y_test;
       addresses_index := index df; addresses := addresses;
       original_fraud_rate := mean_Z y;
       original_total := Z.of_nat (length y);
       original_fraud := sum_Z y;
       random_state := random_state |} in
  let base := base_estimator L fam random_state in
  if negb random_search then
    (fit_and_eval L fam env utcnow pre base).2
  else
    let '(pre, X_tr_all) := fit_transform L pre X_train in
    X_tr_all ← X_tr_all;
    '(X_tr_all, y_tr_all) ← smote_fit_resample L random_state X_tr_all y_train;
    '(best, best_params) ←
      RandomizedSearchCV L base (param_dist fam) n_iter cv
        (search_random_state fam random_state) X_tr_all y_tr_all;
    '(metrics, model, preproc) ← (fit_and_eval L fam env utcnow pre best).2;
    OK (<["best_params" := VParams best_params]> metrics, model, preproc).

Definition train_xgb (L : Library) (utcnow : string) (df : DataFrame)
    (random_search : bool) (random_state : Z) :=
  train L XGBoost utcnow df random_search 20 5 random_state.

Definition train_random_forest (L : Library) (utcnow : string) (df : DataFrame)
    (random_search : bool) (random_state : Z) :=
  train L RandomForest utcnow df random_search 25 5 random_state.

Definition train_svm (L : Library) (utcnow : string) (df : DataFrame)
    (random_search : bool) (random_state : Z) :=
  train L SVM utcnow df random_search 20 5 random_state.

(** ** The class balancer *)

(** One random draw of the sampler: which neighbour, and how far towards it. *)
Record draw := {
  neighbour_choice : nat;
  ratio : Q;
}.

Definition sq_distance (a b : list float) : float :=
  foldr fadd (fl 0) (map2 (fun x y => fmul (fsub x y) (fsub x y)) a b).

Definition interpolate (s nb : list float) (r : Q) : list float :=
  map2 (fun x y => fadd x (fmul (fl r) (fsub y x))) s nb.

(** The [k] nearest same-class neighbours of the [i]-th minority sample. *)
Definition nearest_neighbours (k : nat) (minority : matrix) (i : nat)
    (s : list float) : matrix :=
  take k (sort_by (sq_distance s) (delete i minority)).

Definition synthetic_sample (k : nat) (minority : matrix) (j : nat) (d : draw)
    : exc (list float) :=
  let i := (j mod length minority)%nat in
  match minority !! i with
  | None => Raise (ValueError "no sample of the minority class")
  | Some s =>
      let neighbours := nearest_neighbours k minority i s in
      match neighbours !! (neighbour_choice d mod length neighbours)%nat with
      | None => Raise (ValueError "no same-class neighbour")
      | Some nb => OK (interpolate s nb (ratio d))
      end
  end.

(** Modelled from the spec: the synthetic minority oversampler
    ([imblearn.over_sampling.SMOTE], which is not part of the sources), after
    section 4.5: "for each minority-class sample, locate its k nearest
    same-class neighbors in feature space and generate synthetic samples by
    linear interpolation between the sample and a randomly chosen neighbor at
    a random interpolation ratio in [0,1], repeated until minority and
    majority counts are equal". The minority samples are visited in turn;
    [rng random_state j] is the [j]-th draw of the generator seeded with
    [random_state]. The sampler cannot complete when a synthetic sample is
    needed and a minority sample has no same-class neighbour. *)
Definition smote_spec (k : nat) (rng : Z → nat → draw) (random_state : Z)
    (X : matrix) (y : list Z) : exc (matrix * list Z) :=
  let n_fraud := count_eq 1 y in
  let n_legit := count_eq 0 y in
  let minority_label := if (n_fraud <? n_legit)%Z then 1%Z else 0%Z in
  let needed := Z.to_nat (Z.abs (n_legit - n_fraud)) in
  let minority :=
    map fst (List.filter (fun p => Z.eqb p.2 minority_label) (zip X y)) in
  synthetic ← mapM (fun j => synthetic_sample k minority j (rng random_state j))
                   (seq 0 needed);
  OK (X ++ synthetic, y ++ replicate needed minority_label).

(** ** A small library instance

    A deliberately simple instance of [Library], used to run the pipeline on
    concrete data: the splitter puts the last fifth of the rows in the test
    partition, the scaler centres without scaling, the "classifier" scores a
    row by its first feature, and the ranking metrics are constant. *)

Record toy_estimator := {
  toy_params : list (string * param);
  toy_importances : exc (option (list float));
}.

Definition toy_split (X : DataFrame) (y : list Z) (_ : Z)
    : exc (DataFrame * DataFrame * list Z * list Z) :=
  let n := nrows X in
  let n_test := (n - n * 4 / 5)%nat in
  if (n_test =? 0)%nat then Raise (ValueError "the test set would be empty")
  else
    let train_mask := replicate (n - n_test) true ++ replicate n_test false in
    let test_mask := replicate (n - n_test) false ++ replicate n_test true in
    OK (loc X train_mask, loc X test_mask, select train_mask y, select test_mask y).

Definition toy_rng (seed : Z) (j : nat) : draw :=
  {| neighbour_choice := j; ratio := 1 # 2 |}.

Definition toy_library : Library :=
  {| train_test_split := toy_split;
     scaler_statistics := fun _ => (fl 0, fl 1);
     smote_fit_resample := smote_spec 5 toy_rng;
     Estimator := toy_estimator;
     XGBClassifier := fun ps => {| toy_params := ps; toy_importances := OK (Some [fl 1]) |};
     RandomForestClassifier := fun ps => {| toy_params := ps; toy_importances := OK (Some [fl 1]) |};
     SVC := fun ps => {| toy_params := ps; toy_importances := OK None |};
     fit := fun clf _ _ => OK clf;
     predict_proba_1 := fun _ X => OK (map (fun r => default NaN (head r)) X);
     feature_importances_ := toy_importances;
     RandomizedSearchCV := fun clf _ _ _ _ _ _ => OK (clf, []);
     roc_auc_score := fun _ _ => OK (fl 1);
     average_precision_score := fun _ _ => OK (fl 1);
     classification_report := fun _ _ => OK "report";
     str_of_float := fun _ => "nan" |}.

(** ** Vocabulary of the claims about events *)

(** [x] may stand before [y] in a descending (resp. ascending) ranking:
    missing probabilities come last. *)
Definition before_desc (x y : float) : Prop :=
  y = NaN ∨ ∃ a b, x = Some a ∧ y = Some b ∧ (b <= a)%Q.

Definition before_asc (x y : float) : Prop :=
  y = NaN ∨ ∃ a b, x = Some a ∧ y = Some b ∧ (a <= b)%Q.

Definition ranked (before : float → float → Prop)
    (rows sorted : list (string * float)) : Prop :=
  sorted ≡ₚ rows ∧
  StronglySorted (fun r s => before r.2 s.2) sorted.

(** The events as the specification words them: the fraud side holds the
    test addresses that are predicted fraud (probability at least one half). *)
Definition spec_events_of (df_events : list (string * float)) : list event :=
  let predicted_fraud :=
    List.filter (fun r => fge r.2 (fl (1 # 2))) df_events in
  map fraud_event (take 10 (sort_values_by snd false predicted_fraud))
  ++ map legitimate_event (take 10 (sort_values_by snd true df_events)).

(** The events of a metrics record. *)
Definition recent_events (m : metrics) : list event :=
  match m !! "recent_events" with
  | Some (VEvents l) => l
  | _ => []
  end.

(** How often an address occurs in the events, all statuses together. *)
Definition occurrences (a : string) (events : list event) : nat :=
  length (List.filter (fun e => String.eqb (address e) a) events).

(** ** Concrete runs *)

(** Five training rows (two frauds) and two held-out rows; the single
    feature doubles as the score of the instance [toy_library]. *)
Definition toy_train : DataFrame :=
  {| index := [0; 1; 2; 3; 4]%Z;
     columns := [("score", Floats [fl (1 # 8); fl (1 # 4); fl (3 # 8);
                                   fl (3 # 4); fl (7 # 8)])] |}.

Definition toy_test (p q : Q) : DataFrame :=
  {| index := [5; 6]%Z; columns := [("score", Floats [fl p; fl q])] |}.

Definition toy_env (last_two : list string) (labels : list Z) : closure :=
  {| X_train := toy_train;
     X_test := toy_test (3 # 4) (1 # 4);
     y_train := [0; 0; 0; 1; 1]%Z;
     y_test := labels;
     addresses_index := [0; 1; 2; 3; 4; 5; 6]%Z;
     addresses :=
       Objects (["0x0000000000000000a0"; "0x0000000000000000a1";
                 "0x0000000000000000a2"; "0x0000000000000000a3";
                 "0x0000000000000000a4"] ++ last_two);
     original_fraud_rate := fl (3 # 7);
     original_total := 7;
     original_fraud := 3;
     random_state := 42 |}.

(** Two distinct held-out addresses, one fraud and one legitimate. *)
Definition plain_env : closure :=
  toy_env ["0xaaaaaaaaaaaaaaaaaaaa"; "0xbbbbbbbbbbbbbbbbbbbb"] [1; 0]%Z.

(** Two held-out addresses that agree on their first twelve characters. *)
Definition twin_env : closure :=
  toy_env ["0xabcdef0123456789aaaa"; "0xabcdef0123ffffffffff"] [1; 0]%Z.

(** A held-out partition without any fraud. *)
Definition clean_env : closure :=
  toy_env ["0xaaaaaaaaaaaaaaaaaaaa"; "0xbbbbbbbbbbbbbbbbbbbb"] [0; 0]%Z.

Definition toy_pre : ColumnTransformer :=
  {| ct_columns := ["score"]; ct_statistics := None |}.

(** A classifier whose importances cannot be read. *)
Definition broken_importances : toy_estimator :=
  {| toy_params := [];
     toy_importances := Raise (ValueError "importances unavailable") |}.

(** [X_test] replaced, everything else kept. *)
Definition with_X_test (X_test' : DataFrame) (env : closure) : closure :=
  {| X_train := X_train env; X_test := X_test';
     y_train := y_train env; y_test := y_test env;
     addresses_index := addresses_index env; addresses := addresses env;
     original_fraud_rate := original_fraud_rate env;
     original_total := original_total env;
     original_fraud := original_fraud env;
     random_state := random_state env |}.

(** Ten labelled addresses for a whole run of [train_xgb]. *)
Definition toy_frame : DataFrame :=
  {| index := [0; 1; 2; 3; 4; 5; 6; 7; 8; 9]%Z;
     columns :=
       [("address", Objects ["0xa0"; "0xa1"; "0xa2"; "0xa3"; "0xa4";
                             "0xa5"; "0xa6"; "0xa7"; "0xa8"; "0xa9"]);
        ("score", Floats [fl (1 # 16); fl (2 # 16); fl (3 # 16); fl (4 # 16);
                          fl (5 # 16); fl (12 # 16); fl (13 # 16); fl (14 # 16);
                          fl (15 # 16); fl (1 # 16)]);
        ("fraud_label", Floats [fl 0; fl 0; fl 0; fl 0; fl 0;
                                fl 1; fl 1; fl 1; fl 1; fl 0])] |}.

(** The toy preprocessor once fitted on [toy_train]. *)
Definition toy_pre_fitted : ColumnTransformer :=
  {| ct_columns := ["score"]; ct_statistics := Some [(fl 0, fl 1)] |}.

(** * The rest of the modules

    The loader and the feature engineering of [xgboost_fraud.py], and the
    result store of [api.py]. Names that are already taken above by the
    fields of [Backend] live in modules. *)

(** [df[name] = s]: the column is replaced in place when it exists and
    appended otherwise. *)
Fixpoint set_assoc {A} (name : string) (s : A) (l : list (string * A))
    : list (string * A) :=
  match l with
  | [] => [(name, s)]
  | (k, x) :: t =>
      if String.eqb k name then (k, s) :: t else (k, x) :: set_assoc name s t
  end.

Definition set_column (name : string) (s : series) (df : DataFrame) : DataFrame :=
  {| index := index df; columns := set_assoc name s (columns df) |}.

(** [Series.fillna(0)] *)
Definition fillna_0 (v : list float) : list float :=
  map (fun x => match x with None => fl 0 | Some _ => x end) v.

(** [RangeIndex(n)] *)
Definition range_index (n : nat) : list Z := map Z.of_nat (seq 0 n).

Module Prepare.

(** ** [load_and_prepare] (xgboost_fraud.py)

    The function is modelled from the two parsed tables on: [tx] and [feats]
    are what [pd.read_csv] returned. *)

(** A value of a key column; a missing key is [None]. *)
Inductive key :=
  | KStr (s : string)
  | KNum (q : Q).

Definition key_eqb (a b : key) : bool :=
  match a, b with
  | KStr s, KStr t => String.eqb s t
  | KNum p, KNum q => Qeq_bool p q
  | _, _ => false
  end.

Definition series_keys (s : series) : list (option key) :=
  match s with
  | Objects v => map (fun x => Some (KStr x)) v
  | Floats v => map (fun x => KNum <$> x) v
  end.

(** [groupby(col, as_index=False).size()]: one row per distinct key that is
    not missing, with the number of rows that carry it. (pandas returns the
    groups sorted by key; the order plays no role in what follows.) *)
Fixpoint bump (k : key) (groups : list (key * Z)) : list (key * Z) :=
  match groups with
  | [] => [(k, 1%Z)]
  | (k', n) :: t =>
      if key_eqb k' k then (k', (n + 1)%Z) :: t else (k', n) :: bump k t
  end.

Definition groupby_size (keys : list (option key)) : list (key * Z) :=
  foldl (fun groups k => match k with
                         | Some k => bump k groups
                         | None => groups
                         end) [] keys.

Definition lookup_key (k : key) (groups : list (key * Z)) : option Z :=
  snd <$> List.find (fun g => key_eqb g.1 k) groups.

(** pandas refuses to merge a string key column with a numeric one, unless
    one of the two is empty. *)
Definition check_merge_keys (l r : series) : exc unit :=
  match l, r with
  | Floats a, Objects b | Objects b, Floats a =>
      if Nat.eqb (length a) 0 || Nat.eqb (length b) 0 then OK ()
      else Raise (ValueError "You are trying to merge on object and float64 columns")
  | _, _ => OK ()
  end.

(** [pd.merge(out_counts, in_counts, on='address', how='outer').fillna(0)]
    followed by [counts['out_cnt'] + counts['in_cnt']]: one row per address
    that occurs on either side. *)
Definition outer_counts (out_counts in_counts : list (key * Z)) : list (key * Z) :=
  map (fun g => (g.1, (g.2 + default 0%Z (lookup_key g.1 in_counts))%Z)) out_counts
  ++ List.filter (fun g => negb (existsb (fun o => key_eqb o.1 g.1) out_counts))
                 in_counts.

(** The rows of a left merge: for every left row, in order, one output row
    per matching right row, or a single row with a missing value. *)
Definition left_matches (right : list (key * Z)) (k : option key) : list float :=
  match k with
  | None => [NaN]
  | Some k =>
      match List.filter (fun g => key_eqb g.1 k) right with
      | [] => [NaN]
      | ms => map (fun g => of_Z g.2) ms
      end
  end.

Definition left_join (right : list (key * Z)) (keys : list (option key))
    : list (nat * float) :=
  flat_map (fun ik => map (fun x => (ik.1, x)) (left_matches right ik.2))
           (zip (seq 0 (length keys)) keys).

(** [series.take(positions)] *)
Definition gather_series (positions : list nat) (s : series) : series :=
  match s with
  | Floats v => Floats (map (fun i => default NaN (v !! i)) positions)
  | Objects v => Objects (map (fun i => default "" (v !! i)) positions)
  end.

(** [feats.merge(transaction_count, on='address', how='left')]: the rows of
    [feats] in order under a fresh [RangeIndex], followed by the count. When
    [feats] already has a column [transaction_count] the two get the suffixes
    [_x] and [_y]. *)
Definition merge_transaction_count (feats : DataFrame) (counts_keys : series)
    (counts : list (key * Z)) : exc DataFrame :=
  address ← getitem feats "address";
  _ ← check_merge_keys address counts_keys;
  let joined := left_join counts (series_keys address) in
  let overlap := existsb (String.eqb "transaction_count") (map fst (columns feats)) in
  let left_name := fun c : string =>
    if overlap && String.eqb c "transaction_count" then "transaction_count_x" else c in
  let right_name := if overlap then "transaction_count_y" else "transaction_count" in
  OK {| index := range_index (length joined);
        columns :=
          map (fun c => (left_name c.1, gather_series (map fst joined) c.2))
              (columns feats)
          ++ [(right_name, Floats (map snd joined))] |}.

(** The rename table of the loader. *)
Definition canonical_names : list (string * string) :=
  [("flag", "fraud_label"); ("FLAG", "fraud_label");
   ("balance", "account_balance");
   ("total_sent_value", "total_sent");
   ("total_received_value", "total_received");
   ("avg_sent_value", "avg_transaction_sent");
   ("avg_received_value", "avg_transaction_received");
   ("max_sent_value", "max_transaction_sent");
   ("max_received_value", "max_transaction_received");
   ("min_sent_value", "min_transaction_sent");
   ("min_received_value", "min_transaction_received");
   ("txn_out_cnt", "transaction_frequency_sent");
   ("txn_in_cnt", "transaction_frequency_received");
   ("unique_out_contacts", "unique_contacts_sent");
   ("unique_in_contacts", "unique_contacts_received");
   ("contract_creation_flag", "contract_creation");
   ("contract_interaction_flag", "contract_interaction")].

(** [df.rename(columns=table)] *)
Definition rename (table : list (string * string)) (df : DataFrame) : DataFrame :=
  {| index := index df;
     columns := map (fun c => (default c.1 (assoc c.1 table), c.2)) (columns df) |}.

Definition has_column (df : DataFrame) (name : string) : bool :=
  existsb (String.eqb name) (map fst (columns df)).

(** [a + b] on two columns: numbers add, strings concatenate. *)
Definition series_add (a b : series) : exc series :=
  match a, b with
  | Floats x, Floats y => OK (Floats (map2 fadd x y))
  | Objects x, Objects y => OK (Objects (map2 String.append x y))
  | _, _ => Raise (TypeError "unsupported operand type(s) for +")
  end.

Definition series_fillna_0 (s : series) : series :=
  match s with
  | Floats v => Floats (fillna_0 v)
  | Objects v => Objects v
  end.

(** The closing loop: every numeric column but the label gets its gaps
    filled with 0. *)
Definition fill_numeric_gaps (df : DataFrame) : DataFrame :=
  {| index := index df;
     columns :=
       map (fun c => if negb (String.eqb c.1 "fraud_label") && is_numeric_dtype c.2
                     then (c.1, series_fillna_0 c.2) else c)
           (columns df) |}.

Definition load_and_prepare (tx feats : DataFrame) : exc DataFrame :=
  if negb (has_column feats "address") then
    Raise (ValueError "Expected 'address' column in features CSV")
  else if negb (has_column feats "flag" || has_column feats "FLAG") then
    Raise (ValueError "Expected 'flag' (or 'FLAG') target in features CSV")
  else
    transaction_count ←
      (if has_column tx "from_address" && has_column tx "to_address" then
         from_address ← getitem tx "from_address";
         to_address ← getitem tx "to_address";
         let out_counts := groupby_size (series_keys from_address) in
         let in_counts := groupby_size (series_keys to_address) in
         _ ← check_merge_keys from_address to_address;
         let keys := if Nat.eqb (series_length from_address) 0
                     then to_address else from_address in
         OK (Some (keys, outer_counts out_counts in_counts))
       else OK None);
    let feats := rename canonical_names feats in
    feats ←
      match transaction_count with
      | Some (keys, counts) => merge_transaction_count feats keys counts
      | None =>
          if has_column feats "transaction_frequency_sent"
             && has_column feats "transaction_frequency_received" then
            sent ← getitem feats "transaction_frequency_sent";
            received ← getitem feats "transaction_frequency_received";
            total ← series_add (series_fillna_0 sent) (series_fillna_0 received);
            OK (set_column "transaction_count" total feats)
          else
            OK (set_column "transaction_count"
                  (Floats (replicate (nrows feats) (fl 0))) feats)
      end;
    OK (fill_numeric_gaps feats).

(** ** [safe_div] and [engineer_features] (xgboost_fraud.py)

    [np.log1p] is a parameter. The columns the formulas read are numeric in
    every table that holds numbers; a string column under one of these names
    makes pandas raise as well, which the embedding renders as the
    [TypeError] of [get_col] at the read. A quotient by exactly zero, which
    is infinite or NaN in IEEE arithmetic, is NaN here. *)

Definition EPS : Q := 1 # 1000000000000.

Definition safe_div (a b : list float) : list float :=
  map2 fdiv a (map (fun x => fadd x (fl EPS)) b).

(** [(s > 0)] *)
Definition positive (x : float) : bool :=
  match x with
  | Some a => negb (Qle_bool a 0)
  | None => false
  end.

Definition bool_to_float (b : bool) : float := if b then fl 1 else fl 0.

Definition engineered_names : list string :=
  ["sent_to_received_ratio"; "avg_sent_to_avg_received";
   "interaction_with_contract_ratio"; "is_high_balance"; "high_txn_freq_flag";
   "net_flow"; "spread_sent"; "spread_received"; "contract_activity_flag";
   "log_balance"; "log_txn_count"].

Section Engineer.

Variable log1p : float → float.

Definition engineer_features (df : DataFrame) : exc DataFrame :=
  (* Ratios / flags / spreads *)
  total_sent ← get_col df "total_sent";
  total_received ← get_col df "total_received";
  let df := set_column "sent_to_received_ratio"
              (Floats (safe_div total_sent total_received)) df in
  avg_sent ← get_col df "avg_transaction_sent";
  avg_received ← get_col df "avg_transaction_received";
  let df := set_column "avg_sent_to_avg_received"
              (Floats (safe_div avg_sent avg_received)) df in
  (* Contract activity ratio relative to total transactions *)
  total_txn_freq ← total_txn_freq df;
  creation ← get_col df "contract_creation";
  interaction ← get_col df "contract_interaction";
  let contract_actions := map2 fadd creation interaction in
  transaction_count ← getitem df "transaction_count";
  transaction_count ← numeric transaction_count;
  let df := set_column "interaction_with_contract_ratio"
              (Floats (safe_div contract_actions
                         (map2 fadd total_txn_freq transaction_count))) df in
  (* High balance flag: top 5% *)
  df ← match assoc "account_balance" (columns df) with
       | Some balance =>
           balance ← numeric balance;
           let thr := quantile balance (95 # 100) in
           OK (set_column "is_high_balance"
                 (Floats (map (fun x => bool_to_float (fge x thr)) balance)) df)
       | None =>
           OK (set_column "is_high_balance"
                 (Floats (replicate (nrows df) (fl 0))) df)
       end;
  (* "High frequency" flag *)
  let df := set_column "high_txn_freq_flag"
              (Floats (map of_Z (high_txn_freq_flag_of total_txn_freq))) df in
  (* Net flow *)
  received ← get_col df "total_received";
  sent ← get_col df "total_sent";
  let df := set_column "net_flow" (Floats (map2 fsub received sent)) df in
  (* Spreads *)
  max_sent ← get_col df "max_transaction_sent";
  min_sent ← get_col df "min_transaction_sent";
  let df := set_column "spread_sent" (Floats (map2 fsub max_sent min_sent)) df in
  max_received ← get_col df "max_transaction_received";
  min_received ← get_col df "min_transaction_received";
  let df := set_column "spread_received"
              (Floats (map2 fsub max_received min_received)) df in
  (* Contract activity flag *)
  creation ← get_col df "contract_creation";
  interaction ← get_col df "contract_interaction";
  let df := set_column "contract_activity_flag"
              (Floats (map2 (fun c i => bool_to_float (positive c || positive i))
                            creation interaction)) df in
  (* Log transforms *)
  balance ← get_col df "account_balance";
  let df := set_column "log_balance" (Floats (map log1p balance)) df in
  count ← get_col df "transaction_count";
  let df := set_column "log_txn_count" (Floats (map log1p count)) df in
  OK df.

End Engineer.

End Prepare.

(** ** The result store of [api.py] *)

Module Api.

(** The module-level variables. *)
Record store := {
  LATEST_METRICS : option metrics;
  METRICS_HISTORY : list metrics;
  ACTIVITY_LOG : list event;
  MODEL_METRICS : gmap string metrics;
}.

Definition initial : store :=
  {| LATEST_METRICS := None; METRICS_HISTORY := [];
     ACTIVITY_LOG := []; MODEL_METRICS := ∅ |}.

(** [l[-n:]] for [n > 0] and [l[:n]] *)
Definition last_n {A} (n : nat) (l : list A) : list A := drop (length l - n) l.

Section Runtime.

(** Whether [json.dumps] accepts a ranking or a parameter dict depends on the
    number types inside ([numpy] scalars are refused), and [str(v)] is
    Python's; both are parameters. The events are dicts of [str] and [float]
    and always serialise. *)
Variable json_dumps_ok : value → bool.
Variable str : value → string.

(** One iteration of the conversion loop of [train_endpoint]. *)
Definition plain_value (k : string) (v : value) : value :=
  if String.eqb k "report" then v
  else
    match v with
    | VFloat _ | VInt _ | VStr _ => v
    | VEvents _ => v
    | _ => if json_dumps_ok v then v else VStr (str v)
    end.

Definition response_metrics (m : metrics) : metrics :=
  map_imap (fun k v => Some (plain_value k v)) m.

(** [response_metrics.get("used_model", "unknown")]; the handler stores a
    string under that key. *)
Definition model_key (response : metrics) : string :=
  match response !! "used_model" with
  | Some (VStr name) => name
  | _ => "unknown"
  end.

(** [{**e, 'time': e.get('time') or 'just now'}] *)
Definition with_time (e : event) : event :=
  {| address := address e; status := status e; confidence := confidence e;
     time := if String.eqb (time e) "" then "just now" else time e |}.

(** The events a response contributes to the activity log, if its
    [recent_events] entry is a list. *)
Definition response_events (response : metrics) : option (list event) :=
  match response !! "recent_events" with
  | Some (VEvents events) => Some (map with_time events)
  | _ => None
  end.

(** The events a response adds to the log: none when the entry is not a list. *)
Definition contributed (response : metrics) : list event :=
  default [] (response_events response).

(** The updates of the module-level variables at the end of [train_endpoint]. *)
Definition record_response (st : store) (response : metrics) : store :=
  let history := METRICS_HISTORY st ++ [response] in
  {| LATEST_METRICS := Some response;
     METRICS_HISTORY :=
       if (24 <? length history)%nat then last_n 24 history else history;
     ACTIVITY_LOG :=
       match response_events response with
       | Some events => take 50 (events ++ ACTIVITY_LOG st)
       | None => ACTIVITY_LOG st
       end;
     MODEL_METRICS := <[model_key response := response]> (MODEL_METRICS st) |}.

(** The whole handler: a training that raises leaves the store alone. *)
Definition handle (B : Backend) (st : store) (req : request) : store * io metrics :=
  match train_endpoint B req with
  | (log, OK metrics) =>
      let response := response_metrics metrics in
      (record_response st response, (log, OK response))
  | (log, Raise e) => (st, (log, Raise e))
  end.

End Runtime.

(** The values [used_model] can take. *)
Definition model_names : list string :=
  ["svm"; "random_forest"; "neural_network"; "xgboost"].

(** [get_model_metrics]: the summary of one stored record. *)
Definition summary (m : metrics) : metrics :=
  list_to_map
    [("accuracy", default (VInt 0) (m !! "accuracy"));
     ("precision", default (VInt 0) (m !! "precision"));
     ("recall", default (VInt 0) (m !! "recall"));
     ("f1", default (VInt 0) (m !! "f1"));
     ("roc_auc", default (VInt 0) (m !! "roc_auc"));
     ("pr_auc", default (VInt 0) (m !! "pr_auc"));
     ("timestamp", default (VStr "Never trained") (m !! "timestamp"))].

Definition get_latest_metrics (st : store) : option metrics := LATEST_METRICS st.
Definition get_metrics_history (st : store) : list metrics := METRICS_HISTORY st.
Definition get_activity (st : store) : list event := ACTIVITY_LOG st.
Definition get_model_metrics (st : store) : gmap string metrics :=
  summary <$> MODEL_METRICS st.

End Api.

(** ** Vocabulary of the further properties *)

(** The number of ledger rows whose key column holds [k]. *)
Definition count_key (k : Prepare.key) (keys : list (option Prepare.key)) : Z :=
  Z.of_nat (length (List.filter
                      (fun x => match x with
                                | Some k' => Prepare.key_eqb k' k
                                | None => false
                                end) keys)).

(** The degree of an address in the ledger: edges leaving plus edges entering. *)
Definition degree (from_address to_address : list string) (a : string) : Z :=
  (count_key (Prepare.KStr a) (map (fun x => Some (Prepare.KStr x)) from_address)
   + count_key (Prepare.KStr a) (map (fun x => Some (Prepare.KStr x)) to_address))%Z.

(** No two groups carry the same key. *)
Fixpoint distinct_keys (groups : list (Prepare.key * Z)) : Prop :=
  match groups with
  | [] => True
  | g :: t =>
      Forall (fun h => Prepare.key_eqb g.1 h.1 = false) t ∧ distinct_keys t
  end.

(** The count a left row receives from the merged counts. *)
Definition count_of (counts : list (Prepare.key * Z)) (k : option Prepare.key) : float :=
  match k ≫= (fun k => Prepare.lookup_key k counts) with
  | Some n => of_Z n
  | None => NaN
  end.

(** ** A small ledger and feature table *)

Definition toy_ledger : DataFrame :=
  {| index := [0; 1; 2]%Z;
     columns :=
       [("from_address", Objects ["0xa"; "0xa"; "0xb"]);
        ("to_address", Objects ["0xb"; "0xc"; "0xa"]);
        ("value", Floats [fl 5; fl 7; fl 1])] |}.

Definition toy_features : DataFrame :=
  {| index := [10; 11; 12]%Z;
     columns :=
       [("address", Objects ["0xa"; "0xb"; "0xd"]);
        ("FLAG", Floats [fl 0; fl 1; NaN]);
        ("balance", Floats [fl 4; NaN; fl 9]);
        ("txn_out_cnt", Floats [fl 2; fl 1; NaN]);
        ("txn_in_cnt", Floats [fl 1; NaN; NaN])] |}.

(** The names [engineer_features] reads. *)
Definition source_names : list string :=
  ["total_sent"; "total_received"; "avg_transaction_sent";
   "avg_transaction_received"; "transaction_frequency_sent";
   "transaction_frequency_received"; "contract_creation";
   "contract_interaction"; "transaction_count"; "account_balance";
   "max_transaction_sent"; "min_transaction_sent";
   "max_transaction_received"; "min_transaction_received"].

(** Every column of the frame other than [address] is numeric. *)
Definition numeric_features (df : DataFrame) : Prop :=
  ∀ c s, assoc c (columns df) = Some s → c ≠ "address" →
    is_numeric_dtype s = true.

(** [df] is [df0] with the columns [added] set to numeric columns of full
    length and nothing else touched. *)
Definition extends (df0 : DataFrame) (added : list string) (df : DataFrame) : Prop :=
  index df = index df0 ∧
  (∀ c, c ∉ added → assoc c (columns df) = assoc c (columns df0)) ∧
  (∀ c, c ∈ added → ∃ v, assoc c (columns df) = Some (Floats v) ∧
                          length v = nrows df0).

(** The state of the frame while [engineer_features] runs. *)
Definition ready (df0 : DataFrame) (added : list string) (df : DataFrame) : Prop :=
  extends df0 added df ∧ numeric_features df ∧ well_formed df.

(** The table [load_and_prepare] returns on [toy_ledger] and [toy_features]. *)
Definition toy_prepared : DataFrame :=
  {| index := [0; 1; 2]%Z;
     columns :=
       [("address", Objects ["0xa"; "0xb"; "0xd"]);
        ("fraud_label", Floats [fl 0; fl 1; NaN]);
        ("account_balance", Floats [fl 4; fl 0; fl 9]);
        ("transaction_frequency_sent", Floats [fl 2; fl 1; fl 0]);
        ("transaction_frequency_received", Floats [fl 1; fl 0; fl 0]);
        ("transaction_count", Floats [fl 3; fl 2; fl 0])] |}.

(** A table with a flag-like column that the name filter of the training
    functions does not recognise as one. *)
Definition flagged_frame : DataFrame :=
  {| index := [0; 1; 2; 3; 4]%Z;
     columns :=
       [("is_high_balance", Floats [fl 0; fl 0; fl 0; fl 0; fl 1]);
        ("net_flow", Floats [fl 1; fl 2; fl 3; fl 4; fl 5])] |}.

(** ** Vocabulary for the training functions *)

(** The columns of [X] in the training functions before the outlier filter:
    the numeric columns other than the label and the address. *)
Definition feature_columns (df : DataFrame) : list (string * series) :=
  List.filter (fun c => is_numeric_dtype c.2)
              (columns (drop_columns ["fraud_label"; "address"] df)).

(** The variables [fit_and_eval] sees in a run on [df] with labels [y]. *)
Definition train_closure (df : DataFrame) (y : list Z)
    (X_train X_test : DataFrame) (y_train y_test : list Z) (seed : Z) : closure :=
  {| X_train := X_train; X_test := X_test;
     y_train := y_train; y_test := y_test;
     addresses_index := index df;
     addresses :=
       match assoc "address" (columns df) with
       | Some s => s
       | None => Objects (replicate (nrows df) "unknown")
       end;
     original_fraud_rate := mean_Z y;
     original_total := Z.of_nat (length y);
     original_fraud := sum_Z y;
     random_state := seed |}.

Definition is_ok {A} (r : exc A) : bool :=
  match r with OK _ => true | Raise _ => false end.

(** A table of three addresses without any traffic. *)
Definition idle_frame : DataFrame :=
  {| index := [0; 1; 2]%Z;
     columns :=
       [("address", Objects ["0xa"; "0xb"; "0xc"]);
        ("account_balance", Floats [fl 5; fl 7; fl 9]);
        ("transaction_count", Floats [fl 0; fl 0; fl 0])] |}.

(** ** Vocabulary for the standardization across whole runs *)






(** * Theorems *)

(** ** Lists, masks and rows *)


Lemma map2_lookup {A B C} (f : A -> B -> C) l1 l2 i :
  map2 f l1 l2 !! i =
    match l1 !! i, l2 !! i with
    | Some a, Some b => Some (f a b)
    | _, _ => None
    end.
Proof.
  revert l2 i. induction l1 as [|x t IH]; intros [|y t2] [|i]; simpl;
    try reflexivity.
  - by destruct (t !! i).
  - apply IH.
Qed.

Lemma map2_length {A B C} (f : A -> B -> C) l1 l2 :
  length (map2 f l1 l2) = Nat.min (length l1) (length l2).
Proof.
  revert l2. induction l1 as [|x t IH]; intros [|y t2]; simpl; auto.
Qed.

Lemma assoc_map {A B} (f : A -> B) c (l : list (string * A)) :
  assoc c (map (fun p => (p.1, f p.2)) l) = f <$> assoc c l.
Proof.
  induction l as [|[k a] t IH]; simpl; [done|].
  destruct (String.eqb k c); [done | apply IH].
Qed.





(** ** The outlier filter *)

Lemma fle_Some a b : fle (Some a) (Some b) = true ↔ (a <= b)%Q.
Proof. apply Qle_bool_iff. Qed.

Lemma iqr_bounds_Some v k q1 q3 :
  quantile v (1 # 4) = Some q1 → quantile v (3 # 4) = Some q3 →
  ∃ lo hi, iqr_bounds v k = (Some lo, Some hi) ∧
    (lo == q1 - k * (q3 - q1))%Q ∧ (hi == q3 + k * (q3 - q1))%Q.
Proof.
  intros H1 H3. unfold iqr_bounds. rewrite H1, H3. simpl.
  eexists _, _. split; [reflexivity|].
  split; rewrite !Qred_correct; reflexivity.
Qed.

Lemma iqr_bounds_NaN v k :
  quantile v (1 # 4) = None ∨ quantile v (3 # 4) = None →
  iqr_bounds v k = (None, None).
Proof.
  unfold iqr_bounds, fadd, fsub, fmul, lift2, fl. intros H.
  destruct (quantile v (1 # 4)), (quantile v (3 # 4));
    solve [reflexivity | destruct H; discriminate].
Qed.

Lemma iqr_column_mask_lookup df c v k i :
  assoc c (columns df) = Some (Floats v) →
  iqr_column_mask v k !! i = Some true ↔
  ∃ x, v !! i = Some x ∧ in_fence df c k x.
Proof.
  intros Hc. unfold iqr_column_mask, in_fence, Q1, Q3. rewrite Hc.
  destruct (iqr_bounds v k) as [low high] eqn:Hb.
  rewrite list_lookup_fmap.
  destruct (v !! i) as [x|] eqn:Hx; simpl;
    [|split; [discriminate | intros (? & ? & _); discriminate]].
  split.
  - intros [= Hm]. exists x. split; [done|].
    destruct x as [a|]; [|by left]. right.
    rewrite orb_false_r in Hm. apply andb_true_iff in Hm as [Hl Hh].
    destruct (quantile v (1 # 4)) as [q1|] eqn:E1;
      [destruct (quantile v (3 # 4)) as [q3|] eqn:E3|].
    + destruct (iqr_bounds_Some v k q1 q3 E1 E3) as (lo & hi & Hb' & Hlo & Hhi).
      rewrite Hb in Hb'. injection Hb' as -> ->.
      apply fle_Some in Hl, Hh. exists a, q1, q3.
      rewrite <- Hlo, <- Hhi. done.
    + rewrite iqr_bounds_NaN in Hb by (by right). injection Hb as <- <-. done.
    + rewrite iqr_bounds_NaN in Hb by (by left). injection Hb as <- <-. done.
  - intros (x' & [= <-] & Hf). f_equal.
    destruct Hf as [-> | (a & q1 & q3 & -> & E1 & E3 & Hlo & Hhi)].
    + by rewrite orb_true_r.
    + destruct (iqr_bounds_Some v k q1 q3 E1 E3) as (lo & hi & Hb' & Hlo' & Hhi').
      rewrite Hb in Hb'. injection Hb' as -> ->.
      rewrite orb_false_r. apply andb_true_iff.
      split; apply fle_Some; [by rewrite Hlo' | by rewrite Hhi'].
Qed.

Lemma iqr_keep_mask_spec df k cols :
  Forall (numeric_column df) cols →
  ∀ m0, ∃ m, iqr_keep_mask df cols k m0 = OK m ∧
    ∀ i, m !! i = Some true ↔
      m0 !! i = Some true ∧
      Forall (fun c => ∃ v x, assoc c (columns df) = Some (Floats v) ∧
                              v !! i = Some x ∧ in_fence df c k x) cols.
Proof.
  induction 1 as [|c rest [v Hc] Hrest IH]; intros m0.
  - exists m0. split; [done|]. intros i. split; [by intros ?|by intros [? _]].
  - simpl. unfold getitem. rewrite Hc. simpl.
    destruct (IH (map2 andb m0 (iqr_column_mask v k))) as (m & Hm & Hspec).
    exists m. split; [done|]. intros i. rewrite Hspec, map2_lookup.
    pose proof (iqr_column_mask_lookup df c v k i Hc) as Hcol.
    rewrite Forall_cons. split.
    + intros [Hand Hall].
      destruct (m0 !! i) as [b0|]; [|done].
      destruct (iqr_column_mask v k !! i) as [b1|] eqn:E1; [|done].
      injection Hand as Hand. apply andb_true_iff in Hand as [-> ->].
      split; [done|]. split; [|done].
      destruct Hcol as [Hcol _]. destruct (Hcol eq_refl) as (x & ? & ?).
      by exists v, x.
    + intros (H0 & (v' & x & Hc' & Hx & Hf) & Hall).
      rewrite Hc in Hc'. injection Hc' as <-.
      destruct Hcol as [_ Hcol]. rewrite H0, Hcol by eauto. done.
Qed.








Lemma distinct_names_check df :
  bool_decide (NoDup (map fst (columns df))) = true → distinct_names df.
Proof. apply bool_decide_eq_true_1. Qed.


Example quantile_q75_of_five :
  quantile [fl 0; fl 0; fl 1; fl 2; fl 3] (3 # 4) = fl 2.
Proof. reflexivity. Qed.

Example quantile_interpolates :
  quantile [fl 3; NaN; fl 1; fl 2] (3 # 4) = fl (5 # 2).
Proof. reflexivity. Qed.

Example iqr_clip_ledger :
  iqr_clip ledger_frame ["total_sent"; "total_received"] (3 # 2) =
    OK {| index := [0; 1; 2; 3]%Z;
          columns :=
            [("total_sent", Floats [fl 1; fl 2; fl 3; fl 4]);
             ("total_received", Floats [fl 5; NaN; fl 6; fl 7]);
             ("fraud_label", Floats [fl 0; fl 0; fl 0; fl 0])] |}.
Proof. reflexivity. Qed.


(** ** The frequency flag *)

Lemma dropna_map_Some (l : list Q) : dropna (map Some l) = l.
Proof. induction l as [|x t IH]; simpl; [done|]. unfold dropna in *. simpl. by rewrite IH. Qed.

Lemma dropna_replace_zero_nan (total : list float) :
  dropna (replace_zero_nan total) = nonzero_sums total.
Proof.
  unfold nonzero_sums, replace_zero_nan, dropna.
  induction total as [|[a|] t IH]; simpl; [done| |exact IH].
  destruct (Qeq_bool a 0); simpl; [exact IH | f_equal; exact IH].
Qed.

Lemma forallb_isna_dropna (v : list float) :
  forallb isna v = true ↔ dropna v = [].
Proof.
  unfold dropna. induction v as [|[a|] t IH]; simpl; [done| |done].
  split; discriminate.
Qed.

Lemma quantile_dropna (v w : list float) (q : Q) :
  dropna v = dropna w → quantile v q = quantile w q.
Proof. unfold quantile. by intros ->. Qed.

Lemma code_q75_active (total : list float) :
  (if forallb isna (replace_zero_nan total) then fl 0
   else quantile (replace_zero_nan total) (3 # 4)) = active_q75 total.
Proof.
  unfold active_q75.
  pose proof (forallb_isna_dropna (replace_zero_nan total)) as Hall.
  rewrite dropna_replace_zero_nan in Hall.
  destruct (forallb isna (replace_zero_nan total)).
  - destruct Hall as [Hall _]. by rewrite Hall.
  - destruct (nonzero_sums total) as [|a nz] eqn:Hnz.
    + destruct Hall as [_ Hall]. discriminate (Hall eq_refl).
    + apply quantile_dropna.
      by rewrite dropna_replace_zero_nan, dropna_map_Some.
Qed.

Lemma fge_reaches (x thr : float) : fge x thr = true ↔ reaches x thr.
Proof.
  unfold fge, fle, reaches. destruct thr as [t|], x as [a|]; split;
    try discriminate; try (intros (? & ? & ? & ? & _); discriminate).
  - intros H. exists a, t. by rewrite <- Qle_bool_iff.
  - intros (a' & t' & [= <-] & [= <-] & H). by apply Qle_bool_iff.
Qed.

(** ** The training endpoint *)

Lemma eqb_false_of_ne (s t : string) : s ≠ t → String.eqb s t = false.
Proof. intros H. by apply String.eqb_neq. Qed.

(** C1, as amended. The family name is only looked at after both uploads
    have been parsed and the features engineered; a name of ASCII characters
    that does not lower-case to svm, random_forest or neural_network --
    unknown names included -- trains the gradient-boosted family and is
    reported as [used_model = "xgboost"]. The name itself never raises. *)
Theorem train_endpoint_falls_back_to_xgboost (B : Backend) (req : request) :
  is_ascii (or_empty (model req)) = true →
  lower (or_empty (model req)) ≠ "svm" →
  lower (or_empty (model req)) ≠ "random_forest" →
  lower (or_empty (model req)) ≠ "neural_network" →
  train_endpoint B req =
    let uploads := [SaveUpload "transactions.csv"; SaveUpload "features.csv"] in
    match load_and_prepare B (transactions_csv req) (features_csv req) with
    | Raise e => (uploads ++ [ParseFiles], Raise e)
    | OK df =>
        match engineer_features B df with
        | Raise e => (uploads ++ [ParseFiles; EngineerFeatures], Raise e)
        | OK df' =>
            (uploads ++ [ParseFiles; EngineerFeatures; Fit "xgboost"],
             match train_xgb_fn B df' (not_ (no_tune req)) (seed req) with
             | OK m => OK (<["used_model" := VStr "xgboost"]> m)
             | Raise e => Raise e
             end)
        end
    end.
Proof.
  intros _ Hsvm Hrf Hnn. unfold train_endpoint, perform. simpl.
  destruct (load_and_prepare B _ _) as [df|e]; simpl; [|done].
  destruct (engineer_features B df) as [df'|e]; simpl; [|done].
  rewrite (eqb_false_of_ne _ _ Hsvm), (eqb_false_of_ne _ _ Hrf),
    (eqb_false_of_ne _ _ Hnn). simpl.
  by destruct (train_xgb_fn B df' _ _).
Qed.

Lemma train_endpoint_falls_back_to_xgboost_witness :
  train_endpoint calm_backend lightgbm_request =
    ([SaveUpload "transactions.csv"; SaveUpload "features.csv";
      ParseFiles; EngineerFeatures; Fit "xgboost"],
     OK (<["used_model" := VStr "xgboost"]> ∅)).
Proof.
  apply (train_endpoint_falls_back_to_xgboost calm_backend lightgbm_request);
    [reflexivity|vm_compute; discriminate..].
Defined.

(** C1, as stated, fails: the request naming the unknown family "LightGBM"
    (an ASCII name) is not rejected; both files are parsed and an XGBoost
    model is fitted. *)
Lemma train_endpoint_accepts_unknown_family :
  is_ascii (or_empty (model lightgbm_request)) = true ∧
  ¬ known_family (or_empty (model lightgbm_request)) ∧
  train_endpoint calm_backend lightgbm_request =
    ([SaveUpload "transactions.csv"; SaveUpload "features.csv";
      ParseFiles; EngineerFeatures; Fit "xgboost"],
     OK (<["used_model" := VStr "xgboost"]> ∅)) ∧
  ¬ rejects_unknown_family calm_backend.
Proof.
  assert (Hunknown : ¬ known_family (or_empty (model lightgbm_request))).
  { unfold known_family. vm_compute lower.
    rewrite !elem_of_cons, elem_of_nil. intros [H|[H|[H|[H|[]]]]]; discriminate. }
  split; [reflexivity|]. split; [exact Hunknown|]. split; [reflexivity|].
  intros Hrej. destruct (Hrej lightgbm_request Hunknown) as [msg Hmsg].
  discriminate Hmsg.
Qed.

(** ** Running the pipeline on the toy instance *)

Example plain_run_events :
  recent_events
    match (fit_and_eval toy_library XGBoost plain_env "2024-05-01T10:00:00"
             toy_pre broken_importances).2 with
    | OK (m, _, _) => m
    | Raise _ => ∅
    end =
  [ {| address := "0xaaaaaaaaaa"; status := "fraud";
       confidence := fl (3 # 4); time := "just now" |};
    {| address := "0xbbbbbbbbbb"; status := "fraud";
       confidence := fl (1 # 4); time := "just now" |};
    {| address := "0xbbbbbbbbbb"; status := "legitimate";
       confidence := fl (3 # 4); time := "just now" |};
    {| address := "0xaaaaaaaaaa"; status := "legitimate";
       confidence := fl (1 # 4); time := "just now" |} ].
Proof. vm_compute. reflexivity. Qed.

Example toy_train_xgb_runs :
  match train_xgb toy_library "2024-05-01T10:00:00" toy_frame false 42 with
  | OK (m, _, _) =>
      m !! "test_samples" = Some (VInt 2) ∧
      m !! "balanced_fraud_rate" = Some (VFloat (fl (1 # 2))) ∧
      m !! "timestamp" = Some (VStr "2024-05-01T10:00:00Z")
  | Raise _ => False
  end.
Proof. vm_compute. repeat split. Qed.

(** ** Anatomy of [fit_and_eval] *)

Ltac step_exc H :=
  match type of H with
  | context [match ?x with _ => _ end] =>
      destruct x eqn:?; simpl in H; try discriminate H
  end.

Lemma fit_and_eval_state L fam env u pre clf :
  (fit_and_eval L fam env u pre clf).1 = (fit_transform L pre (X_train env)).1.
Proof. unfold fit_and_eval. by destruct (fit_transform L pre (X_train env)). Qed.

(** A successful call went through every step of the body. *)
Lemma fit_and_eval_inv L fam env u pre clf pre' m c p :
  fit_and_eval L fam env u pre clf = (pre', OK (m, c, p)) →
  ∃ X_tr0 X_te X_tr y_tr proba acc prec rec f1 roc ap rep,
    fit_transform L pre (X_train env) = (pre', OK X_tr0) ∧
    transform pre' (X_test env) = OK X_te ∧
    smote_fit_resample L (random_state env) X_tr0 (y_train env) = OK (X_tr, y_tr) ∧
    fit L clf X_tr y_tr = OK c ∧
    predict_proba_1 L c X_te = OK proba ∧
    accuracy_score (y_test env) (threshold proba) = OK acc ∧
    precision_score (y_test env) (threshold proba) 0 = OK prec ∧
    recall_score (y_test env) (threshold proba) 0 = OK rec ∧
    f1_score (y_test env) (threshold proba) 0 = OK f1 ∧
    roc_auc_score L (y_test env) proba = OK roc ∧
    average_precision_score L (y_test env) proba = OK ap ∧
    classification_report L (y_test env) (threshold proba) = OK rep ∧
    p = pre' ∧
    m = with_diagnostics L fam env pre' c proba
          (base_metrics fam env u X_tr y_tr acc prec rec f1 roc ap rep).
Proof.
  unfold fit_and_eval.
  destruct (fit_transform L pre (X_train env)) as [pre1 [X_tr0|e]];
    intros H; injection H as -> H; [|discriminate H].
  unfold mbind, exc_bind in H.
  do 3 step_exc H. do 9 step_exc H.
  injection H as <- <- <-.
  repeat eexists; eauto.
Qed.

(** Conversely, when every step succeeds the call returns. *)
Lemma fit_and_eval_complete L fam env u pre clf pre'
    X_tr0 X_te X_tr y_tr c proba acc prec rec f1 roc ap rep :
  fit_transform L pre (X_train env) = (pre', OK X_tr0) →
  transform pre' (X_test env) = OK X_te →
  smote_fit_resample L (random_state env) X_tr0 (y_train env) = OK (X_tr, y_tr) →
  fit L clf X_tr y_tr = OK c →
  predict_proba_1 L c X_te = OK proba →
  accuracy_score (y_test env) (threshold proba) = OK acc →
  precision_score (y_test env) (threshold proba) 0 = OK prec →
  recall_score (y_test env) (threshold proba) 0 = OK rec →
  f1_score (y_test env) (threshold proba) 0 = OK f1 →
  roc_auc_score L (y_test env) proba = OK roc →
  average_precision_score L (y_test env) proba = OK ap →
  classification_report L (y_test env) (threshold proba) = OK rep →
  fit_and_eval L fam env u pre clf =
    (pre', OK (with_diagnostics L fam env pre' c proba
                 (base_metrics fam env u X_tr y_tr acc prec rec f1 roc ap rep),
               c, pre')).
Proof.
  intros H1 H2 H3 H4 H5 H6 H7 H8 H9 H10 H11 H12.
  unfold fit_and_eval. rewrite H1. simpl. rewrite H2. simpl. rewrite H3. simpl.
  rewrite H4. simpl. rewrite H5. simpl. rewrite H6. simpl. rewrite H7. simpl.
  rewrite H8. simpl. rewrite H9. simpl. rewrite H10. simpl. rewrite H11. simpl.
  rewrite H12. reflexivity.
Qed.

(** ** Standardization *)

Lemma fit_transform_statistics L pre X :
  match select_columns X (ct_columns pre) with
  | OK cols =>
      (fit_transform L pre X).1 =
        {| ct_columns := ct_columns pre;
           ct_statistics := Some (map (scaler_statistics L) cols) |}
  | Raise _ => (fit_transform L pre X).1 = pre
  end.
Proof. unfold fit_transform. by destruct (select_columns X (ct_columns pre)). Qed.

(** Within [fit_and_eval] the test partition plays no role in the fit:
    replacing it by any other frame leaves the fitted preprocessor
    unchanged, its statistics are those of the training columns, and the
    preprocessor handed back by a completed call is that fitted object. *)
Lemma fit_and_eval_fits_on_train
    L fam env (X_test' : DataFrame) u u' pre clf clf' :
  let run := fit_and_eval L fam env u pre clf in
  let run' := fit_and_eval L fam (with_X_test X_test' env) u' pre clf' in
  run.1 = run'.1 ∧
  match select_columns (X_train env) (ct_columns pre) with
  | OK train_cols =>
      run.1 = {| ct_columns := ct_columns pre;
                 ct_statistics := Some (map (scaler_statistics L) train_cols) |}
  | Raise _ => run.1 = pre
  end ∧
  match run.2 with
  | OK (_, _, returned) => returned = run.1
  | Raise _ => True
  end.
Proof.
  intros run run'. subst run run'. rewrite !fit_and_eval_state. simpl.
  split; [reflexivity|]. split; [apply fit_transform_statistics|].
  destruct (fit_and_eval L fam env u pre clf) as [pre1 [[[m c] p]|e]] eqn:Hrun;
    simpl; [|done].
  destruct (fit_and_eval_inv _ _ _ _ _ _ _ _ _ _ Hrun)
    as (? & ? & ? & ? & ? & ? & ? & ? & ? & ? & ? & ? & Hft &
        _ & _ & _ & _ & _ & _ & _ & _ & _ & _ & _ & Hp & _).
  rewrite Hft. exact Hp.
Qed.

(** ** Reading the metrics *)

Lemma with_diagnostics_lookup L fam env pre clf proba m k :
  k ≠ "feature_importances" → k ≠ "recent_events" →
  with_diagnostics L fam env pre clf proba m !! k = m !! k.
Proof.
  intros Hfi Hre. unfold with_diagnostics, with_events, with_importances.
  destruct (events_block _ _ _ _ _);
    (rewrite lookup_insert_ne by done);
    destruct fam; try done;
    destruct (importances_block L pre clf) as [[fi|]|?]; try done;
    by rewrite lookup_insert_ne.
Qed.

Lemma with_diagnostics_delete L fam env pre clf proba m k :
  k ≠ "feature_importances" → k ≠ "recent_events" →
  delete k (with_diagnostics L fam env pre clf proba m)
  = with_diagnostics L fam env pre clf proba (delete k m).
Proof.
  intros Hfi Hre. unfold with_diagnostics, with_events, with_importances.
  destruct (events_block _ _ _ _ _);
    (rewrite delete_insert_ne by done); f_equal;
    destruct fam; try done;
    destruct (importances_block L pre clf) as [[fi|]|?]; try done;
    by rewrite delete_insert_ne.
Qed.

Lemma recent_events_with_diagnostics L fam env pre clf proba m :
  recent_events (with_diagnostics L fam env pre clf proba m) =
    match events_block L (addresses_index env) (addresses env)
            (index (X_test env)) proba with
    | OK events => events
    | Raise _ => []
    end.
Proof.
  unfold recent_events, with_diagnostics, with_events.
  destruct (events_block _ _ _ _ _); by rewrite lookup_insert_eq.
Qed.

Lemma list_to_map_assoc {V} (l : list (string * V)) (k : string) :
  (list_to_map l : gmap string V) !! k = assoc k l.
Proof.
  induction l as [|[k' v] t IH]; [done|].
  rewrite list_to_map_cons. cbn [assoc fst snd].
  destruct (String.eqb k' k) eqn:Hk.
  - apply String.eqb_eq in Hk as ->. apply lookup_insert_eq.
  - apply String.eqb_neq in Hk. by rewrite lookup_insert_ne.
Qed.

Lemma delete_list_to_map {V} (l : list (string * V)) (k : string) :
  delete k (list_to_map l : gmap string V)
  = list_to_map (List.filter (fun p => negb (String.eqb p.1 k)) l).
Proof.
  induction l as [|[k' v] t IH]; [apply delete_empty|].
  rewrite list_to_map_cons. cbn [List.filter fst snd].
  destruct (String.eqb k' k) eqn:Hk; cbn [negb].
  - apply String.eqb_eq in Hk as ->. by rewrite delete_insert_eq.
  - apply String.eqb_neq in Hk.
    rewrite list_to_map_cons, delete_insert_ne by done. by rewrite IH.
Qed.

Lemma base_metrics_scores fam env u X_tr y_tr acc prec rec f1 roc ap rep :
  let m := base_metrics fam env u X_tr y_tr acc prec rec f1 roc ap rep in
  m !! "precision" = Some (VFloat prec) ∧
  m !! "recall" = Some (VFloat rec) ∧
  m !! "f1" = Some (VFloat f1) ∧
  m !! "balanced_fraud_rate" = Some (VFloat (mean_Z y_tr)) ∧
  m !! "post_smote_fraud" = Some (VInt (sum_Z y_tr)) ∧
  m !! "post_smote_legit" = Some (VInt (count_eq 0 y_tr)) ∧
  m !! "timestamp" = Some (VStr (u +:+ "Z")).
Proof.
  unfold base_metrics. cbv zeta. rewrite !list_to_map_assoc.
  destruct fam; repeat split; reflexivity.
Qed.

Lemma base_metrics_delete_timestamp fam env u u' X_tr y_tr acc prec rec f1 roc ap rep :
  delete "timestamp" (base_metrics fam env u X_tr y_tr acc prec rec f1 roc ap rep)
  = delete "timestamp"
      (base_metrics fam env u' X_tr y_tr acc prec rec f1 roc ap rep).
Proof.
  unfold base_metrics. rewrite !delete_list_to_map.
  destruct fam;
    cbn [app List.filter fst snd String.eqb Ascii.eqb Bool.eqb negb];
    reflexivity.
Qed.

(** ** Repeated runs *)

Lemma fit_and_eval_up_to_timestamp L fam env u1 u2 pre clf :
  (fit_and_eval L fam env u1 pre clf).1 = (fit_and_eval L fam env u2 pre clf).1 ∧
  match (fit_and_eval L fam env u1 pre clf).2,
        (fit_and_eval L fam env u2 pre clf).2 with
  | OK (m1, c1, p1), OK (m2, c2, p2) =>
      delete "timestamp" m1 = delete "timestamp" m2 ∧
      m1 !! "timestamp" = Some (VStr (u1 +:+ "Z")) ∧
      m2 !! "timestamp" = Some (VStr (u2 +:+ "Z")) ∧
      c1 = c2 ∧ p1 = p2
  | Raise e1, Raise e2 => e1 = e2
  | _, _ => False
  end.
Proof.
  split; [by rewrite !fit_and_eval_state|].
  destruct (fit_and_eval L fam env u1 pre clf) as [pre1 [[[m1 c1] p1]|e1]] eqn:H1.
  - destruct (fit_and_eval_inv _ _ _ _ _ _ _ _ _ _ H1)
      as (X_tr0 & X_te & X_tr & y_tr & proba & acc & prec & rec & f1 & roc & ap
          & rep & E1 & E2 & E3 & E4 & E5 & E6 & E7 & E8 & E9 & E10 & E11 & E12
          & -> & ->).
    rewrite (fit_and_eval_complete L fam env u2 pre clf pre1
               X_tr0 X_te X_tr y_tr c1 proba acc prec rec f1 roc ap rep) by done.
    simpl. rewrite !with_diagnostics_delete by done.
    rewrite !with_diagnostics_lookup by done.
    rewrite (base_metrics_delete_timestamp fam env u1 u2).
    pose proof (base_metrics_scores fam env u1 X_tr y_tr acc prec rec f1 roc ap rep)
      as (_ & _ & _ & _ & _ & _ & Ht1).
    pose proof (base_metrics_scores fam env u2 X_tr y_tr acc prec rec f1 roc ap rep)
      as (_ & _ & _ & _ & _ & _ & Ht2).
    done.
  - simpl. revert H1. unfold fit_and_eval.
    destruct (fit_transform L pre (X_train env)) as [pre' [X_tr0|e]];
      intros H; injection H as -> H; simpl; [|congruence].
    unfold mbind, exc_bind in *.
    repeat match type of H with
           | context [match ?x with _ => _ end] => destruct x; simpl in *
           end; congruence.
Qed.

(** C2, as amended. Two non-search runs of [train_xgb] on the same frame
    with the same seed, started at clock readings [u1] and [u2], either
    raise the same exception or return the same classifier, the same
    preprocessor and metrics that agree on every entry except ["timestamp"],
    which holds the respective clock reading. *)
Theorem train_xgb_repeatable_up_to_timestamp
    (L : Library) (df : DataFrame) (seed : Z) (u1 u2 : string) :
  match train_xgb L u1 df false seed, train_xgb L u2 df false seed with
  | OK (m1, c1, p1), OK (m2, c2, p2) =>
      delete "timestamp" m1 = delete "timestamp" m2 ∧
      m1 !! "timestamp" = Some (VStr (u1 +:+ "Z")) ∧
      m2 !! "timestamp" = Some (VStr (u2 +:+ "Z")) ∧
      c1 = c2 ∧ p1 = p2
  | Raise e1, Raise e2 => e1 = e2
  | _, _ => False
  end.
Proof.
  unfold train_xgb, train. unfold mbind at 1 2 3 4 5 6 7 8 9 10 11 12 13 14.
  unfold exc_bind.
  repeat match goal with
         | |- context [match ?x with OK _ => _ | Raise _ => _ end] =>
             lazymatch x with
             | context [fit_and_eval] => fail
             | _ => destruct x; simpl; try done
             end
         | |- context [let '(_, _) := ?x in _] => destruct x; simpl
         end.
  match goal with
  | |- context [fit_and_eval L XGBoost ?env u1 ?pre ?clf] =>
      apply (fit_and_eval_up_to_timestamp L XGBoost env u1 u2 pre clf)
  end.
Qed.

(** C2, as stated, fails: the same frame and the same seed, run at two
    different seconds, give two different metrics records. *)
Lemma train_xgb_metrics_differ_between_runs :
  ∃ m1 m2 c p,
    train_xgb toy_library "2024-05-01T10:00:00" toy_frame false 42 = OK (m1, c, p) ∧
    train_xgb toy_library "2024-05-01T10:00:01" toy_frame false 42 = OK (m2, c, p) ∧
    m1 !! "timestamp" = Some (VStr "2024-05-01T10:00:00Z") ∧
    m2 !! "timestamp" = Some (VStr "2024-05-01T10:00:01Z") ∧
    m1 ≠ m2.
Proof.
  pose (metrics_of := fun r : exc (metrics * toy_estimator * ColumnTransformer) =>
                        match r with
                        | OK (m, _, _) => m
                        | Raise _ => ∅
                        end).
  pose (rest := fun r : exc (metrics * toy_estimator * ColumnTransformer) =>
                  match r with
                  | OK (_, c, p) => Some (c, p)
                  | Raise _ => None
                  end).
  assert (Hshape : ∀ r c p, rest r = Some (c, p) → r = OK (metrics_of r, c, p)).
  { intros [[[m c'] p']|e] c p; simpl; congruence. }
  set (r1 := train_xgb toy_library "2024-05-01T10:00:00" toy_frame false 42).
  set (r2 := train_xgb toy_library "2024-05-01T10:00:01" toy_frame false 42).
  assert (Ht1 : metrics_of r1 !! "timestamp" = Some (VStr "2024-05-01T10:00:00Z"))
    by (vm_compute; reflexivity).
  assert (Ht2 : metrics_of r2 !! "timestamp" = Some (VStr "2024-05-01T10:00:01Z"))
    by (vm_compute; reflexivity).
  exists (metrics_of r1), (metrics_of r2),
         (base_estimator toy_library XGBoost 42), toy_pre_fitted.
  split; [apply Hshape; vm_compute; reflexivity|].
  split; [apply Hshape; vm_compute; reflexivity|].
  split; [exact Ht1|]. split; [exact Ht2|].
  intros H. rewrite H, Ht2 in Ht1. discriminate Ht1.
Qed.

(** ** Diagnostics that fail *)

Lemma with_importances_failure (e : exception) (m : metrics) :
  m !! "feature_importances" = None →
  with_importances XGBoost (Raise e) m !! "feature_importances" = None ∧
  with_importances RandomForest (Raise e) m !! "feature_importances"
    = Some (VRecords []).
Proof. intros Hm. simpl. by rewrite lookup_insert_eq. Qed.

(** C4 at a failing input. With a classifier whose importances cannot be
    read, the run of the XGBoost module completes but its metrics have no
    ["feature_importances"] entry at all, whereas the random-forest module on
    the same input stores the empty ranking; the events are unaffected. *)
Theorem xgb_importance_failure_leaves_no_entry :
  importances_block toy_library
    {| ct_columns := ["score"]; ct_statistics := Some [(fl 0, fl 1)] |}
    broken_importances = Raise (ValueError "importances unavailable") ∧
  match (fit_and_eval toy_library XGBoost plain_env "2024-05-01T10:00:00"
           toy_pre broken_importances).2,
        (fit_and_eval toy_library RandomForest plain_env "2024-05-01T10:00:00"
           toy_pre broken_importances).2 with
  | OK (m_xgb, _, _), OK (m_rf, _, _) =>
      m_xgb !! "feature_importances" = None ∧
      m_rf !! "feature_importances" = Some (VRecords []) ∧
      length (recent_events m_xgb) = 4%nat
  | _, _ => False
  end.
Proof. split; [reflexivity|]. vm_compute. done. Qed.

(** ** Scores on a partition without fraud *)

Lemma threshold_length proba : length (threshold proba) = length proba.
Proof. apply length_map. Qed.

Lemma threshold_binary proba : is_binary (threshold proba) = true.
Proof.
  unfold is_binary, threshold. induction proba as [|p t IH]; [done|].
  cbn [map forallb]. rewrite IH. by destruct (fge p (fl (1 # 2))).
Qed.

Lemma zeros_binary y : Forall (eq 0%Z) y → is_binary y = true.
Proof.
  unfold is_binary. induction 1 as [|z t <- _ IH]; simpl; [done|exact IH].
Qed.

Lemma count_pairs_no_fraud yp y_true y_pred :
  Forall (eq 0%Z) y_true → count_pairs 1 yp y_true y_pred = 0%Z.
Proof.
  unfold count_pairs. intros Hz. revert y_pred.
  induction Hz as [|z t <- _ IH]; intros [|p y_pred]; simpl; try done.
Qed.

Lemma ratio_or_zero_numerator (den : Z) : ratio_or 0 0 den = fl 0.
Proof.
  unfold ratio_or. destruct (den =? 0)%Z eqn:Hden; [done|].
  unfold fdiv, of_Z, fl.
  destruct (Qeq_bool (Qred (inject_Z den)) 0) eqn:Hq.
  - apply Qeq_bool_iff in Hq. rewrite Qred_correct in Hq.
    apply Z.eqb_neq in Hden. exfalso. apply Hden.
    unfold Qeq, inject_Z in Hq. simpl in Hq. lia.
  - f_equal;
      try (apply Qred_complete; unfold Qdiv;
           change (Qred (inject_Z 0)) with 0%Q; apply Qmult_0_l).
Qed.

Lemma scores_without_fraud y_true proba :
  Forall (eq 0%Z) y_true → length proba = length y_true →
  precision_score y_true (threshold proba) 0 = OK (fl 0) ∧
  recall_score y_true (threshold proba) 0 = OK (fl 0) ∧
  f1_score y_true (threshold proba) 0 = OK (fl 0).
Proof.
  intros Hz Hlen.
  assert (Hcheck : check_targets y_true (threshold proba) = OK ()).
  { unfold check_targets. rewrite threshold_length, Hlen, Nat.eqb_refl.
    simpl. by rewrite zeros_binary, threshold_binary. }
  unfold precision_score, recall_score, f1_score. rewrite Hcheck. simpl.
  rewrite !count_pairs_no_fraud by done. simpl.
  by rewrite !ratio_or_zero_numerator.
Qed.

(** The scores never raise a zero-division error, whatever the targets. *)
Lemma scores_never_divide_by_zero y_true y_pred :
  precision_score y_true y_pred 0 ≠ Raise ZeroDivisionError ∧
  recall_score y_true y_pred 0 ≠ Raise ZeroDivisionError ∧
  f1_score y_true y_pred 0 ≠ Raise ZeroDivisionError.
Proof.
  unfold precision_score, recall_score, f1_score, check_targets.
  destruct (negb _); simpl; [done|]. by destruct (negb _).
Qed.

(** C8. When the held-out labels are all zero and the library steps of the
    run succeed, [fit_and_eval] returns, and the precision, recall and F1 it
    reports are 0: the zero denominators are answered by [zero_division=0],
    not by an exception. *)
Theorem zero_flag_scores_default_to_zero
    L fam env u pre clf pre' X_tr0 X_te X_tr y_tr c proba roc ap rep :
  Forall (eq 0%Z) (y_test env) →
  fit_transform L pre (X_train env) = (pre', OK X_tr0) →
  transform pre' (X_test env) = OK X_te →
  smote_fit_resample L (random_state env) X_tr0 (y_train env) = OK (X_tr, y_tr) →
  fit L clf X_tr y_tr = OK c →
  predict_proba_1 L c X_te = OK proba →
  length proba = length (y_test env) →
  roc_auc_score L (y_test env) proba = OK roc →
  average_precision_score L (y_test env) proba = OK ap →
  classification_report L (y_test env) (threshold proba) = OK rep →
  ∃ m, fit_and_eval L fam env u pre clf = (pre', OK (m, c, pre')) ∧
    m !! "precision" = Some (VFloat (fl 0)) ∧
    m !! "recall" = Some (VFloat (fl 0)) ∧
    m !! "f1" = Some (VFloat (fl 0)).
Proof.
  intros Hz Hft Htr Hsm Hfit Hpred Hlen Hroc Hap Hrep.
  destruct (scores_without_fraud (y_test env) proba Hz Hlen) as (Hp & Hr & Hf).
  assert (Hacc : ∃ acc, accuracy_score (y_test env) (threshold proba) = OK acc).
  { unfold accuracy_score. rewrite threshold_length, Hlen, Nat.eqb_refl. simpl.
    eauto. }
  destruct Hacc as [acc Hacc]. eexists. split.
  - eapply fit_and_eval_complete; eauto.
  - rewrite !with_diagnostics_lookup by done.
    pose proof (base_metrics_scores fam env u X_tr y_tr acc (fl 0) (fl 0) (fl 0)
                  roc ap rep) as (? & ? & ? & _).
    done.
Qed.


Lemma zero_flag_scores_default_to_zero_witness :
  ∃ m, fit_and_eval toy_library XGBoost clean_env "2024-05-01T10:00:00"
         toy_pre (base_estimator toy_library XGBoost 42)
       = (toy_pre_fitted,
          OK (m, base_estimator toy_library XGBoost 42, toy_pre_fitted)) ∧
    m !! "precision" = Some (VFloat (fl 0)) ∧
    m !! "recall" = Some (VFloat (fl 0)) ∧
    m !! "f1" = Some (VFloat (fl 0)).
Proof.
  eapply (zero_flag_scores_default_to_zero toy_library XGBoost clean_env
            "2024-05-01T10:00:00" toy_pre (base_estimator toy_library XGBoost 42)
            toy_pre_fitted);
    try reflexivity.
  repeat constructor.
Defined.

(** * Further properties *)

(** ** The result store *)

Lemma last_n_app_last_n {A} (n : nat) (a b : list A) :
  Api.last_n n (Api.last_n n a ++ b) = Api.last_n n (a ++ b).
Proof.
  unfold Api.last_n. rewrite !length_app, length_drop.
  destruct (decide (length a ≤ n)%nat) as [Hle|Hgt].
  - replace (length a - n) with 0 by lia. simpl.
    by replace (length a - 0 + length b - n) with (length a + length b - n) by lia.
  - replace (length a + length b - n) with ((length a - n) + length b) by lia.
    rewrite <- drop_drop, (drop_app_le a b (length a - n)) by lia.
    f_equal. lia.
Qed.

Lemma record_response_history st r :
  Api.METRICS_HISTORY (Api.record_response st r)
  = Api.last_n 24 (Api.METRICS_HISTORY st ++ [r]).
Proof.
  unfold Api.record_response. simpl.
  destruct (24 <? length (Api.METRICS_HISTORY st ++ [r]))%nat eqn:Hlen; [done|].
  apply Nat.ltb_ge in Hlen. unfold Api.last_n.
  by replace (length (Api.METRICS_HISTORY st ++ [r]) - 24) with 0 by lia.
Qed.

Lemma last_n_length {A} (n : nat) (l : list A) :
  length (Api.last_n n l) = Nat.min n (length l).
Proof. unfold Api.last_n. rewrite length_drop. lia. Qed.

Lemma history_after st responses :
  (length (Api.METRICS_HISTORY st) ≤ 24)%nat →
  Api.METRICS_HISTORY (foldl Api.record_response st responses)
  = Api.last_n 24 (Api.METRICS_HISTORY st ++ responses).
Proof.
  revert st. induction responses as [|r rs IH]; intros st Hlen.
  - cbn [foldl]. rewrite app_nil_r. unfold Api.last_n.
    by replace (length (Api.METRICS_HISTORY st) - 24) with 0 by lia.
  - cbn [foldl]. rewrite IH.
    + rewrite record_response_history, last_n_app_last_n.
      by rewrite <- app_assoc.
    + rewrite record_response_history, last_n_length. lia.
Qed.

(** X1. The history keeps the responses of the last 24 successful trainings, oldest
    first, and nothing else. *)
Theorem history_keeps_last_24 (responses : list metrics) :
  let st := foldl Api.record_response Api.initial responses in
  Api.get_metrics_history st = drop (length responses - 24) responses ∧
  length (Api.get_metrics_history st) = Nat.min 24 (length responses).
Proof.
  intros st. subst st. unfold Api.get_metrics_history.
  assert (H : Api.METRICS_HISTORY (foldl Api.record_response Api.initial responses)
              = drop (length responses - 24) responses).
  { rewrite history_after by (simpl; lia). done. }
  rewrite H. split; [done|]. rewrite length_drop. lia.
Qed.

Lemma take_app_take {A} (n : nat) (a b : list A) :
  take n (a ++ take n b) = take n (a ++ b).
Proof.
  rewrite !take_app. f_equal. rewrite take_take. f_equal. lia.
Qed.

Lemma activity_after st responses :
  (length (Api.ACTIVITY_LOG st) ≤ 50)%nat →
  Api.ACTIVITY_LOG (foldl Api.record_response st responses)
  = take 50 (flat_map Api.contributed (rev responses) ++ Api.ACTIVITY_LOG st).
Proof.
  revert st. induction responses as [|r rs IH]; intros st Hlen.
  - simpl. by rewrite take_ge.
  - cbn [foldl]. rewrite IH.
    + cbn [rev]. rewrite flat_map_app. cbn [flat_map]. rewrite app_nil_r.
      rewrite <- app_assoc. unfold Api.record_response at 1. cbn [Api.ACTIVITY_LOG].
      unfold Api.contributed at 3.
      destruct (Api.response_events r) as [events|]; simpl.
      * apply take_app_take.
      * done.
    + unfold Api.record_response. cbn [Api.ACTIVITY_LOG].
      destruct (Api.response_events r); [|done].
      rewrite length_take. lia.
Qed.

(** X2. The activity log holds the events of the successful trainings, newest
    training first, cut after 50 events. *)
Theorem activity_log_newest_first (responses : list metrics) :
  let st := foldl Api.record_response Api.initial responses in
  Api.get_activity st = take 50 (flat_map Api.contributed (rev responses)) ∧
  (length (Api.get_activity st) ≤ 50)%nat.
Proof.
  intros st. subst st. unfold Api.get_activity.
  rewrite activity_after by (simpl; lia). simpl. rewrite app_nil_r.
  split; [done|]. rewrite length_take. lia.
Qed.

Lemma models_after st responses k :
  Api.MODEL_METRICS (foldl Api.record_response st responses) !! k
  = match last (List.filter (fun r => String.eqb (Api.model_key r) k) responses) with
    | Some r => Some r
    | None => Api.MODEL_METRICS st !! k
    end.
Proof.
  revert st. induction responses as [|r rs IH]; intros st; [done|].
  cbn [foldl List.filter]. rewrite IH.
  destruct (String.eqb (Api.model_key r) k) eqn:Hk.
  - destruct (List.filter _ rs) as [|r' rs'] eqn:Hf; simpl.
    + apply String.eqb_eq in Hk as <-. apply lookup_insert_eq.
    + rewrite last_cons. by destruct (last rs').
  - destruct (last (List.filter _ rs)); [done|].
    apply String.eqb_neq in Hk. simpl. by rewrite lookup_insert_ne.
Qed.

Lemma latest_after st responses :
  Api.LATEST_METRICS (foldl Api.record_response st responses)
  = match last responses with
    | Some r => Some r
    | None => Api.LATEST_METRICS st
    end.
Proof.
  revert st. induction responses as [|r rs IH]; intros st; [done|].
  cbn [foldl]. rewrite IH, last_cons. by destruct (last rs).
Qed.

(** X3. The per-model view shows, for every model name, the summary of the most
    recent response recorded under that name, and nothing for a name that was
    never trained; the latest metrics are those of the last training. *)
Theorem model_metrics_show_latest_run (responses : list metrics) (name : string) :
  let st := foldl Api.record_response Api.initial responses in
  Api.get_model_metrics st !! name
  = Api.summary <$>
      last (List.filter (fun r => String.eqb (Api.model_key r) name) responses) ∧
  Api.get_latest_metrics st = last responses.
Proof.
  intros st. subst st. unfold Api.get_model_metrics, Api.get_latest_metrics.
  rewrite lookup_fmap, models_after, latest_after. simpl.
  split; [by destruct (last _) | by destruct (last responses)].
Qed.

Lemma last_last_n {A} (n : nat) (l : list A) (x : A) :
  (0 < n)%nat → last (Api.last_n n (l ++ [x])) = Some x.
Proof.
  intros Hn. unfold Api.last_n.
  rewrite last_lookup, lookup_drop, length_drop, length_app. simpl.
  apply list_lookup_middle. lia.
Qed.

Lemma train_endpoint_success B req log m :
  train_endpoint B req = (log, OK m) →
  ∃ name m0, name ∈ Api.model_names ∧ Fit name ∈ log ∧ ParseFiles ∈ log ∧
    m = <["used_model" := VStr name]> m0.
Proof.
  unfold train_endpoint, perform. simpl.
  destruct (load_and_prepare B _ _) as [df|e]; simpl; [|discriminate].
  destruct (engineer_features B df) as [df'|e]; simpl; [|discriminate].
  unfold Api.model_names.
  repeat match goal with
         | |- context [if ?b then _ else _] => destruct b
         end; simpl;
    match goal with
    | |- context [?f B df' _ _] =>
        destruct (f B df' (not_ (no_tune req)) (seed req)) as [m0|e]; simpl;
          [|discriminate]
    end;
    intros [= <- <-]; eexists _, m0; repeat split; set_solver.
Qed.

(** X4. A request changes the store only when its training succeeds. Then the
    response carries one of the four model names under [used_model] and is
    what the store holds as latest metrics, as last history entry and as the
    metrics of that model. *)
Theorem handle_records_successful_trainings_only
    (json_dumps_ok : value → bool) (str : value → string)
    (B : Backend) (st : Api.store) (req : request) :
  match Api.handle json_dumps_ok str B st req with
  | (st', (log, OK response)) =>
      ∃ name, name ∈ Api.model_names ∧ Fit name ∈ log ∧
        response !! "used_model" = Some (VStr name) ∧
        Api.get_latest_metrics st' = Some response ∧
        last (Api.get_metrics_history st') = Some response ∧
        Api.MODEL_METRICS st' !! name = Some response
  | (st', (_, Raise _)) => st' = st
  end.
Proof.
  unfold Api.handle.
  destruct (train_endpoint B req) as [log [m|e]] eqn:Hrun; [|done].
  destruct (train_endpoint_success B req log m Hrun)
    as (name & m0 & Hname & Hfit & _ & ->).
  exists name.
  assert (Hused : Api.response_metrics json_dumps_ok str
                    (<["used_model" := VStr name]> m0) !! "used_model"
                  = Some (VStr name)).
  { unfold Api.response_metrics. by rewrite map_lookup_imap, lookup_insert_eq. }
  repeat split; try done.
  - unfold Api.get_metrics_history. rewrite record_response_history.
    apply last_last_n. lia.
  - unfold Api.record_response. cbn [Api.MODEL_METRICS].
    unfold Api.model_key. rewrite Hused. apply lookup_insert_eq.
Qed.

(** ** The loader *)

Lemma key_eqb_refl k : Prepare.key_eqb k k = true.
Proof. destruct k; simpl; [apply String.eqb_refl | by apply Qeq_bool_iff]. Qed.

Lemma key_eqb_sym a b : Prepare.key_eqb a b = Prepare.key_eqb b a.
Proof.
  destruct a, b; simpl; try done; [apply String.eqb_sym|].
  apply eq_true_iff_eq. rewrite !Qeq_bool_iff. split; intros H; by symmetry.
Qed.

Lemma key_eqb_trans a b c :
  Prepare.key_eqb a b = true → Prepare.key_eqb b c = true →
  Prepare.key_eqb a c = true.
Proof.
  destruct a, b, c; simpl; try done.
  - rewrite !String.eqb_eq. congruence.
  - rewrite !Qeq_bool_iff. intros -> ->. reflexivity.
Qed.

Lemma key_eqb_congr a b c :
  Prepare.key_eqb a b = true → Prepare.key_eqb a c = Prepare.key_eqb b c.
Proof.
  intros Hab. apply eq_true_iff_eq. split; intros H.
  - rewrite key_eqb_sym in Hab. by eapply key_eqb_trans.
  - by eapply key_eqb_trans.
Qed.

Lemma lookup_key_bump k k' groups :
  Prepare.lookup_key k (Prepare.bump k' groups) =
    if Prepare.key_eqb k' k
    then Some (default 0 (Prepare.lookup_key k groups) + 1)%Z
    else Prepare.lookup_key k groups.
Proof.
  unfold Prepare.lookup_key.
  induction groups as [|[k0 n] t IH]; simpl.
  - by destruct (Prepare.key_eqb k' k).
  - destruct (Prepare.key_eqb k0 k') eqn:H0; simpl.
    + rewrite (key_eqb_congr _ _ k H0). by destruct (Prepare.key_eqb k' k).
    + destruct (Prepare.key_eqb k0 k) eqn:H1; simpl; [|exact IH].
      destruct (Prepare.key_eqb k' k) eqn:H2; [|done].
      rewrite key_eqb_sym in H2. rewrite (key_eqb_trans _ _ _ H1 H2) in H0.
      discriminate.
Qed.

Lemma lookup_key_Some_elem k n groups :
  Prepare.lookup_key k groups = Some n →
  ∃ i g, groups !! i = Some g ∧ Prepare.key_eqb g.1 k = true ∧ g.2 = n.
Proof.
  unfold Prepare.lookup_key. induction groups as [|g t IH]; simpl; [done|].
  destruct (Prepare.key_eqb g.1 k) eqn:Hk; simpl.
  - intros [= <-]. by exists 0%nat, g.
  - intros H. destruct (IH H) as (i & h & ? & ? & ?). by exists (S i), h.
Qed.

Lemma lookup_key_None k groups :
  Prepare.lookup_key k groups = None ↔
  Forall (fun g => Prepare.key_eqb g.1 k = false) groups.
Proof.
  unfold Prepare.lookup_key. induction groups as [|g t IH]; simpl.
  - split; [constructor|done].
  - destruct (Prepare.key_eqb g.1 k) eqn:Hk; simpl.
    + split; [done|]. intros H. inversion H; congruence.
    + rewrite IH. split; [by constructor|]. intros H. by inversion H.
Qed.

Lemma Forall_keys_bump (Q : Prepare.key → Prop) k groups :
  Forall (fun h => Q h.1) groups → Q k →
  Forall (fun h => Q h.1) (Prepare.bump k groups).
Proof.
  intros Hall Hk. induction Hall as [|[k0 n] t Hg Ht IH]; simpl.
  - by repeat constructor.
  - destruct (Prepare.key_eqb k0 k); by constructor.
Qed.

Lemma distinct_keys_bump k groups :
  distinct_keys groups → distinct_keys (Prepare.bump k groups).
Proof.
  induction groups as [|[k0 n] t IH]; simpl.
  - by repeat constructor.
  - intros [Hhd Ht]. destruct (Prepare.key_eqb k0 k) eqn:H0; simpl.
    + done.
    + split; [|by apply IH].
      by apply (Forall_keys_bump (fun x => Prepare.key_eqb k0 x = false)).
Qed.

Lemma count_key_cons k x keys :
  count_key k (x :: keys) =
    ((match x with
      | Some k' => if Prepare.key_eqb k' k then 1 else 0
      | None => 0
      end) + count_key k keys)%Z.
Proof.
  unfold count_key. simpl. destruct x as [k'|]; [|lia].
  destruct (Prepare.key_eqb k' k); simpl; lia.
Qed.

Lemma count_key_nonneg k keys : (0 <= count_key k keys)%Z.
Proof. unfold count_key. lia. Qed.

Lemma lookup_key_foldl k keys groups :
  Prepare.lookup_key k
    (foldl (fun groups k => match k with
                            | Some k => Prepare.bump k groups
                            | None => groups
                            end) groups keys)
  = match Prepare.lookup_key k groups with
    | Some n => Some (n + count_key k keys)%Z
    | None => if (count_key k keys =? 0)%Z then None else Some (count_key k keys)
    end.
Proof.
  revert groups. induction keys as [|x keys IH]; intros groups.
  - simpl. destruct (Prepare.lookup_key k groups); [f_equal; unfold count_key; simpl; lia | done].
  - cbn [foldl]. rewrite IH, count_key_cons.
    pose proof (count_key_nonneg k keys) as Hnn.
    destruct x as [k'|].
    + rewrite lookup_key_bump. destruct (Prepare.key_eqb k' k).
      * destruct (Prepare.lookup_key k groups); simpl.
        -- f_equal. lia.
        -- destruct (1 + count_key k keys =? 0)%Z eqn:E; [lia|].
           destruct (count_key k keys =? 0)%Z; f_equal; lia.
      * by destruct (Prepare.lookup_key k groups).
    + by destruct (Prepare.lookup_key k groups).
Qed.

Lemma lookup_key_groupby k keys :
  Prepare.lookup_key k (Prepare.groupby_size keys)
  = if (count_key k keys =? 0)%Z then None else Some (count_key k keys).
Proof. unfold Prepare.groupby_size. by rewrite lookup_key_foldl. Qed.

Lemma distinct_keys_groupby keys : distinct_keys (Prepare.groupby_size keys).
Proof.
  unfold Prepare.groupby_size.
  assert (H : ∀ groups, distinct_keys groups →
            distinct_keys
              (foldl (fun groups k => match k with
                                      | Some k => Prepare.bump k groups
                                      | None => groups
                                      end) groups keys)).
  { induction keys as [|[k|] keys IH]; intros groups Hd; simpl; [done| |].
    - apply IH. by apply distinct_keys_bump.
    - by apply IH. }
  by apply H.
Qed.

Lemma lookup_key_congr a b groups :
  Prepare.key_eqb a b = true →
  Prepare.lookup_key a groups = Prepare.lookup_key b groups.
Proof.
  intros Hab. unfold Prepare.lookup_key. f_equal.
  induction groups as [|g t IH]; simpl; [done|].
  rewrite (key_eqb_sym g.1 a), (key_eqb_congr a b g.1 Hab), (key_eqb_sym b g.1).
  by rewrite IH.
Qed.

Lemma find_app {A} (P : A → bool) (l1 l2 : list A) :
  List.find P (l1 ++ l2)
  = match List.find P l1 with
    | Some x => Some x
    | None => List.find P l2
    end.
Proof. induction l1 as [|x t IH]; simpl; [done|]. by destruct (P x). Qed.

Lemma filter_none {A} (f : A → bool) (l : list A) :
  Forall (fun x => f x = false) l → List.filter f l = [].
Proof. induction 1 as [|x t Hx _ IH]; simpl; [done|]. by rewrite Hx. Qed.

Lemma find_filter_implied {A} (P G : A → bool) (l : list A) :
  (∀ x, P x = true → G x = true) →
  List.find P (List.filter G l) = List.find P l.
Proof.
  intros HPG. induction l as [|x t IH]; simpl; [done|].
  destruct (P x) eqn:HP.
  - rewrite (HPG x HP). simpl. by rewrite HP.
  - destruct (G x); simpl; rewrite ?HP; exact IH.
Qed.

Lemma find_map_same {A} (P : A → bool) (F : A → A) (l : list A) :
  (∀ x, P (F x) = P x) → List.find P (map F l) = F <$> List.find P l.
Proof.
  intros HPF. induction l as [|x t IH]; simpl; [done|].
  rewrite HPF. by destruct (P x).
Qed.

Lemma matches_distinct k groups :
  distinct_keys groups →
  map snd (List.filter (fun g => Prepare.key_eqb g.1 k) groups)
  = match Prepare.lookup_key k groups with
    | Some n => [n]
    | None => []
    end.
Proof.
  unfold Prepare.lookup_key. induction groups as [|g t IH]; simpl; [done|].
  intros [Hhd Ht]. destruct (Prepare.key_eqb g.1 k) eqn:Hk; simpl; [|by apply IH].
  f_equal. rewrite filter_none; [done|].
  eapply Forall_impl; [exact Hhd|]. intros h Hh. simpl in Hh.
  rewrite key_eqb_sym. rewrite <- (key_eqb_congr _ _ h.1 Hk). exact Hh.
Qed.

Lemma lookup_key_outer k outs ins :
  Prepare.lookup_key k (Prepare.outer_counts outs ins)
  = match Prepare.lookup_key k outs with
    | Some n => Some (n + default 0 (Prepare.lookup_key k ins))%Z
    | None => Prepare.lookup_key k ins
    end.
Proof.
  unfold Prepare.outer_counts.
  unfold Prepare.lookup_key at 1. rewrite find_app.
  rewrite (find_map_same (fun g => Prepare.key_eqb g.1 k)
             (fun g => (g.1, (g.2 + default 0 (Prepare.lookup_key g.1 ins))%Z)))
    by done.
  destruct (Prepare.lookup_key k outs) as [n|] eqn:Hout.
  - unfold Prepare.lookup_key in Hout.
    destruct (List.find _ outs) as [g|] eqn:Hg; [|done]. simpl in *.
    injection Hout as <-. apply List.find_some in Hg as [_ Hg].
    by rewrite (lookup_key_congr _ _ ins Hg).
  - unfold Prepare.lookup_key in Hout.
    destruct (List.find _ outs) as [g|] eqn:Hg; [done|]. simpl.
    unfold Prepare.lookup_key. f_equal. apply find_filter_implied.
    intros h Hh. apply negb_true_iff, not_true_iff_false. intros Hex.
    apply existsb_exists in Hex as (o & Ho & Hoh).
    pose proof (List.find_none _ _ Hg o Ho) as Hno. simpl in Hno.
    rewrite (key_eqb_trans _ _ _ Hoh Hh) in Hno. discriminate.
Qed.

Lemma Forall_keys_outer (Q : Prepare.key → Prop) outs ins :
  Forall (fun h => Q h.1) outs → Forall (fun h => Q h.1) ins →
  Forall (fun h => Q h.1) (Prepare.outer_counts outs ins).
Proof.
  intros Ho Hi. unfold Prepare.outer_counts. apply Forall_app. split.
  - apply Forall_map. eapply Forall_impl; [exact Ho|]. done.
  - apply Forall_forall. intros h Hh. apply list_elem_of_In, filter_In in Hh as [Hh _].
    rewrite Forall_forall in Hi. apply Hi. by apply list_elem_of_In.
Qed.

Lemma distinct_keys_filter (G : Prepare.key * Z → bool) groups :
  distinct_keys groups → distinct_keys (List.filter G groups).
Proof.
  induction groups as [|g t IH]; simpl; [done|]. intros [Hhd Ht].
  destruct (G g); simpl; [|by apply IH]. split; [|by apply IH].
  apply Forall_forall. intros h Hh. apply list_elem_of_In, filter_In in Hh as [Hh _].
  rewrite Forall_forall in Hhd. apply Hhd. by apply list_elem_of_In.
Qed.

Lemma distinct_keys_app a b :
  distinct_keys a → distinct_keys b →
  Forall (fun x => Forall (fun h => Prepare.key_eqb x.1 h.1 = false) b) a →
  distinct_keys (a ++ b).
Proof.
  induction a as [|x a IH]; simpl; [done|].
  intros [Hhd Ha] Hb Hcross. inversion Hcross as [|? ? Hx Hrest]; subst.
  split; [by apply Forall_app | by apply IH].
Qed.

Lemma distinct_keys_map (F : Prepare.key * Z → Z) groups :
  distinct_keys groups → distinct_keys (map (fun g => (g.1, F g)) groups).
Proof.
  induction groups as [|g t IH]; simpl; [done|]. intros [Hhd Ht].
  split; [|by apply IH]. apply Forall_map. eapply Forall_impl; [exact Hhd|]. done.
Qed.

Lemma distinct_keys_outer outs ins :
  distinct_keys outs → distinct_keys ins →
  distinct_keys (Prepare.outer_counts outs ins).
Proof.
  intros Ho Hi. unfold Prepare.outer_counts. apply distinct_keys_app.
  - by apply (distinct_keys_map
                (fun g => (g.2 + default 0 (Prepare.lookup_key g.1 ins))%Z)).
  - by apply distinct_keys_filter.
  - apply Forall_map, Forall_forall. intros o Ho'. simpl.
    apply Forall_forall. intros h Hh.
    apply list_elem_of_In, filter_In in Hh as [_ Hh].
    apply negb_true_iff in Hh.
    destruct (Prepare.key_eqb o.1 h.1) eqn:Hoh; [|done].
    assert (Hex : existsb (fun o0 => Prepare.key_eqb o0.1 h.1) outs = true).
    { apply existsb_exists. exists o. split; [by apply list_elem_of_In|done]. }
    congruence.
Qed.

Lemma left_matches_distinct counts k :
  distinct_keys counts → Prepare.left_matches counts k = [count_of counts k].
Proof.
  intros Hd. unfold Prepare.left_matches, count_of. destruct k as [k|]; [|done].
  simpl. pose proof (matches_distinct k counts Hd) as Hm.
  destruct (Prepare.lookup_key k counts) as [n|];
    destruct (List.filter _ counts) as [|[k' n'] [|? ?]]; simpl in *; congruence.
Qed.

Lemma left_join_distinct counts keys :
  distinct_keys counts →
  Prepare.left_join counts keys
  = zip (seq 0 (length keys)) (map (count_of counts) keys).
Proof.
  intros Hd. unfold Prepare.left_join. generalize 0%nat.
  induction keys as [|k keys IH]; intros n; simpl; [done|].
  by rewrite left_matches_distinct, IH.
Qed.

Lemma gather_from {A} (d : A) (pre v : list A) :
  map (fun i => default d ((pre ++ v) !! i)) (seq (length pre) (length v)) = v.
Proof.
  revert pre. induction v as [|x v IH]; intros pre; [done|].
  cbn [length seq map]. rewrite list_lookup_middle by done. simpl. f_equal.
  specialize (IH (pre ++ [x])). rewrite <- app_assoc in IH. simpl in IH.
  rewrite length_app in IH. simpl in IH.
  by replace (length pre + 1) with (S (length pre)) in IH by lia.
Qed.

Lemma gather_all {A} (d : A) (v : list A) :
  map (fun i => default d (v !! i)) (seq 0 (length v)) = v.
Proof. apply (gather_from d [] v). Qed.

Lemma gather_series_all s :
  Prepare.gather_series (seq 0 (series_length s)) s = s.
Proof. destruct s; simpl; by rewrite gather_all. Qed.

Lemma has_column_assoc df c :
  Prepare.has_column df c = true ↔ is_Some (assoc c (columns df)).
Proof.
  unfold Prepare.has_column. induction (columns df) as [|[k s] t IH]; simpl.
  - split; [done|]. by intros [? ?].
  - rewrite String.eqb_sym. destruct (String.eqb k c); simpl; [|exact IH].
    split; [by eexists|done].
Qed.

Lemma has_column_false df c :
  Prepare.has_column df c = false ↔ assoc c (columns df) = None.
Proof.
  pose proof (has_column_assoc df c) as H.
  destruct (Prepare.has_column df c), (assoc c (columns df)) eqn:E; split; try done.
  - intros _. destruct H as [H _]. destruct (H eq_refl). done.
  - intros _. destruct H as [_ H]. discriminate H. by eexists.
Qed.

Lemma assoc_elem {A} c (s : A) (l : list (string * A)) :
  assoc c l = Some s → (c, s) ∈ l.
Proof.
  induction l as [|[k x] t IH]; simpl; [done|].
  destruct (String.eqb k c) eqn:Hk.
  - apply String.eqb_eq in Hk as ->. intros [= ->]. constructor.
  - intros H. constructor. by apply IH.
Qed.

Lemma assoc_map_named {A B} (F : string * A → B) c (l : list (string * A)) :
  assoc c (map (fun x => (x.1, F x)) l)
  = match List.find (fun x => String.eqb x.1 c) l with
    | Some x => Some (F x)
    | None => None
    end.
Proof.
  induction l as [|[k x] t IH]; simpl; [done|]. by destruct (String.eqb k c).
Qed.

Lemma assoc_find {A} c (l : list (string * A)) :
  assoc c l = snd <$> List.find (fun x => String.eqb x.1 c) l.
Proof.
  induction l as [|[k x] t IH]; simpl; [done|]. by destruct (String.eqb k c).
Qed.

Lemma assoc_app {A} c (l1 l2 : list (string * A)) :
  assoc c (l1 ++ l2) = match assoc c l1 with
                       | Some s => Some s
                       | None => assoc c l2
                       end.
Proof.
  induction l1 as [|[k x] t IH]; simpl; [done|]. by destruct (String.eqb k c).
Qed.

(** The rename table neither produces nor consumes the names [address] and
    [transaction_count]. *)
Lemma canonical_name_fixed (target c : string) :
  target = "address" ∨ target = "transaction_count" →
  String.eqb (default c (assoc c Prepare.canonical_names)) target
  = String.eqb c target.
Proof.
  intros Ht. unfold Prepare.canonical_names. cbn [assoc].
  repeat match goal with
         | |- context [String.eqb ?k c] =>
             lazymatch k with
             | String _ _ =>
                 destruct (String.eqb k c) eqn:?;
                   [match goal with
                    | H : String.eqb _ c = true |- _ =>
                        apply String.eqb_eq in H as <-
                    end; destruct Ht as [-> | ->]; reflexivity|]
             end
         end.
  reflexivity.
Qed.

Lemma assoc_rename_fixed (target : string) df :
  target = "address" ∨ target = "transaction_count" →
  assoc target (columns (Prepare.rename Prepare.canonical_names df))
  = assoc target (columns df).
Proof.
  intros Ht. unfold Prepare.rename. cbn [columns].
  induction (columns df) as [|[k s] t IH]; [done|].
  cbn [map assoc fst snd]. rewrite (canonical_name_fixed target k Ht).
  by rewrite IH.
Qed.

Lemma zip_seq_fst {A} (n : nat) (l : list A) :
  map fst (zip (seq n (length l)) l) = seq n (length l).
Proof. apply fst_zip. by rewrite length_seq. Qed.

Lemma zip_seq_snd {A} (n : nat) (l : list A) :
  map snd (zip (seq n (length l)) l) = l.
Proof. apply snd_zip. by rewrite length_seq. Qed.

Lemma merge_transaction_count_unique feats keys counts addrs :
  assoc "address" (columns feats) = Some (Objects addrs) →
  is_numeric_dtype keys = false →
  distinct_keys counts →
  Prepare.has_column feats "transaction_count" = false →
  well_formed feats →
  Prepare.merge_transaction_count feats keys counts =
    OK {| index := range_index (nrows feats);
          columns :=
            columns feats
            ++ [("transaction_count",
                 Floats (map (fun a => count_of counts (Some (Prepare.KStr a)))
                             addrs))] |}.
Proof.
  intros Haddr Hkeys Hd Hno Hwf.
  assert (Hlen : length addrs = nrows feats).
  { apply assoc_elem in Haddr. unfold well_formed in Hwf.
    rewrite Forall_forall in Hwf. exact (Hwf _ Haddr). }
  unfold Prepare.merge_transaction_count, getitem. rewrite Haddr.
  cbn [mbind exc_bind Prepare.check_merge_keys].
  destruct keys as [?|kv]; [done|]. cbn [Prepare.check_merge_keys Prepare.series_keys].
  rewrite left_join_distinct by done.
  fold (Prepare.has_column feats "transaction_count"). rewrite Hno.
  cbn [andb].
  set (ks := map (fun x : string => Some (Prepare.KStr x)) addrs).
  assert (Hks : length ks = length (map (count_of counts) ks))
    by (by rewrite length_map).
  rewrite Hks, zip_seq_fst, zip_seq_snd, length_zip, length_seq, Nat.min_id.
  rewrite <- Hks. subst ks. rewrite length_map, Hlen, map_map.
  cbn [mbind exc_bind]. do 2 f_equal. f_equal.
  rewrite <- (map_id (columns feats)) at 2. apply map_ext_in.
  intros [c s] Hin. cbn [fst snd]. f_equal.
  unfold well_formed in Hwf. rewrite Forall_forall in Hwf.
  rewrite <- (Hwf (c, s)) by (by apply list_elem_of_In). apply gather_series_all.
Qed.

Lemma assoc_fill_numeric_gaps df c :
  assoc c (columns (Prepare.fill_numeric_gaps df))
  = (fun s => if negb (String.eqb c "fraud_label") && is_numeric_dtype s
              then Prepare.series_fillna_0 s else s) <$> assoc c (columns df).
Proof.
  unfold Prepare.fill_numeric_gaps. cbn [columns].
  induction (columns df) as [|[k s] t IH]; [done|].
  cbn [map fst snd].
  destruct (negb (String.eqb k "fraud_label") && is_numeric_dtype s) eqn:Hc;
    cbn [assoc]; destruct (String.eqb k c) eqn:Hk; try exact IH.
  - apply String.eqb_eq in Hk as <-. cbn [fmap option_fmap option_map].
    by rewrite Hc.
  - apply String.eqb_eq in Hk as <-. cbn [fmap option_fmap option_map].
    by rewrite Hc.
Qed.

Lemma filled_count_is_degree froms tos a :
  match count_of
          (Prepare.outer_counts
             (Prepare.groupby_size (map (fun x => Some (Prepare.KStr x)) froms))
             (Prepare.groupby_size (map (fun x => Some (Prepare.KStr x)) tos)))
          (Some (Prepare.KStr a)) with
  | Some q => Some q
  | None => fl 0
  end = of_Z (degree froms tos a).
Proof.
  unfold count_of, degree. cbn [mbind option_bind].
  rewrite lookup_key_outer, !lookup_key_groupby.
  destruct (count_key _ (map _ froms) =? 0)%Z eqn:Hf;
    destruct (count_key _ (map _ tos) =? 0)%Z eqn:Ht; simpl.
  - apply Z.eqb_eq in Hf, Ht. by rewrite Hf, Ht.
  - apply Z.eqb_eq in Hf. by rewrite Hf.
  - apply Z.eqb_eq in Ht. by rewrite Ht.
  - done.
Qed.

(** X5. With a ledger that has both address columns, the loader gives every
    row of the feature table, in its original order and under a fresh
    0..n-1 index, the number of ledger edges that leave its address plus the
    number that enter it -- 0 for an address the ledger never mentions. *)
Theorem transaction_count_is_degree
    (tx feats : DataFrame) (froms tos addrs : list string) :
  assoc "from_address" (columns tx) = Some (Objects froms) →
  assoc "to_address" (columns tx) = Some (Objects tos) →
  assoc "address" (columns feats) = Some (Objects addrs) →
  Prepare.has_column feats "flag" || Prepare.has_column feats "FLAG" = true →
  Prepare.has_column feats "transaction_count" = false →
  well_formed feats →
  ∃ df, Prepare.load_and_prepare tx feats = OK df ∧
    index df = range_index (nrows feats) ∧
    assoc "address" (columns df) = Some (Objects addrs) ∧
    assoc "transaction_count" (columns df)
      = Some (Floats (map (fun a => of_Z (degree froms tos a)) addrs)).
Proof.
  intros Hfrom Hto Haddr Hflag Hno Hwf.
  unfold Prepare.load_and_prepare.
  assert (Ha : Prepare.has_column feats "address" = true)
    by (apply has_column_assoc; rewrite Haddr; by eexists).
  assert (Hf : Prepare.has_column tx "from_address" = true)
    by (apply has_column_assoc; rewrite Hfrom; by eexists).
  assert (Ht : Prepare.has_column tx "to_address" = true)
    by (apply has_column_assoc; rewrite Hto; by eexists).
  rewrite Ha, Hflag, Hf, Ht. cbn [negb andb].
  unfold getitem. rewrite Hfrom, Hto.
  cbn [mbind exc_bind Prepare.check_merge_keys Prepare.series_keys].
  set (counts := Prepare.outer_counts _ _).
  assert (Hd : distinct_keys counts)
    by (apply distinct_keys_outer; apply distinct_keys_groupby).
  rewrite (merge_transaction_count_unique _ _ counts addrs).
  - cbn [mbind exc_bind]. eexists. split; [reflexivity|].
    split; [reflexivity|].
    rewrite !assoc_fill_numeric_gaps. cbn [columns].
    rewrite !assoc_app, !assoc_rename_fixed by auto.
    rewrite Haddr. apply has_column_false in Hno. rewrite Hno.
    split; [reflexivity|]. cbn [assoc String.eqb Ascii.eqb Bool.eqb].
    cbn [fmap option_fmap option_map negb andb is_numeric_dtype
         Prepare.series_fillna_0].
    do 2 f_equal. unfold fillna_0. rewrite map_map. apply map_ext.
    intros a. pose proof (filled_count_is_degree froms tos a) as Hdeg.
    fold counts in Hdeg. by destruct (count_of counts (Some (Prepare.KStr a))).
  - by rewrite assoc_rename_fixed by auto.
  - by destruct (series_length (Objects froms) =? 0)%nat.
  - exact Hd.
  - apply has_column_false. rewrite assoc_rename_fixed by auto.
    by apply has_column_false.
  - unfold well_formed, Prepare.rename, nrows in *. cbn [columns index].
    by apply Forall_map.
Qed.

Example load_and_prepare_toy :
  Prepare.load_and_prepare toy_ledger toy_features =
    OK {| index := [0; 1; 2]%Z;
          columns :=
            [("address", Objects ["0xa"; "0xb"; "0xd"]);
             ("fraud_label", Floats [fl 0; fl 1; NaN]);
             ("account_balance", Floats [fl 4; fl 0; fl 9]);
             ("transaction_frequency_sent", Floats [fl 2; fl 1; fl 0]);
             ("transaction_frequency_received", Floats [fl 1; fl 0; fl 0]);
             ("transaction_count", Floats [fl 3; fl 2; fl 0])] |}.
Proof. reflexivity. Qed.

Lemma transaction_count_is_degree_witness :
  ∃ df, Prepare.load_and_prepare toy_ledger toy_features = OK df ∧
    index df = range_index (nrows toy_features) ∧
    assoc "address" (columns df) = Some (Objects ["0xa"; "0xb"; "0xd"]) ∧
    assoc "transaction_count" (columns df)
      = Some (Floats (map (fun a => of_Z (degree ["0xa"; "0xa"; "0xb"]
                                            ["0xb"; "0xc"; "0xa"] a))
                          ["0xa"; "0xb"; "0xd"])).
Proof.
  apply (transaction_count_is_degree toy_ledger toy_features);
    try reflexivity.
  repeat constructor.
Defined.

Lemma assoc_rename_source df c s :
  assoc c (columns (Prepare.rename Prepare.canonical_names df)) = Some s →
  ∃ c0, (c0, s) ∈ columns df ∧
    c = default c0 (assoc c0 Prepare.canonical_names).
Proof.
  unfold Prepare.rename. cbn [columns].
  induction (columns df) as [|[k x] t IH]; [done|].
  cbn [map assoc fst snd].
  destruct (String.eqb _ c) eqn:Hk.
  - apply String.eqb_eq in Hk as <-. intros [= ->]. exists k. split; [constructor|done].
  - intros H. destruct (IH H) as (c0 & Hin & Hc). exists c0. split; [by constructor|done].
Qed.

(** X6. On tables with distinct column names (for the feature table also
    after the rename) and of the expected types -- string addresses, numbers
    elsewhere in the feature table, no [transaction_count] column yet -- the
    loader fails in exactly two ways, both decided by the header of the
    feature table alone: no [address] column, or an [address] column without
    [flag] and [FLAG]. *)
Theorem load_and_prepare_fails_only_on_validation (tx feats : DataFrame) :
  distinct_names tx →
  distinct_names (Prepare.rename Prepare.canonical_names feats) →
  Prepare.has_column feats "transaction_count" = false →
  (∀ c s, assoc c (columns tx) = Some s →
          c = "from_address" ∨ c = "to_address" → is_numeric_dtype s = false) →
  (∀ c s, (c, s) ∈ columns feats →
          is_numeric_dtype s = negb (String.eqb c "address")) →
  match Prepare.load_and_prepare tx feats with
  | OK _ =>
      Prepare.has_column feats "address" = true ∧
      (Prepare.has_column feats "flag" || Prepare.has_column feats "FLAG") = true
  | Raise e =>
      (Prepare.has_column feats "address" = false ∧
       e = ValueError "Expected 'address' column in features CSV") ∨
      (Prepare.has_column feats "address" = true ∧
       (Prepare.has_column feats "flag" || Prepare.has_column feats "FLAG") = false ∧
       e = ValueError "Expected 'flag' (or 'FLAG') target in features CSV")
  end.
Proof.
  intros _ _ _ Htx Hfeats. unfold Prepare.load_and_prepare.
  destruct (Prepare.has_column feats "address") eqn:Ha; cbn [negb]; [|by left].
  destruct (Prepare.has_column feats "flag" || Prepare.has_column feats "FLAG")
    eqn:Hflag; cbn [negb]; [|by right].
  assert (Haddr : ∃ v, assoc "address"
                         (columns (Prepare.rename Prepare.canonical_names feats))
                       = Some (Objects v)).
  { rewrite assoc_rename_fixed by auto.
    apply has_column_assoc in Ha as [s Hs]. rewrite Hs.
    pose proof (Hfeats _ _ (assoc_elem _ _ _ Hs)) as Hn. simpl in Hn.
    destruct s; [discriminate|]. by eexists. }
  destruct Haddr as [addrs Haddr].
  assert (Hnum : ∀ c s, c ≠ "address" →
            assoc c (columns (Prepare.rename Prepare.canonical_names feats)) = Some s →
            ∃ v, s = Floats v).
  { intros c s Hc Hs. apply assoc_rename_source in Hs as (c0 & Hin & ->).
    pose proof (Hfeats _ _ Hin) as Hn.
    destruct (String.eqb c0 "address") eqn:E.
    - apply String.eqb_eq in E as ->. done.
    - destruct s; [by eexists|discriminate]. }
  destruct (Prepare.has_column tx "from_address" && Prepare.has_column tx "to_address")
    eqn:Hcols.
  - apply andb_true_iff in Hcols as [Hf Ht].
    apply has_column_assoc in Hf as [sf Hsf]. apply has_column_assoc in Ht as [st Hst].
    unfold getitem. rewrite Hsf, Hst. cbn [mbind exc_bind].
    pose proof (Htx _ _ Hsf (or_introl eq_refl)) as Hnf.
    pose proof (Htx _ _ Hst (or_intror eq_refl)) as Hnt.
    destruct sf as [|fv]; [discriminate|]. destruct st as [|tv]; [discriminate|].
    cbn [Prepare.check_merge_keys mbind exc_bind].
    unfold Prepare.merge_transaction_count, getitem. rewrite Haddr.
    cbn [mbind exc_bind].
    by destruct (series_length (Objects fv) =? 0)%nat.
  - cbn [mbind exc_bind].
    destruct (Prepare.has_column _ "transaction_frequency_sent"
              && Prepare.has_column _ "transaction_frequency_received") eqn:Hfreq;
      [|done].
    apply andb_true_iff in Hfreq as [Hs Hr].
    apply has_column_assoc in Hs as [ss Hss]. apply has_column_assoc in Hr as [sr Hsr].
    unfold getitem. rewrite Hss, Hsr. cbn [mbind exc_bind].
    destruct (Hnum "transaction_frequency_sent" _ ltac:(done) Hss) as [? ->].
    destruct (Hnum "transaction_frequency_received" _ ltac:(done) Hsr) as [? ->].
    done.
Qed.

Lemma load_and_prepare_fails_only_on_validation_witness :
  match Prepare.load_and_prepare toy_ledger toy_features with
  | OK _ =>
      Prepare.has_column toy_features "address" = true ∧
      (Prepare.has_column toy_features "flag"
       || Prepare.has_column toy_features "FLAG") = true
  | Raise e =>
      (Prepare.has_column toy_features "address" = false ∧
       e = ValueError "Expected 'address' column in features CSV") ∨
      (Prepare.has_column toy_features "address" = true ∧
       (Prepare.has_column toy_features "flag"
        || Prepare.has_column toy_features "FLAG") = false ∧
       e = ValueError "Expected 'flag' (or 'FLAG') target in features CSV")
  end.
Proof.
  apply (load_and_prepare_fails_only_on_validation toy_ledger toy_features).
  - apply distinct_names_check. reflexivity.
  - apply distinct_names_check. reflexivity.
  - reflexivity.
  - intros c s Hs [-> | ->]; vm_compute in Hs; by injection Hs as <-.
  - intros c s Hin. vm_compute in Hin.
    repeat (apply elem_of_cons in Hin as [Hin|Hin];
            [by injection Hin as -> ->|]).
    by apply elem_of_nil in Hin.
Defined.

(** ** Feature engineering *)

Lemma assoc_set_assoc {A} (n c : string) (s : A) (l : list (string * A)) :
  assoc c (set_assoc n s l) = if String.eqb n c then Some s else assoc c l.
Proof.
  induction l as [|[k x] t IH]; cbn [set_assoc assoc].
  - by destruct (String.eqb n c).
  - destruct (String.eqb k n) eqn:Hkn; cbn [assoc].
    + apply String.eqb_eq in Hkn as ->. by destruct (String.eqb n c).
    + destruct (String.eqb k c) eqn:Hkc.
      * apply String.eqb_eq in Hkc as <-.
        rewrite String.eqb_sym in Hkn. by rewrite Hkn.
      * exact IH.
Qed.

Lemma assoc_set_column n c s df :
  assoc c (columns (set_column n s df))
  = if String.eqb n c then Some s else assoc c (columns df).
Proof. apply assoc_set_assoc. Qed.

Lemma well_formed_assoc df c s :
  well_formed df → assoc c (columns df) = Some s → series_length s = nrows df.
Proof.
  intros Hwf Hs. apply assoc_elem in Hs. unfold well_formed in Hwf.
  rewrite Forall_forall in Hwf. exact (Hwf _ Hs).
Qed.

Lemma set_assoc_elem {A} (n : string) (s : A) (l : list (string * A)) (x : string * A) :
  x ∈ set_assoc n s l → x = (n, s) ∨ x ∈ l.
Proof.
  induction l as [|[k y] t IH]; cbn [set_assoc].
  - intros Hx. apply list_elem_of_singleton in Hx. by left.
  - destruct (String.eqb k n) eqn:Hkn.
    + apply String.eqb_eq in Hkn as ->.
      intros [->|Hx]%elem_of_cons; [by left|]. right. by constructor.
    + intros [->|Hx]%elem_of_cons; [right; constructor|].
      destruct (IH Hx) as [->|Hin]; [by left|]. right. by constructor.
Qed.

Lemma well_formed_set_column n v df :
  well_formed df → length v = nrows df →
  well_formed (set_column n (Floats v) df).
Proof.
  unfold well_formed, set_column, nrows. cbn [columns index].
  intros Hwf Hlen. apply Forall_forall. intros x Hx.
  apply set_assoc_elem in Hx as [->|Hx]; [done|].
  rewrite Forall_forall in Hwf. by apply Hwf.
Qed.

Lemma numeric_features_set_column n v df :
  numeric_features df → numeric_features (set_column n (Floats v) df).
Proof.
  intros Hnum c s. rewrite assoc_set_column.
  destruct (String.eqb n c); [by intros [= <-]|]. apply Hnum.
Qed.

Lemma get_col_numeric df c :
  numeric_features df → well_formed df → c ≠ "address" →
  ∃ v, get_col df c = OK v ∧ length v = nrows df.
Proof.
  intros Hnum Hwf Hc. unfold get_col.
  destruct (assoc c (columns df)) as [s|] eqn:Hs.
  - pose proof (Hnum c s Hs Hc) as Hn. pose proof (well_formed_assoc _ _ _ Hwf Hs).
    destruct s; [|discriminate]. by eexists.
  - eexists. split; [done|]. by rewrite length_replicate.
Qed.

Lemma map2_length_same {A B C} (f : A → B → C) l1 l2 n :
  length l1 = n → length l2 = n → length (map2 f l1 l2) = n.
Proof. intros <- H. rewrite map2_length, H. lia. Qed.

Lemma extends_refl df : extends df [] df.
Proof.
  split; [done|]. split; [done|]. intros c Hc. by apply elem_of_nil in Hc.
Qed.

Lemma extends_set_column df0 added df n v :
  extends df0 added df → length v = nrows df0 →
  extends df0 (n :: added) (set_column n (Floats v) df).
Proof.
  intros (Hidx & Hold & Hnew) Hlen. split; [done|]. split.
  - intros c Hc. rewrite assoc_set_column.
    apply not_elem_of_cons in Hc as [Hne Hc].
    destruct (String.eqb n c) eqn:E; [apply String.eqb_eq in E; congruence|].
    by apply Hold.
  - intros c Hc. rewrite assoc_set_column.
    destruct (String.eqb n c) eqn:E; [by eexists|].
    apply String.eqb_neq in E. apply elem_of_cons in Hc as [->|Hc]; [done|].
    by apply Hnew.
Qed.

Lemma ready_nrows df0 added df : ready df0 added df → nrows df = nrows df0.
Proof. intros ((Hidx & _) & _). unfold nrows. by rewrite Hidx. Qed.

Lemma ready_set_column df0 added df n v :
  ready df0 added df → length v = nrows df0 →
  ready df0 (n :: added) (set_column n (Floats v) df).
Proof.
  intros Hr Hlen. pose proof (ready_nrows _ _ _ Hr) as Hn.
  destruct Hr as (Hext & Hnum & Hwf). split; [|split].
  - by apply extends_set_column.
  - by apply numeric_features_set_column.
  - apply well_formed_set_column; [done|]. by rewrite Hn.
Qed.

Lemma get_col_ready df0 added df c :
  ready df0 added df → c ≠ "address" →
  ∃ v, get_col df c = OK v ∧ length v = nrows df0.
Proof.
  intros Hr Hc. pose proof (ready_nrows _ _ _ Hr) as Hn.
  destruct Hr as (_ & Hnum & Hwf).
  destruct (get_col_numeric df c Hnum Hwf Hc) as (v & Hv & Hl).
  exists v. by rewrite <- Hn.
Qed.

Lemma total_txn_freq_ready df0 added df :
  ready df0 added df →
  ∃ v, total_txn_freq df = OK v ∧ length v = nrows df0.
Proof.
  intros Hr. unfold total_txn_freq.
  destruct (get_col_ready _ _ _ "transaction_frequency_sent" Hr ltac:(done))
    as (a & -> & Ha).
  destruct (get_col_ready _ _ _ "transaction_frequency_received" Hr ltac:(done))
    as (b & -> & Hb).
  cbn [mbind exc_bind]. eexists. split; [done|]. by apply map2_length_same.
Qed.

Lemma getitem_ready df0 added df c :
  ready df0 added df → c ≠ "address" → c ∉ added →
  is_Some (assoc c (columns df0)) →
  ∃ v, getitem df c = OK (Floats v) ∧ length v = nrows df0.
Proof.
  intros Hr Hc Hnew [s Hs]. pose proof (ready_nrows _ _ _ Hr) as Hn.
  destruct Hr as ((_ & Hold & _) & Hnum & Hwf). rewrite <- Hold in Hs by done.
  unfold getitem. rewrite Hs.
  pose proof (Hnum c s Hs Hc). pose proof (well_formed_assoc _ _ _ Hwf Hs).
  destruct s; [|discriminate]. eexists. split; [done|]. simpl in *. congruence.
Qed.

Lemma assoc_ready df0 added df c s :
  ready df0 added df → c ≠ "address" → assoc c (columns df) = Some s →
  ∃ v, s = Floats v ∧ length v = nrows df0.
Proof.
  intros Hr Hc Hs. pose proof (ready_nrows _ _ _ Hr) as Hn.
  destruct Hr as (_ & Hnum & Hwf).
  pose proof (Hnum c s Hs Hc). pose proof (well_formed_assoc _ _ _ Hwf Hs).
  destruct s; [|discriminate]. eexists. split; [done|]. simpl in *. congruence.
Qed.

Ltac not_in_list :=
  let Hin := fresh "Hin" in
  intros Hin;
  repeat (apply elem_of_cons in Hin as [Hin|Hin]; [discriminate Hin|]);
  by apply elem_of_nil in Hin.

Lemma safe_div_length a b n :
  length a = n → length b = n → length (Prepare.safe_div a b) = n.
Proof.
  intros Ha Hb. unfold Prepare.safe_div. apply map2_length_same; [done|].
  by rewrite length_map.
Qed.

Ltac solve_length :=
  repeat first
    [ assumption
    | apply safe_div_length
    | apply map2_length_same
    | rewrite length_map
    | rewrite length_replicate
    | progress unfold high_txn_freq_flag_of
    | reflexivity ].

Ltac ready_step :=
  match goal with
  | Hr : ready ?df0 ?S ?d |- context [set_column ?n (Floats ?v) ?d] =>
      lazymatch goal with
      | _ : ready df0 (n :: S) (set_column n (Floats v) d) |- _ => fail
      | _ =>
          assert (ready df0 (n :: S) (set_column n (Floats v) d))
            by (apply ready_set_column; [exact Hr | solve_length])
      end
  end.

Ltac read_step :=
  match goal with
  | Hr : ready ?df0 ?S ?d |- context [get_col ?d ?c] =>
      let v := fresh "v" in
      let Hv := fresh "Hv" in
      let Hl := fresh "Hl" in
      destruct (get_col_ready df0 S d c Hr ltac:(done)) as (v & Hv & Hl);
      rewrite Hv; clear Hv; cbn [mbind exc_bind]
  | Hr : ready ?df0 ?S ?d |- context [total_txn_freq ?d] =>
      let v := fresh "v" in
      let Hv := fresh "Hv" in
      let Hl := fresh "Hl" in
      destruct (total_txn_freq_ready df0 S d Hr) as (v & Hv & Hl);
      rewrite Hv; clear Hv; cbn [mbind exc_bind]
  end.

(** X7. On a well-formed table with distinct column names whose columns
    other than [address] are numeric and which has a [transaction_count]
    column, [engineer_features] succeeds; it
    keeps the index and every existing column as it is and sets the eleven
    engineered columns, each numeric with one value per row. *)
Theorem engineer_features_adds_eleven_columns
    (log1p : float → float) (df : DataFrame) :
  distinct_names df → well_formed df → numeric_features df →
  is_Some (assoc "transaction_count" (columns df)) →
  ∃ df', Prepare.engineer_features log1p df = OK df' ∧
    index df' = index df ∧
    (∀ c, c ∉ Prepare.engineered_names →
          assoc c (columns df') = assoc c (columns df)) ∧
    (∀ c, c ∈ Prepare.engineered_names →
          ∃ v, assoc c (columns df') = Some (Floats v) ∧ length v = nrows df) ∧
    well_formed df'.
Proof.
  intros _ Hwf Hnum Hcount.
  assert (Hr : ready df [] df) by (split; [apply extends_refl|done]).
  unfold Prepare.engineer_features.
  do 2 read_step. ready_step. do 2 read_step. ready_step.
  do 3 read_step.
  match goal with
  | Hr' : ready df ?S ?d |- context [getitem ?d "transaction_count"] =>
      destruct (getitem_ready df S d "transaction_count" Hr' ltac:(done)
                  ltac:(not_in_list) Hcount) as (tc & -> & Htc)
  end.
  cbn [mbind exc_bind numeric]. ready_step.
  match goal with
  | Hr' : ready df ?S ?d |- context [assoc "account_balance" (columns ?d)] =>
      destruct (assoc "account_balance" (columns d)) as [bal|] eqn:Hbal;
        [destruct (assoc_ready df S d "account_balance" _ Hr' ltac:(done) Hbal)
           as (bv & -> & Hbv)|];
        cbn [mbind exc_bind numeric];
        [|rewrite (ready_nrows _ _ _ Hr')]
  end.
  all: ready_step; ready_step; do 2 read_step; ready_step;
    do 2 read_step; ready_step; do 2 read_step; ready_step;
    do 2 read_step; ready_step; read_step; ready_step; read_step; ready_step.
  all: match goal with
       | Hr' : ready _ ?S ?d |- ∃ df', OK ?d = OK df' ∧ _ =>
           exists d; destruct Hr' as ((Hidx & Hold & Hnew) & _ & Hwf');
           split; [done|]; split; [done|]; split; [|split; [|done]]
       end.
  all: intros c Hc.
  1,3: apply Hold; change (c ∉ reverse Prepare.engineered_names);
       by rewrite elem_of_reverse.
  all: apply Hnew; change (c ∈ reverse Prepare.engineered_names);
       by rewrite elem_of_reverse.
Qed.

Lemma numeric_features_check df :
  forallb (fun c => String.eqb c.1 "address" || is_numeric_dtype c.2)
          (columns df) = true →
  numeric_features df.
Proof.
  intros Hall c s Hc Hne. apply assoc_elem in Hc.
  rewrite forallb_forall in Hall. apply list_elem_of_In, Hall in Hc.
  cbn [fst snd] in Hc. apply orb_true_iff in Hc as [Hc|Hc]; [|done].
  by apply String.eqb_eq in Hc.
Qed.

Lemma well_formed_check df :
  forallb (fun c => Nat.eqb (series_length c.2) (nrows df)) (columns df) = true →
  well_formed df.
Proof.
  intros Hall. unfold well_formed. apply Forall_forall. intros c Hc.
  rewrite forallb_forall in Hall. apply list_elem_of_In, Hall in Hc.
  by apply Nat.eqb_eq in Hc.
Qed.

Lemma engineer_features_adds_eleven_columns_witness :
  ∃ df', Prepare.engineer_features id toy_prepared = OK df' ∧
    index df' = index toy_prepared ∧
    (∀ c, c ∉ Prepare.engineered_names →
          assoc c (columns df') = assoc c (columns toy_prepared)) ∧
    (∀ c, c ∈ Prepare.engineered_names →
          ∃ v, assoc c (columns df') = Some (Floats v) ∧
               length v = nrows toy_prepared) ∧
    well_formed df'.
Proof.
  apply (engineer_features_adds_eleven_columns id toy_prepared).
  - apply distinct_names_check. reflexivity.
  - apply well_formed_check. reflexivity.
  - apply numeric_features_check. reflexivity.
  - eexists. reflexivity.
Defined.

(** X8. Every column but [transaction_count] defaults to zeros when it is absent;
    [transaction_count] is read directly, so on a numeric table with
    distinct column names and without that column [engineer_features] stops
    with a [KeyError] and no table is returned. *)
Theorem engineer_features_needs_transaction_count
    (log1p : float → float) (df : DataFrame) :
  distinct_names df → well_formed df → numeric_features df →
  assoc "transaction_count" (columns df) = None →
  Prepare.engineer_features log1p df = Raise (KeyError "transaction_count").
Proof.
  intros _ Hwf Hnum Hcount.
  assert (Hr : ready df [] df) by (split; [apply extends_refl|done]).
  unfold Prepare.engineer_features.
  do 2 read_step. ready_step. do 2 read_step. ready_step.
  do 3 read_step.
  match goal with
  | Hr' : ready df ?S ?d |- context [getitem ?d "transaction_count"] =>
      destruct Hr' as ((_ & Hold & _) & _);
      unfold getitem; rewrite Hold by not_in_list; rewrite Hcount
  end.
  reflexivity.
Qed.

Lemma engineer_features_needs_transaction_count_witness :
  Prepare.engineer_features id toy_features = Raise (KeyError "transaction_count").
Proof.
  apply (engineer_features_needs_transaction_count id toy_features).
  - apply distinct_names_check. reflexivity.
  - apply well_formed_check. reflexivity.
  - apply numeric_features_check. reflexivity.
  - reflexivity.
Defined.

(** ** What the loader returns *)

Lemma load_and_prepare_filled tx feats df :
  Prepare.load_and_prepare tx feats = OK df →
  ∃ f, df = Prepare.fill_numeric_gaps f.
Proof.
  unfold Prepare.load_and_prepare.
  destruct (negb (Prepare.has_column feats "address")); [done|].
  destruct (negb _); [done|].
  match goal with
  | |- (?m ≫= _) = _ → _ => destruct m as [tc|e]; cbn [mbind exc_bind]; [|done]
  end.
  match goal with
  | |- (?m ≫= _) = _ → _ => destruct m as [f|e]; cbn [mbind exc_bind]; [|done]
  end.
  intros [= <-]. by exists f.
Qed.

Lemma fillna_0_no_gap v : NaN ∉ fillna_0 v.
Proof.
  unfold fillna_0. intros Hin. apply list_elem_of_fmap in Hin as (x & Hx & _).
  by destruct x.
Qed.

(** X9. A table returned by the loader whose column names are distinct has
    no missing value in any numeric column other than [fraud_label]. (When
    the rename or the merge leaves two columns of one name, the closing loop
    of the program skips both.) *)
Theorem load_and_prepare_leaves_no_gaps (tx feats df : DataFrame) :
  Prepare.load_and_prepare tx feats = OK df →
  distinct_names df →
  ∀ c v, (c, Floats v) ∈ columns df → c ≠ "fraud_label" → NaN ∉ v.
Proof.
  intros Hload _ c v Hin Hc.
  destruct (load_and_prepare_filled _ _ _ Hload) as [f ->].
  unfold Prepare.fill_numeric_gaps in Hin. cbn [columns] in Hin.
  apply list_elem_of_fmap in Hin as ([k s] & Heq & _). cbn [fst snd] in Heq.
  destruct (String.eqb k "fraud_label") eqn:Hk; cbn [negb andb] in Heq.
  - injection Heq as Hc' _. subst k. by apply String.eqb_eq in Hk.
  - destruct s as [w|w]; cbn [is_numeric_dtype Prepare.series_fillna_0] in Heq;
      [|discriminate]. injection Heq as _ Hv. subst v. apply fillna_0_no_gap.
Qed.

Lemma load_and_prepare_leaves_no_gaps_witness :
  Prepare.load_and_prepare toy_ledger toy_features = OK toy_prepared ∧
  NaN ∉ [fl 4; fl 0; fl 9].
Proof.
  split; [reflexivity|].
  apply (load_and_prepare_leaves_no_gaps toy_ledger toy_features toy_prepared
           eq_refl (distinct_names_check toy_prepared eq_refl)
           "account_balance").
  - do 2 constructor. constructor.
  - discriminate.
Defined.

(** ** The frequency flag on idle tables *)

Lemma idle_proxy_all_missing total :
  Forall (fun x => feq0 x = true) total →
  forallb isna (replace_zero_nan total) = true.
Proof.
  induction 1 as [|x t Hx _ IH]; [done|].
  cbn [replace_zero_nan map forallb]. rewrite Hx. cbn [isna andb]. exact IH.
Qed.

Lemma idle_flags_all_set total :
  Forall (fun x => feq0 x = true) total →
  high_txn_freq_flag_of total = replicate (length total) 1%Z.
Proof.
  intros Hidle. unfold high_txn_freq_flag_of. cbv zeta.
  rewrite (idle_proxy_all_missing _ Hidle).
  induction Hidle as [|x t Hx _ IH]; [done|].
  cbn [map length replicate]. rewrite IH. f_equal.
  destruct x as [a|]; [|discriminate]. cbn [feq0] in Hx.
  apply Qeq_bool_iff in Hx.
  assert (Hge : fge (Some a) (fl 0) = true).
  { unfold fge, fl. apply fle_Some. rewrite Qred_correct, Hx. apply Qle_refl. }
  by rewrite Hge.
Qed.

(** ** Elements of [map2] *)

Lemma map2_elem {A B C} (f : A → B → C) l1 l2 z :
  z ∈ map2 f l1 l2 → ∃ x y, x ∈ l1 ∧ y ∈ l2 ∧ z = f x y.
Proof.
  revert l2. induction l1 as [|x t IH]; intros [|y u]; cbn [map2];
    try (by intros ?%elem_of_nil).
  intros [->|Hin]%elem_of_cons.
  - exists x, y. repeat split; constructor.
  - destruct (IH _ Hin) as (x' & y' & ? & ? & ?).
    exists x', y'. repeat split; [by constructor|by constructor|done].
Qed.

(** ** [iqr_clip]: failures and degenerate fences *)




Lemma select_elem {A} (mask : list bool) (l : list A) x :
  x ∈ select mask l → ∃ i, mask !! i = Some true ∧ l !! i = Some x.
Proof.
  revert l. induction mask as [|b m IH]; intros [|y t]; cbn [select];
    try (by intros ?%elem_of_nil).
  destruct b.
  - intros [->|Hin]%elem_of_cons; [by exists 0%nat|].
    destruct (IH _ Hin) as (i & ? & ?). by exists (S i).
  - intros Hin. destruct (IH _ Hin) as (i & ? & ?). by exists (S i).
Qed.

(** X13. When the two quartiles of a listed column coincide the fence has no
    width: whatever [k] is, every row that [iqr_clip] keeps has the quartile
    value, or no value, in that column. *)
Theorem iqr_clip_degenerate_fence
    (df df' : DataFrame) (cols : list string) (k : Q) (c : string)
    (q : Q) (v' : list float) :
  Forall (numeric_column df) cols → c ∈ cols →
  Q1 df c = Some q → Q3 df c = Some q →
  iqr_clip df cols k = OK df' →
  assoc c (columns df') = Some (Floats v') →
  Forall (fun x => x = NaN ∨ ∃ a, x = Some a ∧ (a == q)%Q) v'.
Proof.
  intros Hnum Hc HQ1 HQ3 Hclip Hv'. unfold iqr_clip in Hclip.
  destruct (iqr_keep_mask_spec df k cols Hnum (replicate (nrows df) true))
    as (m & Hm & Hspec).
  rewrite Hm in Hclip. cbn [mbind exc_bind] in Hclip. injection Hclip as <-.
  unfold loc in Hv'. cbn [columns] in Hv'.
  rewrite (assoc_map (select_series m)) in Hv'.
  destruct (assoc c (columns df)) as [[v|v]|] eqn:Hv; try discriminate Hv'.
  cbn [fmap option_fmap option_map select_series] in Hv'. injection Hv' as <-.
  apply Forall_forall. intros x Hx.
  apply select_elem in Hx as (i & Hi & Hxi).
  apply Hspec in Hi as [_ Hall]. rewrite Forall_forall in Hall.
  destruct (Hall c Hc) as (w & y & Hw & Hy & Hfence).
  rewrite Hv in Hw. injection Hw as <-. rewrite Hxi in Hy. injection Hy as <-.
  destruct Hfence as [->|(a & q1 & q3 & -> & E1 & E3 & Hlo & Hhi)]; [by left|].
  right. exists a. split; [done|].
  rewrite HQ1 in E1. rewrite HQ3 in E3. injection E1 as <-. injection E3 as <-.
  assert (Hl : (q - k * (q - q) == q)%Q) by ring.
  assert (Hh : (q + k * (q - q) == q)%Q) by ring.
  rewrite Hl in Hlo. rewrite Hh in Hhi. by apply Qle_antisym.
Qed.

Lemma iqr_clip_degenerate_fence_witness :
  Forall (fun x => x = NaN ∨ ∃ a, x = Some a ∧ (a == 0)%Q)
         [fl 0; fl 0; fl 0; fl 0].
Proof.
  apply (iqr_clip_degenerate_fence flagged_frame
           (loc flagged_frame [true; true; true; true; false])
           ["is_high_balance"; "net_flow"] (3 # 2) "is_high_balance" 0).
  - repeat constructor; eexists; reflexivity.
  - constructor.
  - reflexivity.
  - reflexivity.
  - reflexivity.
  - reflexivity.
Defined.

(** ** Anatomy of the training functions *)

Lemma is_ok_inv {A} (r : exc A) : is_ok r = true → ∃ x, r = OK x.
Proof. destruct r; [by eexists|discriminate]. Qed.

Tactic Notation "bind_inv" hyp(H) ident(x) ident(E) :=
  match type of H with
  | (?m ≫= _) = OK _ =>
      destruct m as [x|] eqn:E; cbn [mbind exc_bind] in H; [|discriminate H]
  end.

Lemma fit_transform_columns L pre X :
  ct_columns (fit_transform L pre X).1 = ct_columns pre.
Proof. unfold fit_transform. by destruct (select_columns X (ct_columns pre)). Qed.

Lemma train_inv L fam u df rs n cv seed m c p :
  train L fam u df rs n cv seed = OK (m, c, p) →
  ∃ label y Xy y' X_tr X_te y_tr y_te pre0 clf0 m0,
    assoc "fraud_label" (columns df) = Some (Floats label) ∧
    astype_int label = OK y ∧
    iqr_clip (concat_label {| index := index df; columns := feature_columns df |} y)
       (continuous_like (map fst (feature_columns df))) (3 # 2) = OK Xy ∧
    train_test_split L (drop_columns ["fraud_label"] Xy) y' seed
      = OK (X_tr, X_te, y_tr, y_te) ∧
    ct_columns pre0 = map fst (columns (drop_columns ["fraud_label"] Xy)) ∧
    (fit_and_eval L fam (train_closure df y X_tr X_te y_tr y_te seed) u pre0 clf0).2
      = OK (m0, c, p) ∧
    (if rs then ∃ bp, m = <["best_params" := VParams bp]> m0 else m = m0).
Proof.
  unfold train. intros H.
  bind_inv H s Hs. bind_inv H label Hlabel. bind_inv H y Hy. cbv zeta in H.
  bind_inv H Xy HXy. bind_inv H s' Hs'. bind_inv H label' Hlabel'.
  bind_inv H y' Hy'. bind_inv H parts Hsplit.
  destruct parts as [[[X_tr X_te] y_tr] y_te].
  assert (Hcol : assoc "fraud_label" (columns df) = Some (Floats label)).
  { unfold getitem in Hs. destruct (assoc "fraud_label" (columns df)); [|done].
    injection Hs as ->. destruct s; [|done]. by injection Hlabel as ->. }
  clear Hs Hlabel.
  destruct rs; cbn [negb] in H.
  - destruct (fit_transform L _ X_tr) as [pre1 X_all] eqn:Hft.
    bind_inv H X_all0 Hall. bind_inv H resampled Hsmote.
    destruct resampled as [X_all' y_all].
    bind_inv H found Hsearch. destruct found as [best bp].
    bind_inv H run Hrun. destruct run as [[m0 c0] p0]. injection H as <- <- <-.
    eexists label, _, _, _, X_tr, X_te, y_tr, y_te, pre1, best, m0.
    repeat split; try eassumption; try reflexivity.
    + pose proof (fit_transform_columns L
        {| ct_columns := map fst (columns (drop_columns ["fraud_label"] Xy));
           ct_statistics := None |} X_tr) as Hc.
      rewrite Hft in Hc. exact Hc.
    + by eexists.
  - eexists label, _, _, _, X_tr, X_te, y_tr, y_te, _, _, m.
    repeat split; try eassumption; try reflexivity.
Qed.

Lemma astype_int_gap v :
  NaN ∈ v →
  astype_int v
  = Raise (ValueError "Cannot convert non-finite values (NA or inf) to integer").
Proof.
  unfold astype_int. induction v as [|x t IH]; [by intros ?%elem_of_nil|].
  intros Hin. cbn [mapM]. destruct x as [q|]; [|done].
  cbn [mbind exc_bind]. rewrite IH; [done|].
  apply elem_of_cons in Hin as [Hin|Hin]; [discriminate Hin|done].
Qed.

Lemma astype_int_length v y : astype_int v = OK y → length y = length v.
Proof.
  unfold astype_int. revert y. induction v as [|x t IH]; intros y.
  - by intros [= <-].
  - cbn [mapM]. destruct x as [q|]; [|done]. cbn [mbind exc_bind].
    destruct (mapM _ t) as [k|]; [|done]. cbn [mbind exc_bind mret exc_ret].
    intros [= <-]. cbn [length]. f_equal. by apply IH.
Qed.

(** X14. A single row without a label stops every training function, whatever
    the model family and the options: the label column cannot be cast to
    integers. The loader fills every numeric gap but those of the label. *)
Theorem train_rejects_unlabelled_rows
    L fam u (df : DataFrame) rs n cv seed (label : list float) :
  assoc "fraud_label" (columns df) = Some (Floats label) →
  NaN ∈ label →
  train L fam u df rs n cv seed
  = Raise (ValueError "Cannot convert non-finite values (NA or inf) to integer").
Proof.
  intros Hcol Hgap. unfold train, getitem. rewrite Hcol.
  cbn [mbind exc_bind numeric]. by rewrite (astype_int_gap _ Hgap).
Qed.

Lemma train_rejects_unlabelled_rows_witness :
  train_random_forest toy_library "2024-05-01T10:00:00" toy_prepared true 42
  = Raise (ValueError "Cannot convert non-finite values (NA or inf) to integer").
Proof.
  apply (train_rejects_unlabelled_rows toy_library RandomForest
           "2024-05-01T10:00:00" toy_prepared
           true 25 5 42 [fl 0; fl 1; NaN]).
  - reflexivity.
  - do 2 constructor. constructor.
Defined.

(** ** The metrics of a completed training *)

Lemma fit_and_eval_inv_2 L fam env u pre clf m c p :
  (fit_and_eval L fam env u pre clf).2 = OK (m, c, p) →
  fit_and_eval L fam env u pre clf
  = ((fit_and_eval L fam env u pre clf).1, OK (m, c, p)).
Proof.
  destruct (fit_and_eval L fam env u pre clf) as [pre' r]. cbn [fst snd].
  by intros ->.
Qed.

Lemma base_metrics_bookkeeping fam env u X_tr y_tr acc prec rec f1 roc ap rep :
  let m := base_metrics fam env u X_tr y_tr acc prec rec f1 roc ap rep in
  m !! "best_params" = None ∧
  m !! "original_total" = Some (VInt (original_total env)) ∧
  m !! "original_fraud" = Some (VInt (original_fraud env)) ∧
  m !! "original_fraud_rate" = Some (VFloat (original_fraud_rate env)).
Proof.
  unfold base_metrics. cbv zeta. rewrite !list_to_map_assoc.
  destruct fam; repeat split; reflexivity.
Qed.

(** What a completed run of [fit_and_eval] reports under the keys that the two
    best-effort blocks do not write. *)
Lemma fit_and_eval_bookkeeping L fam env u pre clf m c p :
  (fit_and_eval L fam env u pre clf).2 = OK (m, c, p) →
  m !! "best_params" = None ∧
  m !! "original_total" = Some (VInt (original_total env)) ∧
  m !! "original_fraud" = Some (VInt (original_fraud env)) ∧
  m !! "original_fraud_rate" = Some (VFloat (original_fraud_rate env)).
Proof.
  intros Hrun%fit_and_eval_inv_2.
  destruct (fit_and_eval_inv _ _ _ _ _ _ _ _ _ _ Hrun)
    as (? & ? & X_tr & y_tr & proba & acc & prec & rec & f1 & roc & ap & rep &
        _ & _ & _ & _ & _ & _ & _ & _ & _ & _ & _ & _ & _ & ->).
  rewrite !with_diagnostics_lookup by done.
  apply base_metrics_bookkeeping.
Qed.

Lemma toy_run_completes (rs : bool) :
  ∃ m c p,
    train_xgb toy_library "2024-05-01T10:00:00" toy_frame rs 42 = OK (m, c, p).
Proof.
  assert (H : is_ok (train_xgb toy_library "2024-05-01T10:00:00" toy_frame rs 42)
              = true) by (destruct rs; vm_compute; reflexivity).
  apply is_ok_inv in H as [[[m c] p] H]. by exists m, c, p.
Qed.

(** X15. The metrics of a completed training carry [best_params] exactly when the
    random search ran. *)
Theorem best_params_only_after_search
    L fam u (df : DataFrame) (rs : bool) n cv seed m c p :
  train L fam u df rs n cv seed = OK (m, c, p) →
  is_Some (m !! "best_params") ↔ rs = true.
Proof.
  intros Hrun.
  destruct (train_inv _ _ _ _ _ _ _ _ _ _ _ Hrun)
    as (label & y & Xy & y' & X_tr & X_te & y_tr & y_te & pre0 & clf0 & m0 &
        _ & _ & _ & _ & _ & Hfit & Hm).
  destruct (fit_and_eval_bookkeeping _ _ _ _ _ _ _ _ _ Hfit) as (Hnone & _).
  destruct rs.
  - destruct Hm as [bp ->]. rewrite lookup_insert_eq. split; [done|by eexists].
  - subst m. rewrite Hnone. split; [by intros [? ?]|done].
Qed.

Lemma best_params_only_after_search_witness :
  ∃ m c p,
    train_xgb toy_library "2024-05-01T10:00:00" toy_frame true 42 = OK (m, c, p) ∧
    (is_Some (m !! "best_params") ↔ true = true).
Proof.
  destruct (toy_run_completes true) as (m & c & p & Hrun).
  exists m, c, p. split; [exact Hrun|].
  exact (best_params_only_after_search toy_library XGBoost
           "2024-05-01T10:00:00" toy_frame true
           20 5 42 m c p Hrun).
Defined.

(** X16. The totals reported as [original_total], [original_fraud] and
    [original_fraud_rate] are taken over all rows of the table handed in,
    before the outlier filter and the split: the row count, the number of
    frauds and their share. *)
Theorem original_counts_precede_filtering
    L fam u (df : DataFrame) rs n cv seed m c p :
  well_formed df →
  train L fam u df rs n cv seed = OK (m, c, p) →
  ∃ label y,
    assoc "fraud_label" (columns df) = Some (Floats label) ∧
    astype_int label = OK y ∧
    m !! "original_total" = Some (VInt (Z.of_nat (nrows df))) ∧
    m !! "original_fraud" = Some (VInt (sum_Z y)) ∧
    m !! "original_fraud_rate" = Some (VFloat (mean_Z y)).
Proof.
  intros Hwf Hrun.
  destruct (train_inv _ _ _ _ _ _ _ _ _ _ _ Hrun)
    as (label & y & Xy & y' & X_tr & X_te & y_tr & y_te & pre0 & clf0 & m0 &
        Hcol & Hy & _ & _ & _ & Hfit & Hm).
  destruct (fit_and_eval_bookkeeping _ _ _ _ _ _ _ _ _ Hfit)
    as (_ & Htotal & Hfraud & Hrate).
  cbn [train_closure original_total original_fraud original_fraud_rate]
    in Htotal, Hfraud, Hrate.
  assert (Hlen : length y = nrows df).
  { rewrite (astype_int_length _ _ Hy).
    apply (well_formed_assoc _ _ _ Hwf Hcol). }
  rewrite Hlen in Htotal.
  exists label, y. split; [done|]. split; [done|].
  destruct rs; [destruct Hm as [bp ->]; rewrite !lookup_insert_ne by done|subst m];
    done.
Qed.

Lemma original_counts_precede_filtering_witness :
  ∃ m c p,
    train_xgb toy_library "2024-05-01T10:00:00" toy_frame false 42 = OK (m, c, p) ∧
    ∃ label y,
      assoc "fraud_label" (columns toy_frame) = Some (Floats label) ∧
      astype_int label = OK y ∧
      m !! "original_total" = Some (VInt (Z.of_nat (nrows toy_frame))) ∧
      m !! "original_fraud" = Some (VInt (sum_Z y)) ∧
      m !! "original_fraud_rate" = Some (VFloat (mean_Z y)).
Proof.
  destruct (toy_run_completes false) as (m & c & p & Hrun).
  exists m, c, p. split; [exact Hrun|].
  apply (original_counts_precede_filtering toy_library XGBoost
           "2024-05-01T10:00:00" toy_frame false
           20 5 42 m c p); [|exact Hrun].
  apply well_formed_check. reflexivity.
Defined.

(** ** The preprocessor handed back *)

Lemma map_fst_filter_names {A} (names : list string) (l : list (string * A)) :
  map fst (List.filter (fun c => negb (existsb (String.eqb c.1) names)) l)
  = List.filter (fun k => negb (existsb (String.eqb k) names)) (map fst l).
Proof.
  induction l as [|[k x] t IH]; [done|]. cbn [List.filter map fst].
  destruct (negb _); cbn [map fst]; by rewrite IH.
Qed.

Lemma drop_columns_names names df :
  map fst (columns (drop_columns names df))
  = List.filter (fun k => negb (existsb (String.eqb k) names))
                (map fst (columns df)).
Proof. apply map_fst_filter_names. Qed.

Lemma filter_all {A} (f : A → bool) (l : list A) :
  Forall (fun x => f x = true) l → List.filter f l = l.
Proof.
  induction 1 as [|x t Hx _ IH]; [done|]. cbn [List.filter].
  by rewrite Hx, IH.
Qed.

Lemma feature_columns_names df :
  Forall (fun k => k ≠ "fraud_label" ∧ k ≠ "address")
         (map fst (feature_columns df)).
Proof.
  unfold feature_columns, drop_columns. cbn [columns].
  apply Forall_forall. intros k Hk.
  apply list_elem_of_fmap in Hk as ([k' s] & -> & Hin). cbn [fst].
  apply list_elem_of_In, filter_In in Hin as [Hin _].
  apply filter_In in Hin as [_ Hin]. cbn [fst existsb] in Hin.
  rewrite orb_false_r in Hin. apply negb_true_iff, orb_false_iff in Hin as [H1 H2].
  split; intros ->; by rewrite String.eqb_refl in *.
Qed.

Lemma iqr_clip_names df cols k df' :
  iqr_clip df cols k = OK df' → map fst (columns df') = map fst (columns df).
Proof.
  unfold iqr_clip. destruct (iqr_keep_mask _ _ _ _) as [mask|]; [|done].
  cbn [mbind exc_bind]. intros [= <-]. unfold loc. cbn [columns].
  rewrite map_map. by apply map_ext.
Qed.

Lemma fit_and_eval_returns_fitted L fam env u pre clf m c p :
  (fit_and_eval L fam env u pre clf).2 = OK (m, c, p) →
  ct_columns p = ct_columns pre ∧ is_Some (ct_statistics p).
Proof.
  intros Hrun%fit_and_eval_inv_2.
  destruct (fit_and_eval_inv _ _ _ _ _ _ _ _ _ _ Hrun)
    as (X0 & ? & ? & ? & ? & ? & ? & ? & ? & ? & ? & ? &
        Hft & _ & _ & _ & _ & _ & _ & _ & _ & _ & _ & _ & -> & _).
  unfold fit_transform in Hft.
  destruct (select_columns _ _); injection Hft as Hpre HX; [|discriminate HX].
  rewrite <- Hpre. split; [done|by eexists].
Qed.

(** X17. The preprocessor that a completed training on a table with distinct
    column names hands back is fitted, and its columns are exactly the
    numeric columns of the table other than [fraud_label] and [address], in
    the order of the table: the outlier filter and the split remove rows,
    never columns. *)
Theorem returned_preprocessor_covers_features
    L fam u (df : DataFrame) rs n cv seed m c p :
  distinct_names df →
  train L fam u df rs n cv seed = OK (m, c, p) →
  ct_columns p = map fst (feature_columns df) ∧
  is_Some (ct_statistics p) ∧
  ("fraud_label" ∉ ct_columns p) ∧ ("address" ∉ ct_columns p).
Proof.
  intros _ Hrun.
  destruct (train_inv _ _ _ _ _ _ _ _ _ _ _ Hrun)
    as (label & y & Xy & y' & X_tr & X_te & y_tr & y_te & pre0 & clf0 & m0 &
        _ & _ & Hclip & _ & Hpre & Hfit & _).
  destruct (fit_and_eval_returns_fitted _ _ _ _ _ _ _ _ _ Hfit) as [Hcols Hstat].
  pose proof (feature_columns_names df) as Hnames.
  assert (Heq : ct_columns p = map fst (feature_columns df)).
  { rewrite Hcols, Hpre, drop_columns_names, (iqr_clip_names _ _ _ _ Hclip).
    unfold concat_label. cbn [columns]. rewrite map_app, List.filter_app.
    cbn [map fst List.filter existsb String.eqb Ascii.eqb Bool.eqb orb negb andb].
    rewrite app_nil_r. apply filter_all.
    eapply Forall_impl; [exact Hnames|]. intros k [Hk _]. cbn [existsb].
    rewrite orb_false_r. apply negb_true_iff. by apply eqb_false_of_ne. }
  rewrite Heq. split; [done|]. split; [done|].
  rewrite Forall_forall in Hnames.
  split; intros Hin; by destruct (Hnames _ Hin).
Qed.

Lemma returned_preprocessor_covers_features_witness :
  ∃ m c p,
    train_xgb toy_library "2024-05-01T10:00:00" toy_frame false 42 = OK (m, c, p) ∧
    ct_columns p = map fst (feature_columns toy_frame) ∧
    is_Some (ct_statistics p) ∧
    ("fraud_label" ∉ ct_columns p) ∧ ("address" ∉ ct_columns p).
Proof.
  destruct (toy_run_completes false) as (m & c & p & Hrun).
  exists m, c, p. split; [exact Hrun|].
  exact (returned_preprocessor_covers_features toy_library XGBoost
           "2024-05-01T10:00:00" toy_frame false 20 5 42 m c p
           (distinct_names_check toy_frame eq_refl) Hrun).
Defined.

(** ** The events of a completed training *)

Lemma substring_length_le (n : nat) (s : string) :
  (String.length (substring 0 n s) ≤ n)%nat.
Proof.
  revert s. induction n as [|n IH]; intros [|a s]; cbn [substring String.length];
    try lia. specialize (IH s). lia.
Qed.

Lemma events_of_well_formed df_events :
  (length (events_of df_events) ≤ 20)%nat ∧
  Forall (fun e => (status e = "fraud" ∨ status e = "legitimate") ∧
                   time e = "just now" ∧
                   (String.length (address e) ≤ 12)%nat)
         (events_of df_events).
Proof.
  unfold events_of. cbv zeta. split.
  - rewrite length_app, !length_map, !length_take. lia.
  - apply Forall_app. split; apply Forall_forall; intros e He;
      apply list_elem_of_fmap in He as (r & -> & _);
      cbn [fraud_event legitimate_event status time address];
      (split; [auto|split; [done|apply substring_length_le]]).
Qed.

(** X18. The metrics of a completed training always carry a [recent_events] list,
    empty when the events could not be built. It has at most twenty events;
    each has the status [fraud] or [legitimate], the time [just now] and an
    address cut to at most twelve characters. *)
Theorem recent_events_are_well_formed
    L fam u (df : DataFrame) rs n cv seed m c p :
  train L fam u df rs n cv seed = OK (m, c, p) →
  m !! "recent_events" = Some (VEvents (recent_events m)) ∧
  (length (recent_events m) ≤ 20)%nat ∧
  Forall (fun e => (status e = "fraud" ∨ status e = "legitimate") ∧
                   time e = "just now" ∧
                   (String.length (address e) ≤ 12)%nat)
         (recent_events m).
Proof.
  intros Hrun.
  destruct (train_inv _ _ _ _ _ _ _ _ _ _ _ Hrun)
    as (label & y & Xy & y' & X_tr & X_te & y_tr & y_te & pre0 & clf0 & m0 &
        _ & _ & _ & _ & _ & Hfit & Hm).
  apply fit_and_eval_inv_2 in Hfit.
  destruct (fit_and_eval_inv _ _ _ _ _ _ _ _ _ _ Hfit)
    as (? & ? & X_tr' & y_tr' & proba & acc & prec & rec & f1 & roc & ap & rep &
        _ & _ & _ & _ & _ & _ & _ & _ & _ & _ & _ & _ & _ & Hm0).
  assert (Hsame : m !! "recent_events" = m0 !! "recent_events").
  { destruct rs; [destruct Hm as [bp ->]; by rewrite lookup_insert_ne|by subst]. }
  unfold recent_events. rewrite Hsame. fold (recent_events m0).
  assert (Hentry : ∃ l, m0 !! "recent_events" = Some (VEvents l)).
  { rewrite Hm0. unfold with_diagnostics, with_events.
    destruct (events_block _ _ _ _ _); rewrite lookup_insert_eq; by eexists. }
  destruct Hentry as [l Hl].
  assert (Hr : recent_events m0 = l) by (unfold recent_events; by rewrite Hl).
  rewrite Hr. split; [done|].
  rewrite <- Hr, Hm0, recent_events_with_diagnostics.
  destruct (events_block _ _ _ _ _) as [events|] eqn:Hev.
  - unfold events_block in Hev.
    destruct (series_loc _ _ _); cbn [mbind exc_bind] in Hev; [|discriminate Hev].
    destruct (negb _); [discriminate Hev|]. injection Hev as <-.
    apply events_of_well_formed.
  - split; [simpl; lia|constructor].
Qed.

Lemma recent_events_are_well_formed_witness :
  ∃ m c p,
    train_xgb toy_library "2024-05-01T10:00:00" toy_frame false 42 = OK (m, c, p) ∧
    m !! "recent_events" = Some (VEvents (recent_events m)) ∧
    (length (recent_events m) ≤ 20)%nat ∧
    Forall (fun e => (status e = "fraud" ∨ status e = "legitimate") ∧
                     time e = "just now" ∧
                     (String.length (address e) ≤ 12)%nat)
           (recent_events m).
Proof.
  destruct (toy_run_completes false) as (m & c & p & Hrun).
  exists m, c, p. split; [exact Hrun|].
  exact (recent_events_are_well_formed toy_library XGBoost
           "2024-05-01T10:00:00" toy_frame false 20 5 42 m c p Hrun).
Defined.

(** ** From the loader to the training functions *)

Lemma is_Some_assoc_renamed {A B} (f : string → string) (g : A → B)
    (k : string) (l : list (string * A)) :
  is_Some (assoc k l) →
  is_Some (assoc (f k) (map (fun c => (f c.1, g c.2)) l)).
Proof.
  induction l as [|[k0 x] t IH]; cbn [assoc map fst snd]; [by intros [? ?]|].
  destruct (String.eqb k0 k) eqn:Hk.
  - apply String.eqb_eq in Hk as ->. by rewrite String.eqb_refl.
  - intros H. destruct (String.eqb (f k0) (f k)); [by eexists|by apply IH].
Qed.

Lemma is_Some_assoc_app_l {A} (k : string) (l1 l2 : list (string * A)) :
  is_Some (assoc k l1) → is_Some (assoc k (l1 ++ l2)).
Proof. intros [s Hs]. rewrite assoc_app, Hs. by eexists. Qed.

Lemma rename_has_label feats :
  Prepare.has_column feats "flag" || Prepare.has_column feats "FLAG" = true →
  is_Some (assoc "fraud_label"
             (columns (Prepare.rename Prepare.canonical_names feats))).
Proof.
  intros [H|H]%orb_true_iff; apply has_column_assoc in H;
    unfold Prepare.rename; cbn [columns].
  - apply (is_Some_assoc_renamed
             (fun c => default c (assoc c Prepare.canonical_names))
             (fun s => s) "flag") in H.
    erewrite map_ext; [exact H|]. by intros [? ?].
  - apply (is_Some_assoc_renamed
             (fun c => default c (assoc c Prepare.canonical_names))
             (fun s => s) "FLAG") in H.
    erewrite map_ext; [exact H|]. by intros [? ?].
Qed.

Lemma is_Some_assoc_set_column n s df c :
  is_Some (assoc c (columns df)) →
  is_Some (assoc c (columns (set_column n s df))).
Proof.
  intros H. rewrite assoc_set_column. by destruct (String.eqb n c); [eexists|].
Qed.

Lemma merge_keeps_column feats keys counts df c :
  c ≠ "transaction_count" →
  Prepare.merge_transaction_count feats keys counts = OK df →
  is_Some (assoc c (columns feats)) → is_Some (assoc c (columns df)).
Proof.
  intros Hc Hm Hsome. unfold Prepare.merge_transaction_count in Hm.
  bind_inv Hm address Haddress. bind_inv Hm checked Hchecked. cbv zeta in Hm.
  injection Hm as <-. cbn [columns].
  apply is_Some_assoc_app_l.
  set (left_name := fun c0 : string =>
         if existsb (String.eqb "transaction_count") (map fst (columns feats))
            && String.eqb c0 "transaction_count"
         then "transaction_count_x" else c0).
  assert (Hfix : left_name c = c).
  { unfold left_name. rewrite (eqb_false_of_ne _ _ Hc). by rewrite andb_false_r. }
  rewrite <- Hfix at 1.
  exact (is_Some_assoc_renamed left_name _ c (columns feats) Hsome).
Qed.

(** A table that the loader returns has the columns [address] and
    [fraud_label]. *)
Lemma load_and_prepare_keeps_key_columns tx feats df :
  Prepare.load_and_prepare tx feats = OK df →
  is_Some (assoc "address" (columns df)) ∧
  is_Some (assoc "fraud_label" (columns df)).
Proof.
  unfold Prepare.load_and_prepare.
  destruct (Prepare.has_column feats "address") eqn:Ha; cbn [negb]; [|done].
  destruct (Prepare.has_column feats "flag" || Prepare.has_column feats "FLAG")
    eqn:Hflag; cbn [negb]; [|done].
  intros H. bind_inv H counted Htc. cbv zeta in H. bind_inv H f Hf.
  injection H as <-.
  assert (Haddr : is_Some (assoc "address"
            (columns (Prepare.rename Prepare.canonical_names feats)))).
  { rewrite assoc_rename_fixed by auto. by apply has_column_assoc. }
  pose proof (rename_has_label feats Hflag) as Hlabel.
  assert (Hboth : is_Some (assoc "address" (columns f)) ∧
                  is_Some (assoc "fraud_label" (columns f))).
  { destruct counted as [[keys counts]|].
    - split; eapply merge_keeps_column; eauto; discriminate.
    - destruct (_ && _) in Hf.
      + bind_inv Hf sent Hsent. bind_inv Hf received Hreceived.
        bind_inv Hf total Htotal. injection Hf as <-.
        split; by apply is_Some_assoc_set_column.
      + injection Hf as <-. split; by apply is_Some_assoc_set_column. }
  destruct Hboth as [[s1 H1] [s2 H2]].
  rewrite !assoc_fill_numeric_gaps, H1, H2. split; by eexists.
Qed.


(** A completed run of [engineer_features] only added columns, and it found
    [transaction_count]. *)
Lemma engineer_features_inv log1p df df' :
  Prepare.engineer_features log1p df = OK df' →
  is_Some (assoc "transaction_count" (columns df)) ∧
  (∀ c, is_Some (assoc c (columns df)) → is_Some (assoc c (columns df'))) ∧
  (∀ c, c ∈ Prepare.engineered_names → is_Some (assoc c (columns df'))).
Proof.
  unfold Prepare.engineer_features. intros H.
  bind_inv H total_sent E1. bind_inv H total_received E2. cbv zeta in H.
  bind_inv H avg_sent E3. bind_inv H avg_received E4.
  bind_inv H total E5. bind_inv H creation E6. bind_inv H interaction E7.
  bind_inv H count E8. bind_inv H count' E9.
  bind_inv H with_balance E10.
  bind_inv H received E11. bind_inv H sent E12.
  bind_inv H max_sent E13. bind_inv H min_sent E14.
  bind_inv H max_received E15. bind_inv H min_received E16.
  bind_inv H creation' E17. bind_inv H interaction' E18.
  bind_inv H balance E19. bind_inv H count'' E20.
  injection H as <-.
  assert (Hcount : is_Some (assoc "transaction_count" (columns df))).
  { unfold getitem in E8. rewrite !assoc_set_column in E8.
    cbn [String.eqb Ascii.eqb Bool.eqb andb] in E8.
    destruct (assoc "transaction_count" (columns df)); [by eexists|done]. }
  assert (Hbalance :
    ∃ v, with_balance = set_column "is_high_balance" (Floats v)
           (set_column "interaction_with_contract_ratio"
              (Floats (Prepare.safe_div (map2 fadd creation interaction)
                         (map2 fadd total count')))
              (set_column "avg_sent_to_avg_received"
                 (Floats (Prepare.safe_div avg_sent avg_received))
                 (set_column "sent_to_received_ratio"
                    (Floats (Prepare.safe_div total_sent total_received)) df)))).
  { destruct (assoc "account_balance" _) in E10.
    - bind_inv E10 bal Ebal. injection E10 as <-. by eexists.
    - injection E10 as <-. by eexists. }
  destruct Hbalance as [v ->].
  clear E1 E2 E3 E4 E5 E6 E7 E8 E9 E10 E11 E12 E13 E14 E15 E16 E17 E18 E19 E20.
  split; [exact Hcount|]. split.
  - intros c Hc. rewrite !assoc_set_column.
    repeat match goal with
           | |- context [String.eqb ?n c] =>
               destruct (String.eqb n c); [eexists; reflexivity|]
           end.
    exact Hc.
  - intros c Hc. unfold Prepare.engineered_names in Hc.
    repeat (apply elem_of_cons in Hc as [->|Hc];
            [rewrite !assoc_set_column;
             cbn [String.eqb Ascii.eqb Bool.eqb andb]; eexists; reflexivity|]).
    by apply elem_of_nil in Hc.
Qed.

(** X19. A table that went through the loader and the feature engineering has
    the address, the label, the transaction count and the eleven engineered
    columns: a later check for a missing [fraud_label] cannot fail. *)
Theorem prepared_table_has_training_columns
    (log1p : float → float) (tx feats df df' : DataFrame) :
  Prepare.load_and_prepare tx feats = OK df →
  Prepare.engineer_features log1p df = OK df' →
  ∀ c, c ∈ "address" :: "fraud_label" :: "transaction_count"
             :: Prepare.engineered_names →
       is_Some (assoc c (columns df')).
Proof.
  intros Hload Heng c Hc.
  destruct (load_and_prepare_keeps_key_columns _ _ _ Hload) as [Haddr Hlabel].
  destruct (engineer_features_inv _ _ _ Heng) as (Hcount & Hold & Hnew).
  apply elem_of_cons in Hc as [->|Hc]; [by apply Hold|].
  apply elem_of_cons in Hc as [->|Hc]; [by apply Hold|].
  apply elem_of_cons in Hc as [->|Hc]; [by apply Hold|].
  by apply Hnew.
Qed.

Lemma prepared_table_has_training_columns_witness :
  ∃ df', Prepare.engineer_features id toy_prepared = OK df' ∧
    ∀ c, c ∈ "address" :: "fraud_label" :: "transaction_count"
               :: Prepare.engineered_names →
         is_Some (assoc c (columns df')).
Proof.
  assert (H : is_ok (Prepare.engineer_features id toy_prepared) = true)
    by (vm_compute; reflexivity).
  apply is_ok_inv in H as [df' H]. exists df'. split; [exact H|].
  apply (prepared_table_has_training_columns id toy_ledger toy_features
           toy_prepared df'); [reflexivity|exact H].
Defined.

(** ** Quantile thresholds and the largest value *)













(** ** The loader without a ledger *)

Lemma fillna_0_fixed v : NaN ∉ v → fillna_0 v = v.
Proof.
  unfold fillna_0. induction v as [|x t IH]; [done|].
  intros Hv. cbn [map]. rewrite IH.
  - destruct x; [done|]. exfalso. apply Hv. constructor.
  - intros Hin. apply Hv. by constructor.
Qed.

Lemma sum_of_filled_has_no_gap s r :
  NaN ∉ map2 fadd (fillna_0 s) (fillna_0 r).
Proof.
  intros (x & y & Hx & Hy & Hsum)%map2_elem.
  destruct x as [a|]; [|by apply fillna_0_no_gap in Hx].
  destruct y as [b|]; [|by apply fillna_0_no_gap in Hy].
  discriminate Hsum.
Qed.

(** X22. When the ledger lacks one of its two address columns and the
    feature table, well formed and with distinct column names once they are
    canonical, has the two frequency columns with integer counts of moderate
    size (on which the sum is exact), the transaction count of a row is the
    sum of its two frequencies, a missing frequency counting as 0; the rows
    keep their index. *)
Theorem transaction_count_without_ledger
    (tx feats : DataFrame) (sent received : list float) :
  well_formed feats →
  distinct_names (Prepare.rename Prepare.canonical_names feats) →
  forallb is_exact sent = true → forallb is_exact received = true →
  Prepare.has_column tx "from_address" && Prepare.has_column tx "to_address"
    = false →
  Prepare.has_column feats "address" = true →
  Prepare.has_column feats "flag" || Prepare.has_column feats "FLAG" = true →
  assoc "transaction_frequency_sent"
        (columns (Prepare.rename Prepare.canonical_names feats))
    = Some (Floats sent) →
  assoc "transaction_frequency_received"
        (columns (Prepare.rename Prepare.canonical_names feats))
    = Some (Floats received) →
  ∃ df, Prepare.load_and_prepare tx feats = OK df ∧
    index df = index feats ∧
    assoc "transaction_count" (columns df)
      = Some (Floats (map2 fadd (fillna_0 sent) (fillna_0 received))).
Proof.
  intros _ _ _ _ Htx Ha Hflag Hsent Hreceived. unfold Prepare.load_and_prepare.
  rewrite Ha, Hflag, Htx. cbn [negb mbind exc_bind].
  assert (H1 : Prepare.has_column (Prepare.rename Prepare.canonical_names feats)
                 "transaction_frequency_sent" = true)
    by (apply has_column_assoc; rewrite Hsent; by eexists).
  assert (H2 : Prepare.has_column (Prepare.rename Prepare.canonical_names feats)
                 "transaction_frequency_received" = true)
    by (apply has_column_assoc; rewrite Hreceived; by eexists).
  rewrite H1, H2. cbn [andb]. unfold getitem. rewrite Hsent, Hreceived.
  cbn [mbind exc_bind Prepare.series_fillna_0 Prepare.series_add].
  eexists. split; [reflexivity|]. split; [reflexivity|].
  rewrite assoc_fill_numeric_gaps, assoc_set_column.
  cbn [String.eqb Ascii.eqb Bool.eqb andb negb fmap option_fmap option_map
       is_numeric_dtype Prepare.series_fillna_0].
  do 2 f_equal. apply fillna_0_fixed, sum_of_filled_has_no_gap.
Qed.

Lemma transaction_count_without_ledger_witness :
  ∃ df, Prepare.load_and_prepare flagged_frame toy_features = OK df ∧
    index df = index toy_features ∧
    assoc "transaction_count" (columns df)
      = Some (Floats (map2 fadd (fillna_0 [fl 2; fl 1; NaN])
                                (fillna_0 [fl 1; NaN; NaN]))).
Proof.
  apply (transaction_count_without_ledger flagged_frame toy_features
           [fl 2; fl 1; NaN] [fl 1; NaN; NaN]); try reflexivity.
  - apply well_formed_check. reflexivity.
  - apply distinct_names_check. reflexivity.
Defined.

(** ** The frequency flag column *)

Lemma get_col_set_column n v df c :
  n ≠ c → get_col (set_column n (Floats v) df) c = get_col df c.
Proof.
  intros Hne. unfold get_col. rewrite assoc_set_column.
  by rewrite (eqb_false_of_ne _ _ Hne).
Qed.

Lemma total_txn_freq_set_column n v df :
  n ≠ "transaction_frequency_sent" → n ≠ "transaction_frequency_received" →
  total_txn_freq (set_column n (Floats v) df) = total_txn_freq df.
Proof.
  intros H1 H2. unfold total_txn_freq. by rewrite !get_col_set_column.
Qed.

(** The column that a completed [engineer_features] holds under
    [high_txn_freq_flag]. *)
Lemma engineer_features_freq_flag log1p df df' :
  Prepare.engineer_features log1p df = OK df' →
  ∃ total, total_txn_freq df = OK total ∧
    assoc "high_txn_freq_flag" (columns df')
    = Some (Floats (map of_Z (high_txn_freq_flag_of total))).
Proof.
  unfold Prepare.engineer_features. intros H.
  bind_inv H total_sent E1. bind_inv H total_received E2. cbv zeta in H.
  bind_inv H avg_sent E3. bind_inv H avg_received E4.
  bind_inv H total E5. bind_inv H creation E6. bind_inv H interaction E7.
  bind_inv H count E8. bind_inv H count' E9.
  bind_inv H with_balance E10.
  bind_inv H received E11. bind_inv H sent E12.
  bind_inv H max_sent E13. bind_inv H min_sent E14.
  bind_inv H max_received E15. bind_inv H min_received E16.
  bind_inv H creation' E17. bind_inv H interaction' E18.
  bind_inv H balance E19. bind_inv H count'' E20.
  injection H as <-.
  rewrite !total_txn_freq_set_column in E5 by done.
  exists total. split; [exact E5|].
  clear E1 E2 E3 E4 E5 E6 E7 E8 E9 E10 E11 E12 E13 E14 E15 E16 E17 E18 E19 E20.
  rewrite !assoc_set_column. cbn [String.eqb Ascii.eqb Bool.eqb andb].
  reflexivity.
Qed.

Lemma engineer_features_completes df :
  is_ok (Prepare.engineer_features id df) = true →
  ∃ df', Prepare.engineer_features id df = OK df'.
Proof. apply is_ok_inv. Qed.

(** C3, as amended. On a table with distinct column names whose frequencies
    are integers of moderate size (counts, on which the sum, the quartile
    and the comparison are exact), the column [high_txn_freq_flag] that
    [engineer_features] writes holds in each row 1 when the frequency sum of
    the row is a number that reaches the 75th percentile of the non-zero sums
    of the table (0 when no sum is non-zero), and 0 otherwise. *)
Theorem high_txn_freq_flag_active_quartile
    (log1p : float → float) (df df' : DataFrame) :
  distinct_names df →
  (∀ c v, c = "transaction_frequency_sent"
          ∨ c = "transaction_frequency_received" →
          assoc c (columns df) = Some (Floats v) → forallb is_exact v = true) →
  Prepare.engineer_features log1p df = OK df' →
  ∃ total flags,
    total_txn_freq df = OK total ∧
    assoc "high_txn_freq_flag" (columns df') = Some (Floats flags) ∧
    length flags = length total ∧
    ∀ i x, total !! i = Some x →
      (reaches x (active_q75 total) ∧ flags !! i = Some (fl 1)) ∨
      (¬ reaches x (active_q75 total) ∧ flags !! i = Some (fl 0)).
Proof.
  intros _ _ Heng.
  destruct (engineer_features_freq_flag _ _ _ Heng) as (total & Htotal & Hflag).
  exists total. eexists. split; [exact Htotal|]. split; [exact Hflag|].
  unfold high_txn_freq_flag_of. rewrite code_q75_active.
  split; [by rewrite !length_map|].
  intros i x Hx. rewrite !list_lookup_fmap, Hx.
  cbn [fmap option_fmap option_map].
  destruct (fge x (active_q75 total)) eqn:Hge.
  - left. split; [by apply fge_reaches | done].
  - right. split; [|done]. intros Hr. apply fge_reaches in Hr. congruence.
Qed.

Lemma high_txn_freq_flag_active_quartile_witness :
  ∃ df', Prepare.engineer_features id freq_frame = OK df' ∧
    ∃ total flags,
      total_txn_freq freq_frame = OK total ∧
      assoc "high_txn_freq_flag" (columns df') = Some (Floats flags) ∧
      length flags = length total ∧
      ∀ i x, total !! i = Some x →
        (reaches x (active_q75 total) ∧ flags !! i = Some (fl 1)) ∨
        (¬ reaches x (active_q75 total) ∧ flags !! i = Some (fl 0)).
Proof.
  destruct (engineer_features_completes freq_frame) as [df' Heng];
    [vm_compute; reflexivity|].
  exists df'. split; [exact Heng|].
  apply (high_txn_freq_flag_active_quartile id freq_frame df'); [| |exact Heng].
  - apply distinct_names_check. reflexivity.
  - intros c v [-> | ->] [= <-]; reflexivity.
Defined.

(** C3, as stated, fails on [freq_frame]: the fourth address has frequency
    sum 2, which is the 75th percentile of the sums over all five rows, yet
    the column that [engineer_features] writes holds 0 in its row, whatever
    [log1p] is. *)
Lemma high_txn_freq_flag_not_whole_frame_quartile :
  ∃ total flags,
    total_txn_freq freq_frame = OK total ∧
    total !! 3%nat = Some (fl 2) ∧
    quantile total (3 # 4) = fl 2 ∧
    fge (fl 2) (quantile total (3 # 4)) = true ∧
    flags !! 3%nat = Some (fl 0) ∧
    flags ≠ map of_Z (spec_high_txn_freq_flag_of total) ∧
    ∀ log1p, ∃ df',
      Prepare.engineer_features log1p freq_frame = OK df' ∧
      assoc "high_txn_freq_flag" (columns df') = Some (Floats flags).
Proof.
  exists [fl 0; fl 0; fl 1; fl 2; fl 3], [fl 0; fl 0; fl 0; fl 0; fl 1].
  repeat split; try reflexivity; [discriminate|].
  intros log1p. eexists. split; reflexivity.
Qed.

Example spec_high_txn_freq_flag_freq_frame :
  spec_high_txn_freq_flag_of [fl 0; fl 0; fl 1; fl 2; fl 3] = [0; 0; 0; 1; 1]%Z.
Proof. reflexivity. Qed.

(** X10. When no address has any traffic -- every frequency sum is zero, as
    on a table without the two frequency columns -- the threshold falls back
    to 0 and the column [high_txn_freq_flag] that [engineer_features] writes
    holds 1 in every row. *)
Theorem idle_table_flags_every_row
    (log1p : float → float) (df df' : DataFrame) (total : list float) :
  distinct_names df →
  Prepare.engineer_features log1p df = OK df' →
  total_txn_freq df = OK total →
  Forall (fun x => feq0 x = true) total →
  assoc "high_txn_freq_flag" (columns df')
  = Some (Floats (replicate (length total) (fl 1))).
Proof.
  intros _ Heng Htotal Hidle.
  destruct (engineer_features_freq_flag _ _ _ Heng) as (total' & Htotal' & ->).
  rewrite Htotal in Htotal'. injection Htotal' as <-.
  rewrite (idle_flags_all_set _ Hidle). do 2 f_equal.
  by induction (length total) as [|n IH]; [|cbn [replicate map]; rewrite IH].
Qed.

Lemma idle_table_flags_every_row_witness :
  ∃ df', Prepare.engineer_features id idle_frame = OK df' ∧
    assoc "high_txn_freq_flag" (columns df')
    = Some (Floats (replicate 3 (fl 1))).
Proof.
  destruct (engineer_features_completes idle_frame) as [df' Heng];
    [vm_compute; reflexivity|].
  exists df'. split; [exact Heng|].
  apply (idle_table_flags_every_row id idle_frame df' [fl 0; fl 0; fl 0]);
    [|exact Heng|reflexivity|repeat constructor].
  apply distinct_names_check. reflexivity.
Defined.



(** ** Standardization across whole runs *)






